(** * Host-side driver of a dual-axis positioner on a CAN bus

    A shallow embedding of [status.py] and [positioner.py]: the bit-field
    status registers, the unit codec, the frame identifier builder and
    parser, and the transaction engine over an explicit model of the
    communication bus. *)

From Stdlib Require Import ZArith QArith Qround Qabs Qpower Lia Lqa Bool.
From Stdlib Require Import Strings.Byte.
From stdpp Require Import base option list strings gmap.

Local Open Scope Z_scope.
Local Open Scope string_scope.
Local Open Scope list_scope.

(** ** status.py: status registers as ctypes bit fields *)

Module Status.

(** A ctypes [_fields_] entry of a bit field: name and width in bits.
    All fields of both structures share one storage type ([uint32_t],
    resp. [uint64_t]), and the structures are [LittleEndianStructure]s:
    consecutive bit fields are allocated upwards from bit 0 of the storage
    unit. *)
Definition fields := list (string * Z).

Definition BootloaderFlagBits : fields :=
  [ ("init", 1);                  (* 0x00000001 *)
    ("timeout", 1);               (* 0x00000002 *)
    ("reserve2", 1);              (* 0x00000004 *)
    ("reserve3", 1);              (* 0x00000008 *)
    ("reserve4", 1);              (* 0x00000010 *)
    ("reserve5", 1);              (* 0x00000020 *)
    ("reserve6", 1);              (* 0x00000040 *)
    ("reserve7", 1);              (* 0x00000080 *)
    ("config_changed", 1);        (* 0x00000100 *)
    ("bsettings_changed", 1);     (* 0x00000200 *)
    ("reserve10", 1);             (* 0x00000400 *)
    ("reserve11", 1);             (* 0x00000800 *)
    ("reserve12", 1);             (* 0x00001000 *)
    ("reserve13", 1);             (* 0x00002000 *)
    ("reserve14", 1);             (* 0x00004000 *)
    ("reserve15", 1);             (* 0x00008000 *)
    ("receiving_firmware", 1);    (* 0x00010000 *)
    ("reserve17", 1);             (* 0x00020000 *)
    ("reserve18", 1);             (* 0x00040000 *)
    ("reserve19", 1);             (* 0x00080000 *)
    ("reserve20", 1);             (* 0x00100000 *)
    ("reserve21", 1);             (* 0x00200000 *)
    ("reserve22", 1);             (* 0x00400000 *)
    ("reserve23", 1);             (* 0x00800000 *)
    ("firmware_received", 1);     (* 0x01000000 *)
    ("firmware_ok", 1);           (* 0x02000000 *)
    ("firmware_bad", 1);          (* 0x04000000 *)
    ("reserve27", 1);             (* 0x08000000 *)
    ("reserve28", 1);             (* 0x10000000 *)
    ("reserve29", 1);             (* 0x20000000 *)
    ("reserve30", 1);             (* 0x40000000 *)
    ("reserve31", 1) ].           (* 0x80000000 *)

Definition PositionerFlagBits : fields :=
  [ ("init", 1);
    ("config_changed", 1);
    ("bsettings_changed", 1);
    ("data_streaming", 1);
    ("receiving_trajectory", 1);
    ("trajectory_alpha_received", 1);
    ("trajectory_beta_received", 1);
    ("low_power_after_move", 1);
    ("displacement_completed", 1);
    ("displacement_completed_alpha", 1);
    ("displacement_completed_beta", 1);
    ("collision_alpha", 1);
    ("collision_beta", 1);
    ("closed_loop_alpha", 1);
    ("closed_loop_beta", 1);
    ("precise_positioning_alpha", 1);
    ("precise_positioning_beta", 1);
    ("collision_detect_alpha_disable", 1);
    ("collision_detect_beta_disable", 1);
    ("motor_calibration", 1);
    ("motor_alpha_calibrated", 1);
    ("motor_beta_calibrated", 1);
    ("datum_calibration", 1);
    ("datum_alpha_calibrated", 1);
    ("datum_beta_calibrated", 1);
    ("datum_initialization", 1);
    ("datum_alpha_initialized", 1);
    ("datum_beta_initialized", 1);
    ("hall_alpha_disable", 1);
    ("hall_beta_disable", 1);
    ("cogging_calibration", 1);
    ("cogging_alpha_calibrated", 1);
    ("cogging_beta_calibrated", 1);
    ("estimated_position", 1);
    ("position_restored", 1);
    ("switch_off_after_move", 1);
    ("calibration_saved", 1);
    ("precise_move_in_open_loop_alpha", 1);
    ("precise_move_in_open_loop_beta", 1);
    ("switch_off_hall_after_move", 1);
    ("reserve41", 1);
    ("reserve42", 1);
    ("reserve43", 1);
    ("reserve44", 1);
    ("reserve45", 1);
    ("reserve46", 1);
    ("reserve47", 1);
    ("reserve48", 1);
    ("reserve49", 1);
    ("reserve50", 1);
    ("reserve51", 1);
    ("reserve52", 1);
    ("reserve53", 1);
    ("reserve54", 1);
    ("reserve55", 1);
    ("reserve56", 1);
    ("reserve57", 1);
    ("reserve58", 1);
    ("reserve59", 1);
    ("reserve60", 1);
    ("reserve61", 1);
    ("reserve62", 1);
    ("reserve63", 1);
    ("reserve64", 1) ].

Definition field_names (fs : fields) : list string := fs.*1.

(** Offset and width of the bit field [name]: the widths of the fields
    declared before it add up to its offset. *)
Fixpoint field_layout (fs : fields) (name : string) (offset : Z) : option (Z * Z) :=
  match fs with
  | [] => None
  | (n, width) :: rest =>
      if String.eqb n name then Some (offset, width)
      else field_layout rest name (offset + width)
  end.

(** The unions [BootloaderStatus] and [PositionerStatus] overlay the
    anonymous bit-field structure [bit] with one unsigned integer [asInt]
    of [storage] bits. An instance is that integer: the flags are read out
    of it, they have no storage of their own. *)
Record Union := { bit : fields; storage : Z }.

Definition BootloaderStatus : Union := {| bit := BootloaderFlagBits; storage := 32 |}.
Definition PositionerStatus : Union := {| bit := PositionerFlagBits; storage := 64 |}.

(** What [asInt] holds after [reg.asInt = v]: ctypes keeps the low bits
    that fit the storage type. *)
Definition set_asInt (u : Union) (v : Z) : Z := v mod 2 ^ storage u.

(** [reg.<name>] for the instance holding [asInt]: the value of the bit
    field, [None] for a name that is not an attribute. *)
Definition getattr (u : Union) (asInt : Z) (name : string) : option Z :=
  match field_layout (bit u) name 0 with
  | Some (offset, width) => Some (Z.land (Z.shiftr asInt offset) (Z.ones width))
  | None => None
  end.

(** Decoding a raw register value: store it, then read the flags. *)
Definition decode (u : Union) (raw : Z) (name : string) : option Z :=
  getattr u (set_asInt u raw) name.

End Status.

(** ** Python values and control effects *)

(** Exceptions the modelled code can raise: a failed dictionary lookup,
    a [struct.error] of [struct.pack] or [struct.unpack], and whatever the
    bus raises from [send] or [recv]. *)
Inductive exn := KeyError | StructError | BusError.

(** What the methods hand back to their caller. *)
Inductive value :=
  | VNone
  | VInt (z : Z)
  | VFloat (q : Q)
  | VPair (a b : value).

(** Python's [round(x)] with one argument: the nearest integer, a tie
    going to the even neighbour. *)
Definition py_round (x : Q) : Z :=
  let f := Qfloor x in
  match (x - inject_Z f ?= 1 # 2)%Q with
  | Lt => f
  | Gt => f + 1
  | Eq => if Z.even f then f else f + 1
  end.

(** ** float: binary64 arithmetic *)

(** A Python float is an IEEE 754 binary64 number, here the rational it
    stands for. Each operation returns the exact result rounded to the
    nearest number with a 53-bit significand, a tie going to the even
    significand; below 2^-1022 the spacing stays that of the subnormal
    numbers. Overflow to infinity, NaN and the sign of zero are not
    modelled: results here stay far from the largest finite number. *)
Module Float64.

(** floor (log2 |x|) for [x] other than 0 *)
Definition ilog2 (x : Q) : Z :=
  let e := Z.log2 (Z.abs (Qnum x)) - Z.log2 (Zpos (Qden x)) in
  if Qle_bool (2 ^ e) (Qabs x) then e else e - 1.

(** Exponent of the unit in the last place of the numbers around [x]. *)
Definition ulp_exponent (x : Q) : Z := Z.max (ilog2 x - 52) (- 1074).

Definition round (x : Q) : Q :=
  let ulp := (2 ^ ulp_exponent x)%Q in
  (inject_Z (py_round (x / ulp)) * ulp)%Q.

Definition mul (x y : Q) : Q := round (x * y).
Definition div (x y : Q) : Q := round (x / y).

End Float64.

(** ** struct: fixed-layout little-endian packing *)

Module Struct.

Definition byte_of_Z (z : Z) : byte :=
  default x00 (Byte.of_N (Z.to_N (z mod 256))).

Definition Z_of_byte (b : byte) : Z := Z.of_N (Byte.to_N b).

(** The [n] low bytes of [z], least significant first. *)
Fixpoint le_bytes (n : nat) (z : Z) : list byte :=
  match n with
  | O => []
  | S k => byte_of_Z z :: le_bytes k (Z.shiftr z 8)
  end.

Fixpoint le_int (bs : list byte) : Z :=
  match bs with
  | [] => 0
  | b :: rest => Z.lor (Z_of_byte b) (Z.shiftl (le_int rest) 8)
  end.

(** Format [i]: signed 32-bit; [I]: unsigned 32-bit. A value outside the
    range of its format is a [struct.error]. *)
Definition pack_i (v : Z) : option (list byte) :=
  if bool_decide (- 2 ^ 31 <= v < 2 ^ 31) then Some (le_bytes 4 (v mod 2 ^ 32)) else None.

Definition pack_I (v : Z) : option (list byte) :=
  if bool_decide (0 <= v < 2 ^ 32) then Some (le_bytes 4 v) else None.

(** [struct.pack('<ii', a, b)] and [struct.pack('<II', a, b)] *)
Definition pack_ii (a b : Z) : option (list byte) :=
  x ← pack_i a; y ← pack_i b; Some (x ++ y).

Definition pack_II (a b : Z) : option (list byte) :=
  x ← pack_I a; y ← pack_I b; Some (x ++ y).

(** [struct.unpack('<Q', data)[0]]: exactly eight bytes, else a
    [struct.error]. *)
Definition unpack_Q (data : list byte) : option Z :=
  if bool_decide (length data = 8%nat) then Some (le_int data) else None.

(** Two's complement reading of an unsigned 32-bit value. *)
Definition signed32 (v : Z) : Z :=
  if bool_decide (v < 2 ^ 31) then v else v - 2 ^ 32.

(** [struct.unpack('<I', data)[0]]: exactly four bytes. *)
Definition unpack_I (data : list byte) : option Z :=
  if bool_decide (length data = 4%nat) then Some (le_int data) else None.

(** [struct.unpack('<II', data)] and [struct.unpack('<ii', data)]:
    exactly eight bytes. *)
Definition unpack_II (data : list byte) : option (Z * Z) :=
  if bool_decide (length data = 8%nat)
  then Some (le_int (take 4 data), le_int (drop 4 data))
  else None.

Definition unpack_ii (data : list byte) : option (Z * Z) :=
  if bool_decide (length data = 8%nat)
  then Some (signed32 (le_int (take 4 data)), signed32 (le_int (drop 4 data)))
  else None.

(** [struct.unpack('<HHHH', data)]: four unsigned 16-bit values. *)
Definition unpack_HHHH (data : list byte) : option (Z * Z * Z * Z) :=
  if bool_decide (length data = 8%nat)
  then Some (le_int (take 2 data), le_int (take 2 (drop 2 data)),
             le_int (take 2 (drop 4 data)), le_int (drop 6 data))
  else None.

(** [struct.unpack('BBBB', data)]: four bytes. *)
Definition unpack_BBBB (data : list byte) : option (Z * Z * Z * Z) :=
  match data with
  | [b0; b1; b2; b3] => Some (Z_of_byte b0, Z_of_byte b1, Z_of_byte b2, Z_of_byte b3)
  | _ => None
  end.

End Struct.

(** ** zlib.crc32 *)

Module Zlib.

Definition crc_shift (c : Z) : Z :=
  if Z.testbit c 0 then Z.lxor (Z.shiftr c 1) 0xEDB88320 else Z.shiftr c 1.

Definition crc_byte (c : Z) (b : byte) : Z :=
  Nat.iter 8 crc_shift (Z.lxor c (Struct.Z_of_byte b)).

(** [zlib.crc32(data, value)]: the running checksum [value] extended by
    [data], as an unsigned 32-bit integer. *)
Definition crc32 (data : list byte) (value : Z) : Z :=
  Z.land
    (Z.lxor (fold_left crc_byte data (Z.lxor (Z.land value 0xFFFFFFFF) 0xFFFFFFFF))
            0xFFFFFFFF)
    0xFFFFFFFF.

End Zlib.

(** ** can: frames and the bus *)

Module Can.

(** [can.Message]; the [timestamp] argument (wall-clock time of the call)
    is left out. *)
Record Message := {
  arbitration_id : Z;
  data : list byte;
  is_extended_id : bool
}.

(** What one call of [bus.recv(timeout)] can do: give up after the wait
    ([None]), deliver a frame, or raise. *)
Inductive recv_outcome :=
  | RecvNone
  | RecvMsg (m : Message)
  | RecvRaise.

End Can.

(** ** World: the positioner object, the bus behind it, and what the
    outside observes *)

Inductive level := DEBUG | INFO | ERROR.

Inductive log_record :=
  | Text (s : string)
  | Exc (e : exn).

Inductive event :=
  | BusSend (msg : Can.Message)
  | BusRecv (timeout : Z)
  | Log (lvl : level) (r : log_record)
  | Sleep (seconds : Q).

(** [_canid] and [status] are the attributes of the [Positioner] object
    its methods use ([alpha_position], [beta_position] and
    [bootloader_status] are set by the constructor and never touched
    again); [status] is the [asInt] of the [PositionerStatus] instance.
    The bus is an environment: the [n]-th call of [recv] behaves
    as [bus_recv n] says, the [n]-th call of [send] raises when
    [bus_send_raises n]. [trace] records the calls that leave the
    process, in order. *)
Record State := {
  _canid : Z;
  status : Z;
  bus_recv : nat -> Can.recv_outcome;
  bus_send_raises : nat -> bool;
  recv_calls : nat;
  send_calls : nat;
  trace : list event
}.

Definition emit (e : event) (s : State) : State :=
  {| _canid := _canid s; status := status s;
     bus_recv := bus_recv s; bus_send_raises := bus_send_raises s;
     recv_calls := recv_calls s; send_calls := send_calls s;
     trace := trace s ++ [e] |}.

Definition count_recv (s : State) : State :=
  {| _canid := _canid s; status := status s;
     bus_recv := bus_recv s; bus_send_raises := bus_send_raises s;
     recv_calls := S (recv_calls s); send_calls := send_calls s;
     trace := trace s |}.

Definition count_send (s : State) : State :=
  {| _canid := _canid s; status := status s;
     bus_recv := bus_recv s; bus_send_raises := bus_send_raises s;
     recv_calls := recv_calls s; send_calls := S (send_calls s);
     trace := trace s |}.

Definition with_status (r : Z) (s : State) : State :=
  {| _canid := _canid s; status := r;
     bus_recv := bus_recv s; bus_send_raises := bus_send_raises s;
     recv_calls := recv_calls s; send_calls := send_calls s;
     trace := trace s |}.

(** A computation ends by returning, by raising, or not at all within the
    iterations it was allowed ([OutOfFuel], for the loops without a
    bound). The state it leaves is kept in every case. *)
Inductive outcome (A : Type) :=
  | Return (a : A)
  | Raise (e : exn)
  | OutOfFuel.
Arguments Return {A} a.
Arguments Raise {A} e.
Arguments OutOfFuel {A}.

Definition M (A : Type) : Type := State -> outcome A * State.

Definition ret {A} (a : A) : M A := fun s => (Return a, s).

Definition bind {A B} (m : M A) (k : A -> M B) : M B :=
  fun s =>
    match m s with
    | (Return a, s') => k a s'
    | (Raise e, s') => (Raise e, s')
    | (OutOfFuel, s') => (OutOfFuel, s')
    end.

Definition raise {A} (e : exn) : M A := fun s => (Raise e, s).
Definition out_of_fuel {A} : M A := fun s => (OutOfFuel, s).

(** [try: body except Exception as e: handler(e)] *)
Definition try_except {A} (body : M A) (handler : exn -> M A) : M A :=
  fun s =>
    match body s with
    | (Raise e, s') => handler e s'
    | r => r
    end.

(** A pure step that fails with [e] when it has no result. *)
Definition or_raise {A} (e : exn) (o : option A) : M A :=
  match o with
  | Some a => ret a
  | None => raise e
  end.

Declare Scope py_scope.
Delimit Scope py_scope with py.
Notation "x <- m ;; k" := (bind m (fun x => k))
  (at level 100, m at next level, right associativity) : py_scope.
Notation "m ;; k" := (bind m (fun _ => k))
  (at level 100, right associativity) : py_scope.
Local Open Scope py_scope.

(** The module logger and its handler are both set to [logging.INFO]:
    records below that level are dropped. *)
Definition logger_level : level := INFO.

Definition level_rank (l : level) : nat :=
  match l with DEBUG => 10 | INFO => 20 | ERROR => 40 end.

Definition log (lvl : level) (r : log_record) : M unit :=
  fun s =>
    if (level_rank logger_level <=? level_rank lvl)%nat
    then (Return tt, emit (Log lvl r) s)
    else (Return tt, s).

Definition log_debug (text : string) : M unit := log DEBUG (Text text).
Definition log_info (text : string) : M unit := log INFO (Text text).
Definition log_error (text : string) : M unit := log ERROR (Text text).

(** [time.sleep(seconds)] *)
Definition sleep (seconds : Q) : M unit :=
  fun s => (Return tt, emit (Sleep seconds) s).

(** [self._bus.send(msg)] *)
Definition bus_send (msg : Can.Message) : M unit :=
  fun s =>
    let s' := count_send (emit (BusSend msg) s) in
    if bus_send_raises s (send_calls s) then (Raise BusError, s') else (Return tt, s').

(** [self._bus.recv(timeout)] *)
Definition bus_recv_call (timeout : Z) : M (option Can.Message) :=
  fun s =>
    let s' := count_recv (emit (BusRecv timeout) s) in
    match bus_recv s (recv_calls s) with
    | Can.RecvNone => (Return None, s')
    | Can.RecvMsg m => (Return (Some m), s')
    | Can.RecvRaise => (Raise BusError, s')
    end.

(** ** positioner.py *)

Module Positioner.

Import Can.

Definition _CAN_ID_BIT_SHIFT : Z := 18.       (* bits to shift for the ID *)
Definition _COMMAND_BIT_SHIFT : Z := 10.      (* bits to shift for the command *)
Definition _POSITION_RESOLUTION : Z := 2 ^ 30. (* counts of a complete rotation *)
Definition _TIME_RESOLUTION : Z := 2000.      (* steps of time per second *)

(** [angle / 360 * cls._POSITION_RESOLUTION] is float arithmetic; the
    argument of [_position_to_angle] is an integer and [/] is true
    division. *)
Definition _angle_to_position (angle : Q) : Z :=
  py_round (Float64.mul (Float64.div angle 360) (inject_Z _POSITION_RESOLUTION)).

Definition _position_to_angle (position : Z) : Q :=
  Float64.mul (Float64.div (inject_Z position) (inject_Z _POSITION_RESOLUTION)) 360.

Definition _seconds_to_timestamp (seconds : Q) : Z :=
  py_round (Float64.mul seconds (inject_Z _TIME_RESOLUTION)).

Definition _timestamp_to_seconds (timestamp : Z) : Q :=
  Float64.div (inject_Z timestamp) (inject_Z _TIME_RESOLUTION).

(** Iterating over a file opened in binary mode yields its lines, each
    with its terminating newline byte. [cur] is the line being read,
    last byte first. *)
Fixpoint readlines (cur : list byte) (file : list byte) : list (list byte) :=
  match file with
  | [] => match cur with [] => [] | _ => [rev cur] end
  | b :: rest =>
      if Byte.eqb b x0a then rev (b :: cur) :: readlines [] rest
      else readlines (b :: cur) rest
  end.

(** [_crc(filename)], on the contents of the file. *)
Definition _crc (file : list byte) : Z :=
  fold_left (fun result eachLine => Zlib.crc32 eachLine result) (readlines [] file) 0.

Section Tables.

(** The command table of [commands.py]: opcode of each command name, and
    name of each response code. The module is not part of the sources at
    hand; both dictionaries are parameters. *)
Variable COMMANDS : gmap string Z.
Variable RESPONSE_CODE_NUMBER : gmap Z string.

(** [COMMANDS[command]] is a [KeyError] for a name that is not a key:
    no identifier then. *)
Definition _build_frame_id (canid : Z) (command : string) : option Z :=
  opcode ← COMMANDS !! command;
  Some (Z.shiftl canid _CAN_ID_BIT_SHIFT + Z.shiftl opcode _COMMAND_BIT_SHIFT).

Definition _get_response_code (busid : Z) : option string :=
  RESPONSE_CODE_NUMBER !! Z.land busid (2 ^ _COMMAND_BIT_SHIFT - 1).

Definition _send_command (command : string) (extra_data : option (list byte)) : M unit :=
  fun s =>
   (let extra_data := default [] extra_data in
    canid <- or_raise KeyError (_build_frame_id (_canid s) command);;
    let msg := {| arbitration_id := canid; data := extra_data; is_extended_id := true |} in
    try_except
      (bus_send msg;;
       log_debug "msg")
      (fun e =>
         log_error "Error sending message";;
         log ERROR (Exc e))) s.

(** The [for i in range(5)] loop of [_get_answer], [attempts] polls
    remaining. *)
Fixpoint poll (attempts : nat) : M (option Message) :=
  match attempts with
  | O => ret None
  | S remaining =>
      answer <- bus_recv_call 1;;
      match answer with
      | Some a => ret (Some a)
      | None => poll remaining
      end
  end.

Definition _get_answer : M (option Message) :=
  try_except (poll 5)
    (fun e =>
       log_error "Error getting message";;
       log ERROR (Exc e);;
       ret None).

Definition get_status : M unit :=
  _send_command "GET_STATUS" None;;
  answer <- _get_answer;;
  match answer with
  | Some a =>
      result <- or_raise KeyError (_get_response_code (arbitration_id a));;
      log_debug result;;
      raw <- or_raise StructError (Struct.unpack_Q (data a));;
      fun s => (Return tt, with_status (Status.set_asInt Status.PositionerStatus raw) s)
  | None => log_error "Error with command get_status"
  end.

(** The [while True] loop of [firmware_upgrade]. [f] is what is left to
    read of the open file, [fuel] bounds the iterations. *)
Fixpoint firmware_loop (fuel : nat) (f : list byte) (filesize transfered_data : Z) : M unit :=
  match fuel with
  | O => out_of_fuel
  | S fuel' =>
      let data := take 8 f in
      let f := drop 8 f in
      let packetdata := data in
      _send_command "FIRMWARE_DATA" (Some packetdata);;
      let transfered_data := transfered_data + Z.of_nat (length data) in
      answer <- _get_answer;;
      log_debug "answer";;
      if bool_decide (transfered_data = filesize)
      then log_debug "EOF found"
      else firmware_loop fuel' f filesize transfered_data
  end.

(** [firmware_upgrade(filename)], on the contents [file] of the file. *)
Definition firmware_upgrade (fuel : nat) (file : list byte) : M unit :=
  let filesize := Z.of_nat (length file) in
  let checksum := _crc file in
  packetdata <- or_raise StructError (Struct.pack_II filesize checksum);;
  _send_command "SEND_NEW_FIRMWARE" (Some packetdata);;
  answer <- _get_answer;;
  match answer with
  | Some a =>
      result <- or_raise KeyError (_get_response_code (arbitration_id a));;
      log_debug result;;
      firmware_loop fuel file filesize 0;;
      log_info "firmware upgrade done"
  | None => log_error "Error with firmware upgrade command"
  end.

(** One of the two [for coordinate in ...] loops of [send_trajectory];
    they differ in the text of a debug record only. *)
Fixpoint send_coordinates (axis : string) (coordinates : list (Q * Q)) : M unit :=
  match coordinates with
  | [] => ret tt
  | coordinate :: rest =>
      let position := _angle_to_position (fst coordinate) in
      let timestamp := _seconds_to_timestamp (snd coordinate) in
      packetdata <- or_raise StructError (Struct.pack_ii position timestamp);;
      _send_command "SEND_TRAJECTORY_DATA" (Some packetdata);;
      answer <- _get_answer;;
      match answer with
      | Some a =>
          result <- or_raise KeyError (_get_response_code (arbitration_id a));;
          log_debug result;;
          log_debug (axis +:+ " coordinate")
      | None => ret tt
      end;;
      send_coordinates axis rest
  end.

Definition send_trajectory (alpha beta : list (Q * Q)) : M value :=
  let alpha_nb_points := Z.of_nat (length alpha) in
  let beta_nb_points := Z.of_nat (length beta) in
  packetdata <- or_raise StructError (Struct.pack_ii alpha_nb_points beta_nb_points);;
  _send_command "SEND_TRAJECTORY_NEW" (Some packetdata);;
  answer <- _get_answer;;
  match answer with
  | None =>
      log_error "Error with send_trajectory";;
      ret VNone
  | Some a =>
      result <- or_raise KeyError (_get_response_code (arbitration_id a));;
      log_debug result;;
      send_coordinates "alpha" alpha;;
      send_coordinates "beta" beta;;
      _send_command "SEND_TRAJECTORY_DATA_END" None;;
      answer <- _get_answer;;
      match answer with
      | Some a =>
          result <- or_raise KeyError (_get_response_code (arbitration_id a));;
          log_debug result;;
          ret VNone
      | None => ret VNone
      end
  end.

(** The five mode setters for both axes have one body, up to the names of
    the two commands. *)
Definition set_both_axes (alpha_command beta_command : string) : M value :=
  _send_command alpha_command None;;
  answer <- _get_answer;;
  match answer with
  | None =>
      log_error ("Error with command " +:+ alpha_command);;
      ret VNone
  | Some a =>
      result <- or_raise KeyError (_get_response_code (arbitration_id a));;
      log_debug result;;
      _send_command beta_command None;;
      answer <- _get_answer;;
      match answer with
      | None =>
          log_error ("Error with command " +:+ beta_command);;
          ret VNone
      | Some a =>
          result <- or_raise KeyError (_get_response_code (arbitration_id a));;
          log_debug result;;
          ret VNone
      end
  end.

Definition set_mode_open_loop : M value :=
  set_both_axes "SET_ALPHA_OPEN_LOOP_NO_COLL_DETECT" "SET_BETA_OPEN_LOOP_NO_COLL_DETECT".

Definition set_mode_closed_loop : M value :=
  set_both_axes "SET_ALPHA_CLOSED_LOOP" "SET_BETA_CLOSED_LOOP".

Definition set_mode_closed_loop_no_colision : M value :=
  set_both_axes "SET_ALPHA_CLOSED_LOOP_NO_COLL_DETECT" "SET_BETA_CLOSED_LOOP_NO_COLL_DETECT".

Definition set_precision_mode_off : M value :=
  set_both_axes "SWITCH_OFF_PRECISE_ALPHA" "SWITCH_OFF_PRECISE_BETA".

Definition set_precision_mode_on : M value :=
  set_both_axes "SWITCH_ON_PRECISE_ALPHA" "SWITCH_ON_PRECISE_BETA".

(** [self.status.displacement_completed != 1] *)
Definition displacement_pending (s : State) : bool :=
  negb (bool_decide
          (Status.getattr Status.PositionerStatus (status s) "displacement_completed" = Some 1)).

(** The [while] loop of [wait_move]; [fuel] bounds the iterations. *)
Fixpoint wait_move_loop (fuel : nat) : M unit :=
  fun s =>
    if displacement_pending s then
      match fuel with
      | O => out_of_fuel s
      | S fuel' =>
         (get_status;;
          sleep (1 # 2);;
          wait_move_loop fuel') s
      end
    else (Return tt, s).

Definition wait_move (fuel : nat) : M value :=
  get_status;;
  wait_move_loop fuel;;
  ret VNone.

(** *** The remaining methods

    [get_hall] is left out: its reply holds two binary32 numbers, which
    may be infinities or NaN. *)

(** What [enable is True] looks at: the object [True] itself, or anything
    else. *)
Inductive pyobject :=
  | PyBool (b : bool)
  | PyInt (z : Z)
  | PyNone.

Definition is_True (o : pyobject) : bool :=
  match o with PyBool true => true | _ => false end.

(** The body shared by the methods that send one command and only look
    at the response code of the reply, logging [failure] when there is
    none: [set_position], [set_speed], [set_current], [set_low_current],
    [set_low_power_mode], [initialize_datums], [initialize_datum_alpha],
    [initialize_datum_beta], [write_flash], [request_reboot],
    [calib_motors]. *)
Definition acknowledged (command : string) (extra_data : option (list byte))
    (failure : string) : M unit :=
  _send_command command extra_data;;
  answer <- _get_answer;;
  match answer with
  | Some a =>
      result <- or_raise KeyError (_get_response_code (arbitration_id a));;
      log_debug result
  | None => log_error failure
  end.

(** The body shared by [start_trajectory], [stop_trajectory] and
    [erase_flash]: no [else] branch. *)
Definition unchecked (command : string) : M unit :=
  _send_command command None;;
  answer <- _get_answer;;
  match answer with
  | Some a =>
      result <- or_raise KeyError (_get_response_code (arbitration_id a));;
      log_debug result
  | None => ret tt
  end.

Definition get_id : M (option Z) :=
  _send_command "GET_ID" None;;
  answer <- _get_answer;;
  match answer with
  | Some a =>
      result <- or_raise KeyError (_get_response_code (arbitration_id a));;
      log_debug result;;
      positioner_id <- or_raise StructError (Struct.unpack_I (data a));;
      log_debug "positioner ID";;
      ret (Some positioner_id)
  | None =>
      log_error "Error with command get_id";;
      ret None
  end.

Definition get_fw_version : M (option (Z * Z * Z * Z)) :=
  _send_command "GET_FIRMWARE_VERSION" None;;
  answer <- _get_answer;;
  match answer with
  | Some a =>
      result <- or_raise KeyError (_get_response_code (arbitration_id a));;
      log_debug result;;
      version <- or_raise StructError (Struct.unpack_BBBB (data a));;
      log_debug "running firmware";;
      ret (Some version)
  | None =>
      log_error "Error with command get_fw_version";;
      ret None
  end.

Definition get_position : M (option (Q * Q)) :=
  _send_command "GET_ACTUAL_POSITION" None;;
  answer <- _get_answer;;
  match answer with
  | Some a =>
      result <- or_raise KeyError (_get_response_code (arbitration_id a));;
      log_debug result;;
      positions <- or_raise StructError (Struct.unpack_ii (data a));;
      let alpha_angle := _position_to_angle (fst positions) in
      let beta_angle := _position_to_angle (snd positions) in
      log_debug "alpha position";;
      log_debug "beta position";;
      ret (Some (alpha_angle, beta_angle))
  | None =>
      log_error "Error with command get_position";;
      ret None
  end.

Definition set_position (alpha beta : Q) : M unit :=
  let alpha_position := _angle_to_position alpha in
  let beta_position := _angle_to_position beta in
  packetdata <- or_raise StructError (Struct.pack_ii alpha_position beta_position);;
  acknowledged "SET_ACTUAL_POSITION" (Some packetdata) "Error with command set_position".

(** The body shared by [goto_absolute] and [goto_relative]. *)
Definition goto (command failure : string) (alpha beta : Q) : M (option (Q * Q)) :=
  let alpha_angle := _angle_to_position alpha in
  let beta_angle := _angle_to_position beta in
  packetdata <- or_raise StructError (Struct.pack_ii alpha_angle beta_angle);;
  _send_command command (Some packetdata);;
  answer <- _get_answer;;
  match answer with
  | Some a =>
      result <- or_raise KeyError (_get_response_code (arbitration_id a));;
      log_debug result;;
      timestamps <- or_raise StructError (Struct.unpack_II (data a));;
      let alpha_time := _timestamp_to_seconds (fst timestamps) in
      let beta_time := _timestamp_to_seconds (snd timestamps) in
      log_debug "alpha ETA";;
      log_debug "beta ETA";;
      ret (Some (alpha_time, beta_time))
  | None =>
      log_error failure;;
      ret None
  end.

Definition goto_absolute (alpha beta : Q) : M (option (Q * Q)) :=
  goto "GOTO_POSITION_ABSOLUTE" "Error with command goto absolute" alpha beta.

Definition goto_relative (delta_alpha delta_beta : Q) : M (option (Q * Q)) :=
  goto "GOTO_POSITION_RELATIVE" "Error with command goto position relative"
    delta_alpha delta_beta.

Definition set_speed (alpha_speed beta_speed : Z) : M unit :=
  packetdata <- or_raise StructError (Struct.pack_II alpha_speed beta_speed);;
  acknowledged "SET_SPEED" (Some packetdata) "Error with command set speed".

Definition set_current (alpha_current beta_current : Z) : M unit :=
  packetdata <- or_raise StructError (Struct.pack_II alpha_current beta_current);;
  acknowledged "SET_CURRENT" (Some packetdata) "Error with command set current".

Definition set_low_current (alpha_current beta_current : Z) : M unit :=
  packetdata <- or_raise StructError (Struct.pack_II alpha_current beta_current);;
  acknowledged "SET_LOW_POWER_CURRENT" (Some packetdata) "Error with command set low current".

Definition set_low_power_mode (enable : pyobject) : M unit :=
  let command :=
    if is_True enable then "SWITCH_OFF_HALL_AFTER_MOVE_CMD"
    else "SWITCH_ON_HALL_AFTER_MOVE_CMD" in
  acknowledged command None "Error with command set low power mode".

Definition initialize_datums : M unit :=
  acknowledged "INITIALIZE_DATUMS" None "Error with command initialize datums".

Definition initialize_datum_alpha : M unit :=
  acknowledged "GOTO_DATUM_ALPHA" None "Error with command initialize datum alpha".

Definition initialize_datum_beta : M unit :=
  acknowledged "GOTO_DATUM_BETA" None "Error with command initialize datum beta".

Definition start_trajectory : M unit := unchecked "START_TRAJECTORY".
Definition stop_trajectory : M unit := unchecked "STOP_TRAJECTORY".

Definition get_v_main : M (option Z) :=
  _send_command "GET_ADC_ONE" None;;
  answer <- _get_answer;;
  match answer with
  | Some a =>
      result <- or_raise KeyError (_get_response_code (arbitration_id a));;
      log_debug result;;
      positioner_v_main <- or_raise StructError (Struct.unpack_I (data a));;
      log_debug "positioner ID";;
      ret (Some positioner_v_main)
  | None =>
      log_error "Error with command get_v_main";;
      ret None
  end.

Definition get_power : M (option (Z * Z)) :=
  _send_command "GET_MOTOR_POWER" None;;
  answer <- _get_answer;;
  match answer with
  | Some a =>
      result <- or_raise KeyError (_get_response_code (arbitration_id a));;
      log_debug result;;
      power <- or_raise StructError (Struct.unpack_ii (data a));;
      log_debug "alpha power current";;
      log_debug "beta power current";;
      ret (Some power)
  | None =>
      log_error "Error with command get_power";;
      ret None
  end.

Definition get_hall_output : M (option (Q * Q)) :=
  _send_command "GET_HALL_OUTPUT" None;;
  answer <- _get_answer;;
  match answer with
  | Some a =>
      result <- or_raise KeyError (_get_response_code (arbitration_id a));;
      log_debug result;;
      positions <- or_raise StructError (Struct.unpack_ii (data a));;
      let alpha_angle := _position_to_angle (fst positions) in
      let beta_angle := _position_to_angle (snd positions) in
      log_debug "alpha hall position";;
      log_debug "beta hall position";;
      ret (Some (alpha_angle, beta_angle))
  | None =>
      log_error "Error with command get_power";;
      ret None
  end.

Definition erase_flash : M unit := unchecked "ERASE_EXT_FLASH".

(** [read_flash] does not look at the response code of the reply. *)
Definition read_flash (address : Z) : M (option Z) :=
  packetdata <- or_raise StructError (Struct.pack_I address);;
  _send_command "READ_EXT_FLASH" (Some packetdata);;
  answer <- _get_answer;;
  match answer with
  | Some a =>
      value <- or_raise StructError (Struct.unpack_I (data a));;
      log_debug "content of ext flash";;
      ret (Some value)
  | None =>
      log_error "Error with command read_flash";;
      ret None
  end.

Definition write_flash (address value : Z) : M unit :=
  packetdata <- or_raise StructError (Struct.pack_II address value);;
  acknowledged "WRITE_EXT_FLASH" (Some packetdata) "Error with command write_flash".

Definition request_reboot : M unit :=
  acknowledged "REQUEST_REBOOT" None "Error with command request reboot".

(** Neither reply of [get_hall_calibration] has its response code looked
    up. *)
Definition get_hall_calibration : M (option ((Z * Z * Z * Z) * (Z * Z * Z * Z))) :=
  _send_command "GET_ALPHA_HALL_CALIB" None;;
  answer <- _get_answer;;
  match answer with
  | None =>
      log_error "Error with command get hall calibration";;
      ret None
  | Some a =>
      alpha_calib <- or_raise StructError (Struct.unpack_HHHH (data a));;
      log_debug "hall alpha";;
      _send_command "GET_BETA_HALL_CALIB" None;;
      answer <- _get_answer;;
      match answer with
      | Some b =>
          beta_calib <- or_raise StructError (Struct.unpack_HHHH (data b));;
          log_debug "hall beta";;
          ret (Some (alpha_calib, beta_calib))
      | None =>
          log_error "Error with command get hall calibration";;
          ret None
      end
  end.

Definition calib_motors : M unit :=
  acknowledged "CALIB_MOTORS" None "Error with command CALIB_MOTORS".

End Tables.

End Positioner.

(** ** Observations on a run and on the wire *)

Import Can.

(** The constructor: a positioner object on an open bus, its status
    register zeroed. *)
Definition __init__ (recv : nat -> recv_outcome) (send_raises : nat -> bool) (canid : Z) : State :=
  {| _canid := canid; status := 0;
     bus_recv := recv; bus_send_raises := send_raises;
     recv_calls := 0; send_calls := 0; trace := [] |}.

Definition sent_frames (t : list event) : list Message :=
  omap (fun e => match e with BusSend m => Some m | _ => None end) t.

Definition recv_timeouts (t : list event) : list Z :=
  omap (fun e => match e with BusRecv timeout => Some timeout | _ => None end) t.

Definition sleeps (t : list event) : list Q :=
  omap (fun e => match e with Sleep seconds => Some seconds | _ => None end) t.

Definition errors_logged (t : list event) : list log_record :=
  omap (fun e => match e with Log ERROR r => Some r | _ => None end) t.

(** Bits [hi:lo] of an identifier. *)
Definition bits (hi lo : Z) (x : Z) : Z :=
  Z.land (Z.shiftr x lo) (Z.ones (hi - lo + 1)).

(** The outbound frame of a command with opcode [opcode]. *)
Definition frame (canid opcode : Z) (payload : list byte) : Message :=
  {| arbitration_id := Z.shiftl canid 18 + Z.shiftl opcode 10;
     data := payload; is_extended_id := true |}.

(** What the bus holds for a transaction that starts polling at call
    number [start]: the first frame among the next [attempts] outcomes,
    if nothing but empty waits comes before it. *)
Fixpoint await (script : nat -> recv_outcome) (start attempts : nat) : option Message :=
  match attempts with
  | O => None
  | S remaining =>
      match script start with
      | RecvMsg m => Some m
      | RecvNone => await script (S start) remaining
      | RecvRaise => None
      end
  end.

(** ... and how many calls of [recv] that takes. *)
Fixpoint polls_used (script : nat -> recv_outcome) (start attempts : nat) : nat :=
  match attempts with
  | O => O
  | S remaining =>
      match script start with
      | RecvNone => S (polls_used script (S start) remaining)
      | _ => 1%nat
      end
  end.

(** ... and whether it ends in an exception of [recv]. *)
Fixpoint poll_fails (script : nat -> recv_outcome) (start attempts : nat) : bool :=
  match attempts with
  | O => false
  | S remaining =>
      match script start with
      | RecvNone => poll_fails script (S start) remaining
      | RecvMsg _ => false
      | RecvRaise => true
      end
  end.

(** The reply the next transaction of [s] gets. *)
Definition next_reply (s : State) : option Message :=
  await (bus_recv s) (recv_calls s) 5.

(** The state [_send_command] leaves behind once the frame [msg] is
    built: the frame handed to the bus, and two error records if the bus
    raised. *)
Definition after_send (msg : Message) (s : State) : State :=
  let s1 := count_send (emit (BusSend msg) s) in
  if bus_send_raises s (send_calls s)
  then emit (Log ERROR (Exc BusError)) (emit (Log ERROR (Text "Error sending message")) s1)
  else s1.

(** The state after [k] calls of [recv(1)]. *)
Definition polled (k : nat) (s : State) : State :=
  {| _canid := _canid s; status := status s;
     bus_recv := bus_recv s; bus_send_raises := bus_send_raises s;
     recv_calls := recv_calls s + k; send_calls := send_calls s;
     trace := trace s ++ replicate k (BusRecv 1) |}.

(** The state [_get_answer] leaves behind. *)
Definition after_answer (s : State) : State :=
  let s1 := polled (polls_used (bus_recv s) (recv_calls s) 5) s in
  if poll_fails (bus_recv s) (recv_calls s) 5
  then emit (Log ERROR (Exc BusError)) (emit (Log ERROR (Text "Error getting message")) s1)
  else s1.

(** Every frame the bus will ever deliver carries a response code of the
    table. *)
Definition codes_known (RESPONSE_CODE_NUMBER : gmap Z string) (script : nat -> recv_outcome) : Prop :=
  forall k m, script k = RecvMsg m ->
    is_Some (Positioner._get_response_code RESPONSE_CODE_NUMBER (arbitration_id m)).

(** A device that never reports the end of a motion: every frame the
    bus delivers is a decodable status reply (a response code of the
    table, eight bytes of payload) with bit 8 clear. *)
Definition never_completes (RESPONSE_CODE_NUMBER : gmap Z string) (script : nat -> recv_outcome) : Prop :=
  forall k m, script k = RecvMsg m ->
    is_Some (Positioner._get_response_code RESPONSE_CODE_NUMBER (arbitration_id m))
    /\ length (data m) = 8%nat
    /\ Z.testbit (Struct.le_int (data m)) 8 = false.

(** The payload of a waypoint, and the waypoints whose counts and
    timestamp fit the signed 32-bit fields of that payload. *)
Definition waypoint_payload (coordinate : Q * Q) : list byte :=
  Struct.le_bytes 4 (Positioner._angle_to_position (fst coordinate) mod 2 ^ 32)
  ++ Struct.le_bytes 4 (Positioner._seconds_to_timestamp (snd coordinate) mod 2 ^ 32).

Definition waypoint_fits (coordinate : Q * Q) : Prop :=
  - 2 ^ 31 <= Positioner._angle_to_position (fst coordinate) < 2 ^ 31
  /\ - 2 ^ 31 <= Positioner._seconds_to_timestamp (snd coordinate) < 2 ^ 31.

(** The payload announcing a trajectory, and the one announcing a
    firmware image. *)
Definition trajectory_header (alpha beta : list (Q * Q)) : list byte :=
  Struct.le_bytes 4 (Z.of_nat (length alpha) mod 2 ^ 32)
  ++ Struct.le_bytes 4 (Z.of_nat (length beta) mod 2 ^ 32).

Definition firmware_header (file : list byte) : list byte :=
  Struct.le_bytes 4 (Z.of_nat (length file)) ++ Struct.le_bytes 4 (Positioner._crc file).

(** A file cut into the pieces successive [read(8)] calls return, the
    piece that exhausts the file being the last. *)
Fixpoint read_chunks (fuel : nat) (f : list byte) : list (list byte) :=
  match fuel with
  | O => []
  | S fuel' =>
      take 8 f :: (if bool_decide (length f <= 8)%nat then [] else read_chunks fuel' (drop 8 f))
  end.

Definition file_chunks (file : list byte) : list (list byte) :=
  read_chunks (S (length file)) file.

(** The five mode setters for both axes. *)
Inductive mode_setter :=
  | OpenLoop
  | ClosedLoop
  | ClosedLoopNoCollision
  | PrecisionOff
  | PrecisionOn.

Definition alpha_command (op : mode_setter) : string :=
  match op with
  | OpenLoop => "SET_ALPHA_OPEN_LOOP_NO_COLL_DETECT"
  | ClosedLoop => "SET_ALPHA_CLOSED_LOOP"
  | ClosedLoopNoCollision => "SET_ALPHA_CLOSED_LOOP_NO_COLL_DETECT"
  | PrecisionOff => "SWITCH_OFF_PRECISE_ALPHA"
  | PrecisionOn => "SWITCH_ON_PRECISE_ALPHA"
  end.

Definition beta_command (op : mode_setter) : string :=
  match op with
  | OpenLoop => "SET_BETA_OPEN_LOOP_NO_COLL_DETECT"
  | ClosedLoop => "SET_BETA_CLOSED_LOOP"
  | ClosedLoopNoCollision => "SET_BETA_CLOSED_LOOP_NO_COLL_DETECT"
  | PrecisionOff => "SWITCH_OFF_PRECISE_BETA"
  | PrecisionOn => "SWITCH_ON_PRECISE_BETA"
  end.

Definition run_setter (COMMANDS : gmap string Z) (RESPONSE_CODE_NUMBER : gmap Z string)
    (op : mode_setter) : M value :=
  match op with
  | OpenLoop => Positioner.set_mode_open_loop COMMANDS RESPONSE_CODE_NUMBER
  | ClosedLoop => Positioner.set_mode_closed_loop COMMANDS RESPONSE_CODE_NUMBER
  | ClosedLoopNoCollision => Positioner.set_mode_closed_loop_no_colision COMMANDS RESPONSE_CODE_NUMBER
  | PrecisionOff => Positioner.set_precision_mode_off COMMANDS RESPONSE_CODE_NUMBER
  | PrecisionOn => Positioner.set_precision_mode_on COMMANDS RESPONSE_CODE_NUMBER
  end.

(** The calls that send one command and only look at the response code
    of the reply. *)
Inductive acknowledged_call :=
  | SetPosition (alpha beta : Q)
  | SetSpeed (alpha_speed beta_speed : Z)
  | SetCurrent (alpha_current beta_current : Z)
  | SetLowCurrent (alpha_current beta_current : Z)
  | SetLowPowerMode (enable : Positioner.pyobject)
  | InitializeDatums
  | InitializeDatumAlpha
  | InitializeDatumBeta
  | WriteFlash (address value : Z)
  | RequestReboot
  | CalibMotors.

Definition run_call (COMMANDS : gmap string Z) (RESPONSE_CODE_NUMBER : gmap Z string)
    (c : acknowledged_call) : M unit :=
  match c with
  | SetPosition alpha beta => Positioner.set_position COMMANDS RESPONSE_CODE_NUMBER alpha beta
  | SetSpeed a b => Positioner.set_speed COMMANDS RESPONSE_CODE_NUMBER a b
  | SetCurrent a b => Positioner.set_current COMMANDS RESPONSE_CODE_NUMBER a b
  | SetLowCurrent a b => Positioner.set_low_current COMMANDS RESPONSE_CODE_NUMBER a b
  | SetLowPowerMode enable => Positioner.set_low_power_mode COMMANDS RESPONSE_CODE_NUMBER enable
  | InitializeDatums => Positioner.initialize_datums COMMANDS RESPONSE_CODE_NUMBER
  | InitializeDatumAlpha => Positioner.initialize_datum_alpha COMMANDS RESPONSE_CODE_NUMBER
  | InitializeDatumBeta => Positioner.initialize_datum_beta COMMANDS RESPONSE_CODE_NUMBER
  | WriteFlash address value => Positioner.write_flash COMMANDS RESPONSE_CODE_NUMBER address value
  | RequestReboot => Positioner.request_reboot COMMANDS RESPONSE_CODE_NUMBER
  | CalibMotors => Positioner.calib_motors COMMANDS RESPONSE_CODE_NUMBER
  end.

(** The command a call sends ... *)
Definition call_command (c : acknowledged_call) : string :=
  match c with
  | SetPosition _ _ => "SET_ACTUAL_POSITION"
  | SetSpeed _ _ => "SET_SPEED"
  | SetCurrent _ _ => "SET_CURRENT"
  | SetLowCurrent _ _ => "SET_LOW_POWER_CURRENT"
  | SetLowPowerMode (Positioner.PyBool true) => "SWITCH_OFF_HALL_AFTER_MOVE_CMD"
  | SetLowPowerMode _ => "SWITCH_ON_HALL_AFTER_MOVE_CMD"
  | InitializeDatums => "INITIALIZE_DATUMS"
  | InitializeDatumAlpha => "GOTO_DATUM_ALPHA"
  | InitializeDatumBeta => "GOTO_DATUM_BETA"
  | WriteFlash _ _ => "WRITE_EXT_FLASH"
  | RequestReboot => "REQUEST_REBOOT"
  | CalibMotors => "CALIB_MOTORS"
  end.

(** ... the payload it packs its arguments into, none when one of them
    does not fit its field ... *)
Definition call_payload (c : acknowledged_call) : option (list byte) :=
  match c with
  | SetPosition alpha beta =>
      Struct.pack_ii (Positioner._angle_to_position alpha) (Positioner._angle_to_position beta)
  | SetSpeed a b | SetCurrent a b | SetLowCurrent a b | WriteFlash a b => Struct.pack_II a b
  | _ => Some []
  end.

(** ... and the error it logs when no reply comes. *)
Definition call_failure (c : acknowledged_call) : string :=
  match c with
  | SetPosition _ _ => "Error with command set_position"
  | SetSpeed _ _ => "Error with command set speed"
  | SetCurrent _ _ => "Error with command set current"
  | SetLowCurrent _ _ => "Error with command set low current"
  | SetLowPowerMode _ => "Error with command set low power mode"
  | InitializeDatums => "Error with command initialize datums"
  | InitializeDatumAlpha => "Error with command initialize datum alpha"
  | InitializeDatumBeta => "Error with command initialize datum beta"
  | WriteFlash _ _ => "Error with command write_flash"
  | RequestReboot => "Error with command request reboot"
  | CalibMotors => "Error with command CALIB_MOTORS"
  end.

(** The calls that send one command and have no branch for a missing
    reply. *)
Inductive unchecked_call :=
  | StartTrajectory
  | StopTrajectory
  | EraseFlash.

Definition run_unchecked (COMMANDS : gmap string Z) (RESPONSE_CODE_NUMBER : gmap Z string)
    (c : unchecked_call) : M unit :=
  match c with
  | StartTrajectory => Positioner.start_trajectory COMMANDS RESPONSE_CODE_NUMBER
  | StopTrajectory => Positioner.stop_trajectory COMMANDS RESPONSE_CODE_NUMBER
  | EraseFlash => Positioner.erase_flash COMMANDS RESPONSE_CODE_NUMBER
  end.

Definition unchecked_command (c : unchecked_call) : string :=
  match c with
  | StartTrajectory => "START_TRAJECTORY"
  | StopTrajectory => "STOP_TRAJECTORY"
  | EraseFlash => "ERASE_EXT_FLASH"
  end.

(** The state a whole transaction leaves behind before the reply is
    looked at: the frame sent, the polls made. *)
Definition after_transaction (msg : Message) (s : State) : State :=
  after_answer (after_send msg s).





(** The register value the named flags stand for. *)
Definition flags_value (u : Status.Union) (asInt : Z) : Z :=
  foldr (fun name acc =>
           match Status.field_layout (Status.bit u) name 0, Status.getattr u asInt name with
           | Some (offset, _), Some v => Z.shiftl v offset + acc
           | _, _ => acc
           end) 0 (Status.field_names (Status.bit u)).

(** ** Example tables and buses

    Tables and bus scripts to run the model on. The opcodes and codes are
    examples, not those of [commands.py]. *)

Definition example_COMMANDS : gmap string Z :=
  list_to_map
    [ ("GET_ID", 1); ("GET_STATUS", 3);
      ("SEND_TRAJECTORY_NEW", 10); ("SEND_TRAJECTORY_DATA", 11);
      ("SEND_TRAJECTORY_DATA_END", 12);
      ("SET_ALPHA_CLOSED_LOOP", 110); ("SET_BETA_CLOSED_LOOP", 111);
      ("SEND_NEW_FIRMWARE", 200); ("FIRMWARE_DATA", 201) ].

Definition example_RESPONSES : gmap Z string :=
  list_to_map [ (0, "COMMAND_ACCEPTED"); (1, "VALUE_OUT_OF_RANGE") ].

(** A bus that delivers the listed outcomes, then stays silent. *)
Definition scripted (outcomes : list recv_outcome) : nat -> recv_outcome :=
  fun n => default RecvNone (outcomes !! n).

Definition silent : nat -> recv_outcome := scripted [].

(** A device that answers every status query of positioner [canid]
    with the register value [raw]. *)
Definition reporting (canid opcode raw : Z) : nat -> recv_outcome :=
  fun _ => RecvMsg {| arbitration_id := Z.shiftl canid 18 + Z.shiftl opcode 10;
                      data := Struct.le_bytes 8 raw; is_extended_id := true |}.

Definition reliable : nat -> bool := fun _ => false.

(** A reply of positioner [canid] to the command with opcode [opcode],
    carrying response code [code]. *)
Definition reply (canid opcode code : Z) (payload : list byte) : recv_outcome :=
  RecvMsg {| arbitration_id := Z.shiftl canid 18 + Z.shiftl opcode 10 + code;
             data := payload; is_extended_id := true |}.

Definition example_firmware : list byte :=
  [ x00; x01; x02; x03; x04; x05; x06; x07; x08; x09;
    x0a; x0b; x0c; x0d; x0e; x0f; x10; x11; x12; x13 ].

(** A larger example table, with the commands of the remaining
    methods. *)
Definition example_COMMANDS_all : gmap string Z :=
  list_to_map
    [ ("GET_FIRMWARE_VERSION", 2);
      ("START_TRAJECTORY", 14); ("STOP_TRAJECTORY", 15);
      ("INITIALIZE_DATUMS", 20); ("GOTO_DATUM_ALPHA", 21); ("GOTO_DATUM_BETA", 22);
      ("GOTO_POSITION_ABSOLUTE", 30); ("GOTO_POSITION_RELATIVE", 31);
      ("GET_ACTUAL_POSITION", 32); ("SET_ACTUAL_POSITION", 33);
      ("SET_SPEED", 40); ("SET_CURRENT", 41); ("SET_LOW_POWER_CURRENT", 42);
      ("GET_ADC_ONE", 50); ("GET_MOTOR_POWER", 51); ("GET_HALL_OUTPUT", 52);
      ("GET_ALPHA_HALL_CALIB", 53); ("GET_BETA_HALL_CALIB", 54);
      ("ERASE_EXT_FLASH", 60); ("READ_EXT_FLASH", 61); ("WRITE_EXT_FLASH", 62);
      ("REQUEST_REBOOT", 70); ("CALIB_MOTORS", 71);
      ("SWITCH_OFF_HALL_AFTER_MOVE_CMD", 72); ("SWITCH_ON_HALL_AFTER_MOVE_CMD", 73) ]
  ∪ example_COMMANDS.

(** A bus whose [recv] raises after the listed outcomes. *)
Definition failing_after (outcomes : list recv_outcome) : nat -> recv_outcome :=
  fun n => default RecvRaise (outcomes !! n).

(** A positioner that reports, query after query, the listed status
    register values and then the last of them for ever. *)
Definition reporting_each (canid opcode : Z) (raws : list Z) (final : Z) : nat -> recv_outcome :=
  fun n => RecvMsg {| arbitration_id := Z.shiftl canid 18 + Z.shiftl opcode 10;
                      data := Struct.le_bytes 8 (default final (raws !! n));
                      is_extended_id := true |}.

(** * Properties *)

(** ** Status registers *)

Lemma bit_field_of_width_1 (raw i width : Z) :
  0 <= i < width ->
  Z.land (Z.shiftr (raw mod 2 ^ width) i) (Z.ones 1) = Z.b2z (Z.testbit raw i).
Proof.
  intros Hi.
  rewrite Z.land_ones by lia.
  change (2 ^ 1) with 2.
  rewrite <- Z.bit0_mod, Z.shiftr_spec by lia.
  rewrite Z.mod_pow2_bits_low by lia.
  now rewrite Z.add_0_l.
Qed.

Lemma bootloader_layout :
  (fun name => Status.field_layout Status.BootloaderFlagBits name 0)
    <$> Status.field_names Status.BootloaderFlagBits
  = (fun i => Some (Z.of_nat i, 1)) <$> seq 0 32.
Proof. vm_compute. reflexivity. Qed.

Lemma positioner_layout :
  (fun name => Status.field_layout Status.PositionerFlagBits name 0)
    <$> Status.field_names Status.PositionerFlagBits
  = (fun i => Some (Z.of_nat i, 1)) <$> seq 0 64.
Proof. vm_compute. reflexivity. Qed.

Lemma decode_by_layout (u : Status.Union) (raw : Z) (n : nat) :
  Status.storage u = Z.of_nat n ->
  (fun name => Status.field_layout (Status.bit u) name 0) <$> Status.field_names (Status.bit u)
    = (fun i => Some (Z.of_nat i, 1)) <$> seq 0 n ->
  Status.decode u raw <$> Status.field_names (Status.bit u)
    = (fun i => Some (Z.b2z (Z.testbit raw (Z.of_nat i)))) <$> seq 0 n.
Proof.
  intros Hst Hlay.
  set (read := fun l : option (Z * Z) =>
     match l with
     | Some (offset, width) =>
         Some (Z.land (Z.shiftr (Status.set_asInt u raw) offset) (Z.ones width))
     | None => None
     end).
  transitivity (read <$> ((fun name => Status.field_layout (Status.bit u) name 0)
                            <$> Status.field_names (Status.bit u))).
  - rewrite <- list_fmap_compose. reflexivity.
  - rewrite Hlay, <- list_fmap_compose.
    apply list_fmap_ext. intros k i Hk.
    apply lookup_seq in Hk as [-> Hlt].
    unfold read, Status.set_asInt; cbn [compose].
    rewrite Hst. f_equal. apply bit_field_of_width_1. lia.
Qed.

(** C8. Status decoding keeps the bit order of the raw integer, bit 0
    being the least significant: the i-th declared flag of the bootloader
    register (32 flags), and of the positioner register (64 flags), reads
    bit i of the raw value. In particular the bootloader value with only
    bit 8 set decodes to [config_changed] = 1 and every other flag 0, and
    the positioner value with only bit 8 set decodes to
    [displacement_completed] = 1 and every other flag 0. *)
Theorem status_decode_bit_order :
  (forall raw : Z,
     Status.decode Status.BootloaderStatus raw <$> Status.field_names Status.BootloaderFlagBits
     = (fun i => Some (Z.b2z (Z.testbit raw (Z.of_nat i)))) <$> seq 0 32)
  /\ (forall raw : Z,
     Status.decode Status.PositionerStatus raw <$> Status.field_names Status.PositionerFlagBits
     = (fun i => Some (Z.b2z (Z.testbit raw (Z.of_nat i)))) <$> seq 0 64)
  /\ Forall (fun name =>
       Status.decode Status.BootloaderStatus (2 ^ 8) name
       = Some (if String.eqb name "config_changed" then 1 else 0))
      (Status.field_names Status.BootloaderFlagBits)
  /\ Forall (fun name =>
       Status.decode Status.PositionerStatus (2 ^ 8) name
       = Some (if String.eqb name "displacement_completed" then 1 else 0))
      (Status.field_names Status.PositionerFlagBits).
Proof.
  split; [|split; [|split]].
  - intros raw. apply (decode_by_layout Status.BootloaderStatus raw 32);
      [reflexivity | exact bootloader_layout].
  - intros raw. apply (decode_by_layout Status.PositionerStatus raw 64);
      [reflexivity | exact positioner_layout].
  - unfold Status.field_names, Status.BootloaderFlagBits; cbn [fmap list_fmap fst].
    repeat (apply Forall_cons; split; [vm_compute; reflexivity|]). constructor.
  - unfold Status.field_names, Status.PositionerFlagBits; cbn [fmap list_fmap fst].
    repeat (apply Forall_cons; split; [vm_compute; reflexivity|]). constructor.
Qed.

(** ** Frame identifiers *)

Lemma frame_id_fields (addr opcode : Z) :
  0 <= addr < 2 ^ 11 -> 0 <= opcode < 2 ^ 8 ->
  let id := Z.shiftl addr 18 + Z.shiftl opcode 10 in
  bits 28 18 id = addr /\ bits 17 10 id = opcode /\ bits 9 0 id = 0.
Proof.
  intros Ha Ho id. subst id. unfold bits.
  rewrite !Z.shiftl_mul_pow2, !Z.shiftr_div_pow2, !Z.land_ones by lia.
  change (28 - 18 + 1) with 11. change (17 - 10 + 1) with 8. change (9 - 0 + 1) with 10.
  change (2 ^ 0) with 1. rewrite Z.div_1_r.
  assert (H18 : (addr * 2 ^ 18 + opcode * 2 ^ 10) / 2 ^ 18 = addr).
  { symmetry. apply (Z.div_unique _ _ _ (opcode * 2 ^ 10)); lia. }
  assert (H10 : (addr * 2 ^ 18 + opcode * 2 ^ 10) / 2 ^ 10 = addr * 2 ^ 8 + opcode).
  { symmetry. apply (Z.div_unique _ _ _ 0); lia. }
  rewrite H18, H10. split; [|split].
  - apply Z.mod_small. lia.
  - symmetry. apply (Z.mod_unique _ _ addr); lia.
  - symmetry. apply (Z.mod_unique _ _ (addr * 2 ^ 8 + opcode)); lia.
Qed.

(** C1. For a device address below 2^11 and a command of the table, the
    identifier of the outbound frame is (addr << 18) + (opcode << 10);
    bits [28:18] of it are the address, bits [17:10] the opcode and bits
    [9:0] are 0. The opcode is one that fits the eight bits [17:10]. *)
Theorem build_frame_id_layout (COMMANDS : gmap string Z) (addr : Z) (cmd : string) (opcode : Z) :
  0 <= addr < 2 ^ 11 ->
  COMMANDS !! cmd = Some opcode ->
  0 <= opcode < 2 ^ 8 ->
  let id := Z.shiftl addr 18 + Z.shiftl opcode 10 in
  Positioner._build_frame_id COMMANDS addr cmd = Some id
  /\ bits 28 18 id = addr
  /\ bits 17 10 id = opcode
  /\ bits 9 0 id = 0.
Proof.
  intros Ha Hc Ho id. split.
  - unfold Positioner._build_frame_id. rewrite Hc. reflexivity.
  - apply frame_id_fields; assumption.
Qed.

Lemma build_frame_id_layout_witness :
  Positioner._build_frame_id example_COMMANDS 5 "FIRMWARE_DATA" = Some (5 * 2 ^ 18 + 201 * 2 ^ 10)
  /\ bits 28 18 (5 * 2 ^ 18 + 201 * 2 ^ 10) = 5
  /\ bits 17 10 (5 * 2 ^ 18 + 201 * 2 ^ 10) = 201
  /\ bits 9 0 (5 * 2 ^ 18 + 201 * 2 ^ 10) = 0.
Proof.
  apply (build_frame_id_layout example_COMMANDS 5 "FIRMWARE_DATA" 201);
    [lia | vm_compute; reflexivity | lia].
Defined.

(** An opcode that needs more than the eight bits [17:10] runs into the
    address bits: the two summands of the identifier overlap. *)
Remark wide_opcode_reaches_address_bits :
  bits 28 18 (arbitration_id (frame 0 256 [])) = 1.
Proof. reflexivity. Qed.

(** ** Unit conversions *)

Lemma py_round_cases (x : Q) :
  let f := Qfloor x in
  let r := (x - inject_Z f)%Q in
  (0 <= r)%Q /\ (r < 1)%Q /\
  (((r <= 1 # 2)%Q /\ py_round x = f)
   \/ ((1 # 2 <= r)%Q /\ py_round x = f + 1)).
Proof.
  intros f r. subst r f.
  pose proof (Qfloor_le x) as Hlo. pose proof (Qlt_floor x) as Hhi.
  rewrite inject_Z_plus in Hhi. change (inject_Z 1) with 1%Q in Hhi.
  split; [lra|]. split; [lra|].
  unfold py_round.
  destruct (Qcompare_spec (x - inject_Z (Qfloor x)) (1 # 2)) as [He|Hl|Hg].
  - destruct (Z.even (Qfloor x)); [left|right]; split; try reflexivity; lra.
  - left. split; [lra | reflexivity].
  - right. split; [lra | reflexivity].
Qed.

Lemma py_round_error (x : Q) :
  (Qabs (inject_Z (py_round x) - x) <= 1 # 2)%Q.
Proof.
  destruct (py_round_cases x) as (H0 & H1 & [[Hr ->]|[Hr ->]]);
    rewrite ?inject_Z_plus; change (inject_Z 1) with 1%Q;
    apply Qabs_Qle_condition; split; lra.
Qed.

(** [py_round x] is an integer nearest to [x]. *)
Lemma py_round_nearest (x : Q) (z : Z) :
  (Qabs (inject_Z (py_round x) - x) <= Qabs (inject_Z z - x))%Q.
Proof.
  destruct (py_round_cases x) as (H0 & H1 & Hcase).
  destruct (Z_le_gt_dec z (Qfloor x)) as [Hz|Hz].
  - rewrite Zle_Qle in Hz.
    destruct Hcase as [[Hr ->]|[Hr ->]];
      rewrite ?inject_Z_plus; change (inject_Z 1) with 1%Q;
      apply Qabs_Qle_condition; split;
      apply (Qabs_case (inject_Z z - x)); intros; lra.
  - assert (Hz' : (Qfloor x + 1 <= z)%Z) by lia.
    rewrite Zle_Qle, inject_Z_plus in Hz'. change (inject_Z 1) with 1%Q in Hz'.
    destruct Hcase as [[Hr ->]|[Hr ->]];
      rewrite ?inject_Z_plus; change (inject_Z 1) with 1%Q;
      apply Qabs_Qle_condition; split;
      apply (Qabs_case (inject_Z z - x)); intros; lra.
Qed.

(** Quotients of integers, to compare powers of two with a rational. *)

Lemma Qdiv_inject_le (A B C D : Z) :
  0 < B -> 0 < D -> A * D <= C * B ->
  (inject_Z A / inject_Z B <= inject_Z C / inject_Z D)%Q.
Proof.
  intros HB HD H.
  assert (HB' : (0 < inject_Z B)%Q) by (rewrite Zlt_Qlt in HB; exact HB).
  assert (HD' : (0 < inject_Z D)%Q) by (rewrite Zlt_Qlt in HD; exact HD).
  apply Qle_shift_div_l; [exact HD'|].
  unfold Qdiv. rewrite <- Qmult_assoc, (Qmult_comm (/ inject_Z B)), Qmult_assoc.
  apply Qle_shift_div_r; [exact HB'|].
  rewrite <- !inject_Z_mult, <- Zle_Qle. exact H.
Qed.

Lemma Qdiv_inject_lt (A B C D : Z) :
  0 < B -> 0 < D -> A * D < C * B ->
  (inject_Z A / inject_Z B < inject_Z C / inject_Z D)%Q.
Proof.
  intros HB HD H.
  assert (HB' : (0 < inject_Z B)%Q) by (rewrite Zlt_Qlt in HB; exact HB).
  assert (HD' : (0 < inject_Z D)%Q) by (rewrite Zlt_Qlt in HD; exact HD).
  apply Qlt_shift_div_l; [exact HD'|].
  unfold Qdiv. rewrite <- Qmult_assoc, (Qmult_comm (/ inject_Z B)), Qmult_assoc.
  apply Qlt_shift_div_r; [exact HB'|].
  rewrite <- !inject_Z_mult, <- Zlt_Qlt. exact H.
Qed.

Lemma two_pow_ratio (a b : Z) :
  0 <= a -> 0 <= b -> (2 ^ (a - b) == inject_Z (2 ^ a) / inject_Z (2 ^ b))%Q.
Proof.
  intros Ha Hb. rewrite Qpower_minus by discriminate.
  now rewrite !Zpower_Qpower by assumption.
Qed.

Lemma Qabs_ratio (x : Q) :
  (Qabs x == inject_Z (Z.abs (Qnum x)) / inject_Z (Zpos (Qden x)))%Q.
Proof. destruct x as [n d]. cbn [Qabs Qnum Qden]. apply Qmake_Qdiv. Qed.

(** [Float64.ilog2 x] is the exponent of the binade of [x]. *)

Section Binade.

Variable x : Q.
Let n := Z.abs (Qnum x).
Let d := Zpos (Qden x).

Lemma ilog2_lower : ~ (x == 0)%Q -> (2 ^ Float64.ilog2 x <= Qabs x)%Q.
Proof.
  intros Hx. unfold Float64.ilog2. fold n d.
  destruct (Qle_bool (2 ^ (Z.log2 n - Z.log2 d)) (Qabs x)) eqn:Hb.
  - now apply Qle_bool_iff.
  - assert (Hn : 0 < n).
    { subst n. destruct x as [[|p|p] q]; cbn; try lia. exfalso. apply Hx. reflexivity. }
    assert (Hd : 0 < d) by (subst d; lia).
    pose proof (Z.log2_spec n Hn) as [Hn1 Hn2].
    pose proof (Z.log2_spec d Hd) as [Hd1 Hd2].
    pose proof (Z.log2_nonneg n). pose proof (Z.log2_nonneg d).
    replace (Z.log2 n - Z.log2 d - 1) with (Z.log2 n - Z.succ (Z.log2 d)) by lia.
    rewrite two_pow_ratio by lia. rewrite Qabs_ratio. fold n d.
    apply Qdiv_inject_le; try lia.
    apply Z.mul_le_mono_nonneg; lia.
Qed.

Lemma ilog2_upper : (Qabs x < 2 ^ (Float64.ilog2 x + 1))%Q.
Proof.
  unfold Float64.ilog2. fold n d.
  assert (Hd : 0 < d) by (subst d; lia).
  pose proof (Z.log2_spec d Hd) as [Hd1 Hd2].
  pose proof (Z.log2_nonneg n). pose proof (Z.log2_nonneg d).
  destruct (Qle_bool (2 ^ (Z.log2 n - Z.log2 d)) (Qabs x)) eqn:Hb.
  - replace (Z.log2 n - Z.log2 d + 1) with (Z.succ (Z.log2 n) - Z.log2 d) by lia.
    rewrite two_pow_ratio by lia. rewrite Qabs_ratio. fold n d.
    assert (Hn : 0 <= n) by (subst n; lia).
    apply Qdiv_inject_lt; try lia.
    assert (Hn2 : n < 2 ^ Z.succ (Z.log2 n)).
    { destruct (Z.eq_dec n 0) as [Hn0|Hn0]; [rewrite Hn0; reflexivity|].
      apply Z.log2_spec. lia. }
    apply Z.le_lt_trans with (n * d);
      [apply Z.mul_le_mono_nonneg_l; lia | apply Z.mul_lt_mono_pos_r; lia].
  - replace (Z.log2 n - Z.log2 d - 1 + 1) with (Z.log2 n - Z.log2 d) by lia.
    apply Qnot_le_lt. intros Hle. apply Qle_bool_iff in Hle. congruence.
Qed.

Lemma ilog2_zero : (x == 0)%Q -> Float64.ilog2 x < 0.
Proof.
  intros Hx. unfold Float64.ilog2. fold n d.
  assert (Hn : n = 0).
  { subst n. destruct x as [[|p|p] q]; cbn; try reflexivity; discriminate Hx. }
  rewrite Hn. change (Z.log2 0) with 0.
  pose proof (Z.log2_nonneg d).
  destruct (Qle_bool (2 ^ (0 - Z.log2 d)) (Qabs x)) eqn:Hb; [|lia].
  apply Qle_bool_iff in Hb. rewrite Hx in Hb.
  pose proof (Qpower_0_lt 2 (0 - Z.log2 d) ltac:(reflexivity)) as Hpos.
  change (Qabs 0) with 0%Q in Hb. lra.
Qed.

Lemma ilog2_lt (k : Z) : (Qabs x < 2 ^ k)%Q -> 0 <= k -> Float64.ilog2 x < k.
Proof.
  intros Hk Hk0.
  destruct (Qeq_dec x 0) as [Hx|Hx]; [pose proof (ilog2_zero Hx); lia|].
  pose proof (ilog2_lower Hx) as Hlow.
  apply (Qpower_lt_compat_l_inv 2); [lra | reflexivity].
Qed.

End Binade.

(** Rounding moves a number below 2^k by at most half a unit in the last
    place of that binade. *)
Lemma round_error (x : Q) (k : Z) :
  (Qabs x < 2 ^ k)%Q -> 0 <= k ->
  (Qabs (Float64.round x - x) <= 2 ^ (k - 54))%Q.
Proof.
  intros Hx Hk. unfold Float64.round.
  pose proof (ilog2_lt x k Hx Hk) as Hlog.
  assert (Hulp : Float64.ulp_exponent x <= k - 53) by (unfold Float64.ulp_exponent; lia).
  set (u := (2 ^ Float64.ulp_exponent x)%Q).
  assert (Hu : (0 < u)%Q) by (apply Qpower_0_lt; reflexivity).
  assert (Hle : (u <= 2 ^ (k - 53))%Q) by (apply Qpower_le_compat_l; [exact Hulp | discriminate]).
  assert (Hdouble : (2 ^ (k - 53) == 2 * 2 ^ (k - 54))%Q).
  { replace (k - 53) with (1 + (k - 54)) by lia. rewrite Qpower_plus by discriminate. reflexivity. }
  pose proof (py_round_error (x / u)) as Herr.
  assert (Heq : (inject_Z (py_round (x / u)) * u - x
                 == (inject_Z (py_round (x / u)) - x / u) * u)%Q).
  { field. lra. }
  rewrite Heq, Qabs_Qmult, (Qabs_pos u) by lra.
  set (e := Qabs (inject_Z (py_round (x / u)) - x / u)) in *.
  assert (He : (0 <= e)%Q) by apply Qabs_nonneg.
  apply Qle_trans with ((1 # 2) * u)%Q; [|lra].
  apply Qmult_le_compat_r; lra.
Qed.

Lemma round_within (x : Q) (k : Z) (bound eps : Q) :
  0 <= k -> (2 ^ k == bound)%Q -> (2 ^ (k - 54) == eps)%Q ->
  (- bound < x < bound)%Q ->
  (- eps <= Float64.round x - x <= eps)%Q.
Proof.
  intros Hk Hb He Hx. apply Qabs_Qle_condition. rewrite <- He.
  apply round_error; [|exact Hk]. rewrite Hb.
  apply Qabs_case; intros; lra.
Qed.

Lemma angle_to_position_close (a : Q) :
  (- 720 <= a <= 720)%Q ->
  (Qabs (inject_Z (Positioner._angle_to_position a) - a / 360 * inject_Z (2 ^ 30))
   <= (1 # 2) + (1 # 2097152))%Q.
Proof.
  intros Ha.
  unfold Positioner._angle_to_position, Float64.mul, Float64.div,
    Positioner._POSITION_RESOLUTION.
  change (inject_Z (2 ^ 30)) with (1073741824 # 1)%Q.
  assert (Hq : (a / 360 == a * (1 # 360))%Q) by (unfold Qdiv; reflexivity).
  pose proof (round_within (a / 360) 2 4 (1 # 4503599627370496)
                ltac:(lia) ltac:(reflexivity) ltac:(reflexivity)) as H1.
  set (x1 := Float64.round (a / 360)) in *.
  pose proof (round_within (x1 * (1073741824 # 1)) 32 4294967296 (1 # 4194304)
                ltac:(lia) ltac:(reflexivity) ltac:(reflexivity)) as H2.
  set (x2 := Float64.round (x1 * (1073741824 # 1))) in *.
  pose proof (py_round_error x2) as H3. apply Qabs_Qle_condition in H3.
  set (p := inject_Z (py_round x2)) in *.
  rewrite Hq in *.
  assert (H1' := H1 ltac:(lra)).
  assert (H2' := H2 ltac:(lra)).
  apply Qabs_Qle_condition. lra.
Qed.

Lemma position_to_angle_close (position : Z) :
  - 2 ^ 31 - 1 <= position <= 2 ^ 31 + 1 ->
  (Qabs (Positioner._position_to_angle position
         - inject_Z position / inject_Z (2 ^ 30) * 360)
   <= 1 # 4398046511104)%Q.
Proof.
  intros Hp.
  unfold Positioner._position_to_angle, Float64.mul, Float64.div,
    Positioner._POSITION_RESOLUTION.
  change (inject_Z (2 ^ 30)) with (1073741824 # 1)%Q.
  assert (Hq : (inject_Z position / (1073741824 # 1)
                == inject_Z position * (1 # 1073741824))%Q) by (unfold Qdiv; reflexivity).
  assert (Hlo : (inject_Z (- 2 ^ 31 - 1) <= inject_Z position)%Q) by (rewrite <- Zle_Qle; lia).
  assert (Hhi : (inject_Z position <= inject_Z (2 ^ 31 + 1))%Q) by (rewrite <- Zle_Qle; lia).
  change (inject_Z (- 2 ^ 31 - 1)) with (- 2147483649 # 1)%Q in Hlo.
  change (inject_Z (2 ^ 31 + 1)) with (2147483649 # 1)%Q in Hhi.
  pose proof (round_within (inject_Z position / (1073741824 # 1)) 2 4 (1 # 4503599627370496)
                ltac:(lia) ltac:(reflexivity) ltac:(reflexivity)) as H1.
  set (y1 := Float64.round (inject_Z position / (1073741824 # 1))) in *.
  pose proof (round_within (y1 * 360) 10 1024 (1 # 17592186044416)
                ltac:(lia) ltac:(reflexivity) ltac:(reflexivity)) as H2.
  set (y2 := Float64.round (y1 * 360)) in *.
  set (p := inject_Z position) in *.
  rewrite Hq in *.
  assert (H1' := H1 ltac:(lra)).
  assert (H2' := H2 ltac:(lra)).
  apply Qabs_Qle_condition. lra.
Qed.

Lemma round_trip_error (a : Q) :
  (- 720 <= a <= 720)%Q ->
  (Qabs (Positioner._position_to_angle (Positioner._angle_to_position a) - a)
   <= 360 / inject_Z (2 ^ 30))%Q.
Proof.
  intros Ha.
  pose proof (angle_to_position_close a Ha) as H1. apply Qabs_Qle_condition in H1.
  set (p := Positioner._angle_to_position a) in *.
  change (inject_Z (2 ^ 30)) with (1073741824 # 1)%Q in *.
  assert (Hq : (a / 360 == a * (1 # 360))%Q) by (unfold Qdiv; reflexivity).
  rewrite Hq in H1.
  assert (Hp : - 2 ^ 31 - 1 <= p <= 2 ^ 31 + 1).
  { assert (H : (inject_Z (- 2 ^ 31 - 1) <= inject_Z p <= inject_Z (2 ^ 31 + 1))%Q).
    { change (inject_Z (- 2 ^ 31 - 1)) with (- 2147483649 # 1)%Q.
      change (inject_Z (2 ^ 31 + 1)) with (2147483649 # 1)%Q. lra. }
    rewrite <- !Zle_Qle in H. exact H. }
  pose proof (position_to_angle_close p Hp) as H2. apply Qabs_Qle_condition in H2.
  change (inject_Z (2 ^ 30)) with (1073741824 # 1)%Q in *.
  assert (Hq2 : (inject_Z p / (1073741824 # 1) == inject_Z p * (1 # 1073741824))%Q)
    by (unfold Qdiv; reflexivity).
  rewrite Hq2 in H2.
  apply Qabs_Qle_condition.
  change (360 / (1073741824 # 1))%Q with (360 * (1 # 1073741824))%Q.
  lra.
Qed.

(** C7. For an angle a of the representable range (at most two
    rotations either way, the counts of which fit 32 bits),
    angle_to_position(a) is round(a/360 * 2^30) computed in binary64: the
    integer nearest to the float product, which is within 2^-21 of the
    exact a/360 * 2^30. position_to_angle(counts) is counts/2^30 * 360
    computed in binary64, within 2^-42 of the exact value. The round trip
    position_to_angle(angle_to_position(a)) differs from a by at most
    360/2^30 degrees. *)
Theorem angle_position_round_trip (a : Q) (counts : Z) :
  (- 720 <= a <= 720)%Q ->
  - 2 ^ 31 <= counts < 2 ^ 31 ->
  let product := Float64.mul (Float64.div a 360) (inject_Z (2 ^ 30)) in
  Positioner._angle_to_position a = py_round product
  /\ (forall z : Z,
        Qabs (inject_Z (Positioner._angle_to_position a) - product)
        <= Qabs (inject_Z z - product))%Q
  /\ (Qabs (product - a / 360 * inject_Z (2 ^ 30)) <= 1 # 2097152)%Q
  /\ Positioner._position_to_angle counts
     = Float64.mul (Float64.div (inject_Z counts) (inject_Z (2 ^ 30))) 360
  /\ (Qabs (Positioner._position_to_angle counts
            - inject_Z counts / inject_Z (2 ^ 30) * 360)
      <= 1 # 4398046511104)%Q
  /\ (Qabs (Positioner._position_to_angle (Positioner._angle_to_position a) - a)
      <= 360 / inject_Z (2 ^ 30))%Q.
Proof.
  intros Ha Hc product.
  split; [reflexivity|]. split; [intros z; apply py_round_nearest|].
  split; [|split; [reflexivity|split]].
  - subst product. unfold Float64.mul, Float64.div.
    change (inject_Z (2 ^ 30)) with (1073741824 # 1)%Q.
    assert (Hq : (a / 360 == a * (1 # 360))%Q) by (unfold Qdiv; reflexivity).
    pose proof (round_within (a / 360) 2 4 (1 # 4503599627370496)
                  ltac:(lia) ltac:(reflexivity) ltac:(reflexivity)) as H1.
    set (x1 := Float64.round (a / 360)) in *.
    pose proof (round_within (x1 * (1073741824 # 1)) 32 4294967296 (1 # 4194304)
                  ltac:(lia) ltac:(reflexivity) ltac:(reflexivity)) as H2.
    set (x2 := Float64.round (x1 * (1073741824 # 1))) in *.
    rewrite Hq in *.
    assert (H1' := H1 ltac:(lra)).
    assert (H2' := H2 ltac:(lra)).
    apply Qabs_Qle_condition. lra.
  - apply position_to_angle_close. lia.
  - apply round_trip_error. exact Ha.
Qed.

Lemma angle_position_round_trip_witness :
  Positioner._angle_to_position 90 = 2 ^ 28
  /\ (Qabs (Positioner._position_to_angle (Positioner._angle_to_position 90) - 90)
      <= 360 / inject_Z (2 ^ 30))%Q.
Proof.
  destruct (angle_position_round_trip 90 (2 ^ 28)) as (H1 & _ & _ & _ & _ & H6).
  - split; discriminate.
  - lia.
  - split; [rewrite H1; vm_compute; reflexivity | exact H6].
Defined.

(** ** The transaction engine, step by step *)

Lemma state_eq (s1 s2 : State) :
  _canid s1 = _canid s2 -> status s1 = status s2 ->
  bus_recv s1 = bus_recv s2 -> bus_send_raises s1 = bus_send_raises s2 ->
  recv_calls s1 = recv_calls s2 -> send_calls s1 = send_calls s2 ->
  trace s1 = trace s2 -> s1 = s2.
Proof. destruct s1, s2; cbn; intros; subst; reflexivity. Qed.

Lemma bind_Return {A B} (m : M A) (k : A -> M B) s a s' :
  m s = (Return a, s') -> bind m k s = k a s'.
Proof. unfold bind. intros ->. reflexivity. Qed.


Lemma bind_OutOfFuel {A B} (m : M A) (k : A -> M B) s s' :
  m s = (OutOfFuel, s') -> bind m k s = (OutOfFuel, s').
Proof. unfold bind. intros ->. reflexivity. Qed.

Lemma log_debug_run (text : string) (s : State) : log_debug text s = (Return tt, s).
Proof. reflexivity. Qed.

Lemma log_error_run (text : string) (s : State) :
  log_error text s = (Return tt, emit (Log ERROR (Text text)) s).
Proof. reflexivity. Qed.

Section Engine.

Variable COMMANDS : gmap string Z.

Lemma send_command_run (command : string) (extra_data : option (list byte)) (opcode : Z) (s : State) :
  COMMANDS !! command = Some opcode ->
  Positioner._send_command COMMANDS command extra_data s
  = (Return tt, after_send (frame (_canid s) opcode (default [] extra_data)) s).
Proof.
  intros Hc. unfold Positioner._send_command, Positioner._build_frame_id.
  rewrite Hc. cbn [mbind option_bind or_raise].
  unfold bind at 1, ret at 1.
  unfold try_except, bind at 1, bus_send, after_send, frame,
    Positioner._CAN_ID_BIT_SHIFT, Positioner._COMMAND_BIT_SHIFT.
  destruct (bus_send_raises s (send_calls s)); reflexivity.
Qed.

Lemma send_command_unknown (command : string) (extra_data : option (list byte)) (s : State) :
  COMMANDS !! command = None ->
  Positioner._send_command COMMANDS command extra_data s = (Raise KeyError, s).
Proof.
  intros Hc. unfold Positioner._send_command, Positioner._build_frame_id.
  rewrite Hc. reflexivity.
Qed.

Lemma polled_succ (s : State) (k : nat) :
  polled k (count_recv (emit (BusRecv 1) s)) = polled (S k) s.
Proof.
  apply state_eq; cbn; try reflexivity; [lia|].
  now rewrite <- app_assoc.
Qed.

Lemma polled_0 (s : State) : polled 0 s = s.
Proof.
  apply state_eq; cbn; try reflexivity; [lia|]. now rewrite app_nil_r.
Qed.

Lemma poll_run (attempts : nat) (s : State) :
  Positioner.poll attempts s
  = (if poll_fails (bus_recv s) (recv_calls s) attempts then Raise BusError
     else Return (await (bus_recv s) (recv_calls s) attempts),
     polled (polls_used (bus_recv s) (recv_calls s) attempts) s).
Proof.
  revert s. induction attempts as [|n IH]; intros s.
  - cbn. now rewrite polled_0.
  - cbn [Positioner.poll poll_fails await polls_used].
    unfold bind at 1, bus_recv_call.
    destruct (bus_recv s (recv_calls s)) eqn:Hr.
    + rewrite IH. cbn [bus_recv recv_calls count_recv emit]. now rewrite polled_succ.
    + unfold ret. now rewrite <- polled_succ, polled_0.
    + now rewrite <- polled_succ, polled_0.
Qed.

Lemma poll_fails_await script start attempts :
  poll_fails script start attempts = true -> await script start attempts = None.
Proof.
  revert start. induction attempts as [|n IH]; intros start; cbn; [done|].
  destruct (script start); auto; discriminate.
Qed.

Lemma get_answer_run (s : State) :
  Positioner._get_answer s = (Return (next_reply s), after_answer s).
Proof.
  unfold Positioner._get_answer, try_except, next_reply, after_answer.
  rewrite poll_run.
  destruct (poll_fails (bus_recv s) (recv_calls s) 5) eqn:Hf.
  - rewrite (poll_fails_await _ _ _ Hf). reflexivity.
  - reflexivity.
Qed.

End Engine.

(** What a send and a receive leave untouched, and what they add to the
    trace. *)

Lemma omap_replicate {A B} (f : A -> option B) (k : nat) (x : A) :
  omap f (replicate k x) = match f x with Some y => replicate k y | None => [] end.
Proof.
  induction k as [|k IH]; cbn.
  - now destruct (f x).
  - rewrite IH. now destruct (f x).
Qed.

Lemma after_send_self msg s :
  _canid (after_send msg s) = _canid s /\ status (after_send msg s) = status s
  /\ bus_recv (after_send msg s) = bus_recv s
  /\ bus_send_raises (after_send msg s) = bus_send_raises s
  /\ recv_calls (after_send msg s) = recv_calls s.
Proof. unfold after_send. destruct (bus_send_raises s (send_calls s)); cbn; auto. Qed.

Lemma after_answer_self s :
  _canid (after_answer s) = _canid s /\ status (after_answer s) = status s
  /\ bus_recv (after_answer s) = bus_recv s
  /\ bus_send_raises (after_answer s) = bus_send_raises s
  /\ recv_calls (after_answer s)
     = (recv_calls s + polls_used (bus_recv s) (recv_calls s) 5)%nat.
Proof. unfold after_answer. destruct (poll_fails _ _ _); cbn; auto. Qed.

Lemma after_send_sent msg s :
  sent_frames (trace (after_send msg s)) = sent_frames (trace s) ++ [msg].
Proof.
  unfold after_send, sent_frames.
  destruct (bus_send_raises s (send_calls s)); cbn; rewrite !omap_app; cbn;
    now rewrite ?app_nil_r.
Qed.

Lemma after_answer_sent s :
  sent_frames (trace (after_answer s)) = sent_frames (trace s).
Proof.
  unfold after_answer, sent_frames.
  destruct (poll_fails _ _ _); cbn; rewrite !omap_app, omap_replicate; cbn;
    now rewrite ?app_nil_r.
Qed.

Lemma after_send_sleeps msg s :
  sleeps (trace (after_send msg s)) = sleeps (trace s).
Proof.
  unfold after_send, sleeps.
  destruct (bus_send_raises s (send_calls s)); cbn; rewrite !omap_app; cbn;
    now rewrite ?app_nil_r.
Qed.

Lemma after_answer_sleeps s :
  sleeps (trace (after_answer s)) = sleeps (trace s).
Proof.
  unfold after_answer, sleeps.
  destruct (poll_fails _ _ _); cbn; rewrite !omap_app, omap_replicate; cbn;
    now rewrite ?app_nil_r.
Qed.

Lemma after_answer_timeouts s :
  recv_timeouts (trace (after_answer s))
  = recv_timeouts (trace s) ++ replicate (polls_used (bus_recv s) (recv_calls s) 5) 1.
Proof.
  unfold after_answer, recv_timeouts.
  destruct (poll_fails _ _ _); cbn; rewrite !omap_app, omap_replicate; cbn;
    now rewrite ?app_nil_r.
Qed.

(** ** Receiving a reply *)

Lemma polls_used_le script start attempts :
  (polls_used script start attempts <= attempts)%nat.
Proof.
  revert start. induction attempts as [|n IH]; intros start; cbn; [lia|].
  destruct (script start); try lia. specialize (IH (S start)). lia.
Qed.

Lemma await_Some script start attempts m :
  await script start attempts = Some m ->
  exists k, (k < attempts)%nat /\ script (start + k)%nat = RecvMsg m
    /\ (forall j, (j < k)%nat -> script (start + j)%nat = RecvNone)
    /\ polls_used script start attempts = S k.
Proof.
  revert start. induction attempts as [|n IH]; intros start; cbn; [discriminate|].
  destruct (script start) eqn:Hs; try discriminate.
  - intros H. destruct (IH _ H) as (k & Hk & Hm & Hj & Hp).
    exists (S k). split; [lia|]. split; [now rewrite <- Nat.add_succ_comm|].
    split; [|now rewrite Hp].
    intros [|j] Hlt; [now rewrite Nat.add_0_r|].
    rewrite <- Nat.add_succ_comm. apply Hj. lia.
  - intros [= ->]. exists 0%nat. split; [lia|]. split; [now rewrite Nat.add_0_r|].
    split; [intros j Hj; lia | reflexivity].
Qed.

Lemma await_silence script start attempts :
  (forall j, (j < attempts)%nat -> script (start + j)%nat = RecvNone) ->
  await script start attempts = None /\ polls_used script start attempts = attempts
  /\ poll_fails script start attempts = false.
Proof.
  revert start. induction attempts as [|n IH]; intros start Hs; cbn; [done|].
  pose proof (Hs 0%nat ltac:(lia)) as H0. rewrite Nat.add_0_r in H0. rewrite H0.
  destruct (IH (S start)) as (Ha & Hp & Hf).
  - intros j Hj. rewrite Nat.add_succ_comm. apply Hs. lia.
  - now rewrite Ha, Hp, Hf.
Qed.

Lemma await_found script start attempts k m :
  (k < attempts)%nat ->
  (forall j, (j < k)%nat -> script (start + j)%nat = RecvNone) ->
  script (start + k)%nat = RecvMsg m ->
  await script start attempts = Some m
  /\ polls_used script start attempts = S k
  /\ poll_fails script start attempts = false.
Proof.
  revert start attempts. induction k as [|k IH]; intros start attempts Hk Hnone Hmsg;
    (destruct attempts as [|n]; [lia|]); cbn.
  - rewrite Nat.add_0_r in Hmsg. now rewrite Hmsg.
  - pose proof (Hnone 0%nat ltac:(lia)) as H0. rewrite Nat.add_0_r in H0. rewrite H0.
    destruct (IH (S start) n) as (Ha & Hp & Hf); [lia | | |].
    + intros j Hj. rewrite Nat.add_succ_comm. apply Hnone. lia.
    + now rewrite Nat.add_succ_comm.
    + now rewrite Ha, Hp, Hf.
Qed.

Lemma poll_until_failure script start attempts k :
  (k < attempts)%nat ->
  (forall j, (j < k)%nat -> script (start + j)%nat = RecvNone) ->
  script (start + k)%nat = RecvRaise ->
  await script start attempts = None
  /\ polls_used script start attempts = S k
  /\ poll_fails script start attempts = true.
Proof.
  revert start attempts. induction k as [|k IH]; intros start attempts Hk Hnone Hraise;
    (destruct attempts as [|n]; [lia|]); cbn.
  - rewrite Nat.add_0_r in Hraise. now rewrite Hraise.
  - pose proof (Hnone 0%nat ltac:(lia)) as H0. rewrite Nat.add_0_r in H0. rewrite H0.
    destruct (IH (S start) n) as (Ha & Hp & Hf); [lia | | |].
    + intros j Hj. rewrite Nat.add_succ_comm. apply Hnone. lia.
    + now rewrite Nat.add_succ_comm.
    + now rewrite Ha, Hp, Hf.
Qed.

(** C3. The receive step polls the channel at most 5 times, each poll a
    [recv] with a wait of 1, and it always returns. When the bus delivers
    a frame at one of these polls, all polls before it having been empty,
    the receive step returns that frame and polls no further; conversely
    a frame it returns is the first one delivered. When 5 polls in a row
    are empty it returns none after exactly 5 polls; when a poll raises,
    it returns none without polling again. *)
Theorem get_answer_bounded_polling (s : State) :
  let r := Positioner._get_answer s in
  (exists answer, fst r = Return answer)
  /\ (recv_calls (snd r) - recv_calls s <= 5)%nat
  /\ recv_timeouts (trace (snd r))
     = recv_timeouts (trace s) ++ replicate (recv_calls (snd r) - recv_calls s) 1
  /\ (forall m k, (k < 5)%nat ->
        (forall j, (j < k)%nat -> bus_recv s (recv_calls s + j)%nat = RecvNone) ->
        bus_recv s (recv_calls s + k)%nat = RecvMsg m ->
        fst r = Return (Some m) /\ recv_calls (snd r) = (recv_calls s + k + 1)%nat)
  /\ (forall m, fst r = Return (Some m) ->
        exists k, (k < 5)%nat
          /\ bus_recv s (recv_calls s + k)%nat = RecvMsg m
          /\ (forall j, (j < k)%nat -> bus_recv s (recv_calls s + j)%nat = RecvNone)
          /\ recv_calls (snd r) = (recv_calls s + k + 1)%nat)
  /\ ((forall j, (j < 5)%nat -> bus_recv s (recv_calls s + j)%nat = RecvNone) ->
        fst r = Return None /\ recv_calls (snd r) = (recv_calls s + 5)%nat)
  /\ (forall k, (k < 5)%nat ->
        (forall j, (j < k)%nat -> bus_recv s (recv_calls s + j)%nat = RecvNone) ->
        bus_recv s (recv_calls s + k)%nat = RecvRaise ->
        fst r = Return None /\ recv_calls (snd r) = (recv_calls s + k + 1)%nat).
Proof.
  intros r. subst r. rewrite get_answer_run. cbn [fst snd].
  destruct (after_answer_self s) as (_ & _ & _ & _ & Hn).
  pose proof (polls_used_le (bus_recv s) (recv_calls s) 5) as Hle.
  split; [eauto|]. split; [lia|]. split.
  { rewrite after_answer_timeouts. f_equal. f_equal. lia. }
  split; [|split; [|split]].
  - intros m k Hk Hnone Hmsg.
    destruct (await_found _ _ 5 k m Hk Hnone Hmsg) as (Ha & Hp & _).
    unfold next_reply. rewrite Ha. split; [reflexivity | lia].
  - intros m [= Hm]. unfold next_reply in Hm.
    destruct (await_Some _ _ _ _ Hm) as (k & Hk & Hs & Hj & Hp).
    exists k. repeat split; auto. lia.
  - intros Hs. destruct (await_silence _ _ _ Hs) as (Ha & Hp & _).
    unfold next_reply. rewrite Ha. split; [reflexivity | lia].
  - intros k Hk Hnone Hraise.
    destruct (poll_until_failure _ _ 5 k Hk Hnone Hraise) as (Ha & Hp & _).
    unfold next_reply. rewrite Ha. split; [reflexivity | lia].
Qed.

Lemma get_answer_bounded_polling_witness :
  let delivering := __init__ (scripted [RecvNone; RecvNone; reply 4 3 0 [x2a]]) reliable 4 in
  (fst (Positioner._get_answer delivering)
   = Return (Some {| arbitration_id := 1051648; data := [x2a]; is_extended_id := true |})
   /\ recv_calls (snd (Positioner._get_answer delivering)) = 3%nat)
  /\ (fst (Positioner._get_answer (__init__ silent reliable 4)) = Return None
      /\ recv_calls (snd (Positioner._get_answer (__init__ silent reliable 4))) = 5%nat).
Proof.
  intros delivering. split.
  - apply (proj1 (proj2 (proj2 (proj2 (get_answer_bounded_polling delivering))))
             {| arbitration_id := 1051648; data := [x2a]; is_extended_id := true |} 2%nat).
    + lia.
    + intros [|[|j]] Hj; [reflexivity | reflexivity | lia].
    + reflexivity.
  - apply (get_answer_bounded_polling (__init__ silent reliable 4)).
    intros j Hj. reflexivity.
Defined.

(** ** Status query and response codes *)

Lemma next_reply_after_send msg s : next_reply (after_send msg s) = next_reply s.
Proof.
  unfold next_reply. destruct (after_send_self msg s) as (_ & _ & -> & _ & ->). reflexivity.
Qed.

Lemma await_Some_no_failure script start attempts m :
  await script start attempts = Some m -> poll_fails script start attempts = false.
Proof.
  revert start. induction attempts as [|n IH]; intros start; cbn; [done|].
  destruct (script start); eauto; discriminate.
Qed.

Lemma after_answer_errors_replied s m :
  next_reply s = Some m ->
  errors_logged (trace (after_answer s)) = errors_logged (trace s).
Proof.
  intros Hm. unfold after_answer.
  rewrite (await_Some_no_failure _ _ _ _ Hm). cbn.
  unfold errors_logged. now rewrite omap_app, omap_replicate, app_nil_r.
Qed.

Section StatusQuery.

Variable COMMANDS : gmap string Z.
Variable RESPONSE_CODE_NUMBER : gmap Z string.
Variable opcode : Z.
Hypothesis GET_STATUS_defined : COMMANDS !! "GET_STATUS" = Some opcode.

Lemma get_status_run (s : State) :
  let s1 := after_answer (after_send (frame (_canid s) opcode []) s) in
  Positioner.get_status COMMANDS RESPONSE_CODE_NUMBER s =
  match next_reply s with
  | None => (Return tt, emit (Log ERROR (Text "Error with command get_status")) s1)
  | Some a =>
      match Positioner._get_response_code RESPONSE_CODE_NUMBER (arbitration_id a) with
      | None => (Raise KeyError, s1)
      | Some _ =>
          match Struct.unpack_Q (data a) with
          | None => (Raise StructError, s1)
          | Some raw => (Return tt, with_status (raw mod 2 ^ 64) s1)
          end
      end
  end.
Proof.
  intros s1. subst s1. unfold Positioner.get_status.
  rewrite (bind_Return _ _ _ _ _ (send_command_run COMMANDS _ _ _ s GET_STATUS_defined)).
  rewrite (bind_Return _ _ _ _ _ (get_answer_run _)).
  rewrite next_reply_after_send. cbn [default].
  destruct (next_reply s) as [a|]; [|reflexivity].
  destruct (Positioner._get_response_code RESPONSE_CODE_NUMBER (arbitration_id a)) as [r|];
    [|reflexivity].
  cbn [or_raise]. unfold bind at 1, ret at 1.
  rewrite (bind_Return _ _ _ _ _ (log_debug_run _ _)).
  destruct (Struct.unpack_Q (data a)) as [raw|]; reflexivity.
Qed.

End StatusQuery.

(** C2, as the code has it. Response-code extraction masks the received
    identifier with 0x3FF and looks the result up in the response table.
    When the masked code is not a key of the table the lookup raises
    [KeyError]; [get_status] does not catch it: the exception reaches the
    caller, no record is logged for it, and the status register keeps the
    value it had. *)
Theorem unknown_response_code_raises
    (COMMANDS : gmap string Z) (RESPONSE_CODE_NUMBER : gmap Z string)
    (opcode : Z) (s : State) (a : Message) :
  COMMANDS !! "GET_STATUS" = Some opcode ->
  next_reply s = Some a ->
  RESPONSE_CODE_NUMBER !! Z.land (arbitration_id a) 0x3FF = None ->
  (forall busid, Positioner._get_response_code RESPONSE_CODE_NUMBER busid
                 = RESPONSE_CODE_NUMBER !! Z.land busid 0x3FF)
  /\ exists s',
       Positioner.get_status COMMANDS RESPONSE_CODE_NUMBER s = (Raise KeyError, s')
       /\ status s' = status s
       /\ errors_logged (trace s')
          = errors_logged (trace (after_send (frame (_canid s) opcode []) s)).
Proof.
  intros Hc Ha Hr. split; [reflexivity|].
  eexists. rewrite (get_status_run _ _ _ Hc), Ha.
  unfold Positioner._get_response_code at 1.
  change (2 ^ Positioner._COMMAND_BIT_SHIFT - 1) with 0x3FF. rewrite Hr.
  split; [reflexivity|]. split.
  - destruct (after_answer_self (after_send (frame (_canid s) opcode []) s)) as (_ & -> & _).
    now destruct (after_send_self (frame (_canid s) opcode []) s) as (_ & -> & _).
  - apply (after_answer_errors_replied _ a). now rewrite next_reply_after_send.
Qed.

Lemma unknown_response_code_raises_witness :
  exists s',
    Positioner.get_status example_COMMANDS example_RESPONSES
      (__init__ (scripted [reply 4 3 5 (Struct.le_bytes 8 256)]) reliable 4)
    = (Raise KeyError, s')
    /\ status s' = 0
    /\ errors_logged (trace s') = [].
Proof.
  apply (unknown_response_code_raises example_COMMANDS example_RESPONSES 3
           (__init__ (scripted [reply 4 3 5 (Struct.le_bytes 8 256)]) reliable 4)
           {| arbitration_id := Z.shiftl 4 18 + Z.shiftl 3 10 + 5;
              data := Struct.le_bytes 8 256; is_extended_id := true |});
    vm_compute; reflexivity.
Defined.

(** C2 as the specification states it, an unknown response code being
    logged and contained, fails on this run: the bus answers the status query of positioner 4
    with response code 5, which the table does not have, and
    [get_status] ends in [KeyError] with nothing logged. *)
Lemma unknown_response_code_not_contained :
  let s := __init__ (scripted [reply 4 3 5 (Struct.le_bytes 8 256)]) reliable 4 in
  let r := Positioner.get_status example_COMMANDS example_RESPONSES s in
  example_RESPONSES !! Z.land (Z.shiftl 4 18 + Z.shiftl 3 10 + 5) 0x3FF = None
  /\ fst r = Raise KeyError
  /\ errors_logged (trace (snd r)) = [].
Proof. vm_compute. repeat split; reflexivity. Qed.

(** ** Mode setters for both axes *)

Lemma codes_known_reply RESPONSE_CODE_NUMBER (s : State) (a : Message) :
  codes_known RESPONSE_CODE_NUMBER (bus_recv s) ->
  next_reply s = Some a ->
  exists r, Positioner._get_response_code RESPONSE_CODE_NUMBER (arbitration_id a) = Some r.
Proof.
  intros Hk Ha. destruct (await_Some _ _ _ _ Ha) as (k & _ & Hs & _).
  exact (Hk _ _ Hs).
Qed.

Lemma codes_known_scripted RESPONSE_CODE_NUMBER (outcomes : list recv_outcome) :
  Forall (fun o => match o with
                   | RecvMsg m =>
                       is_Some (Positioner._get_response_code RESPONSE_CODE_NUMBER
                                  (arbitration_id m))
                   | _ => True
                   end) outcomes ->
  codes_known RESPONSE_CODE_NUMBER (scripted outcomes).
Proof.
  intros H k m Hk. unfold scripted in Hk.
  destruct (outcomes !! k) as [o|] eqn:Ho; cbn in Hk; [subst o | discriminate].
  exact (Forall_lookup_1 _ _ _ _ H Ho).
Qed.

Lemma errors_logged_emit_error r s :
  errors_logged (trace (emit (Log ERROR r) s)) = errors_logged (trace s) ++ [r].
Proof. unfold errors_logged. cbn. now rewrite omap_app. Qed.

Lemma sent_frames_emit_log lvl r s :
  sent_frames (trace (emit (Log lvl r) s)) = sent_frames (trace s).
Proof. unfold sent_frames. cbn. now rewrite omap_app, app_nil_r. Qed.

Section BothAxes.

Variable COMMANDS : gmap string Z.
Variable RESPONSE_CODE_NUMBER : gmap Z string.
Variables alpha_cmd beta_cmd : string.
Variables alpha_op beta_op : Z.
Hypothesis alpha_defined : COMMANDS !! alpha_cmd = Some alpha_op.
Hypothesis beta_defined : COMMANDS !! beta_cmd = Some beta_op.

Lemma set_both_axes_no_alpha_reply (s : State) :
  next_reply s = None ->
  Positioner.set_both_axes COMMANDS RESPONSE_CODE_NUMBER alpha_cmd beta_cmd s
  = (Return VNone,
     emit (Log ERROR (Text ("Error with command " +:+ alpha_cmd)))
       (after_answer (after_send (frame (_canid s) alpha_op []) s))).
Proof using alpha_defined.
  intros Hn. unfold Positioner.set_both_axes.
  rewrite (bind_Return _ _ _ _ _ (send_command_run COMMANDS _ _ _ s alpha_defined)).
  rewrite (bind_Return _ _ _ _ _ (get_answer_run _)).
  rewrite next_reply_after_send, Hn. reflexivity.
Qed.

Lemma set_both_axes_run (s : State) :
  codes_known RESPONSE_CODE_NUMBER (bus_recv s) ->
  exists s',
    Positioner.set_both_axes COMMANDS RESPONSE_CODE_NUMBER alpha_cmd beta_cmd s
    = (Return VNone, s')
    /\ sent_frames (trace s')
       = sent_frames (trace s)
         ++ match next_reply s with
            | None => [frame (_canid s) alpha_op []]
            | Some _ => [frame (_canid s) alpha_op []; frame (_canid s) beta_op []]
            end.
Proof using alpha_defined beta_defined.
  intros Hk.
  destruct (next_reply s) as [a|] eqn:Ha.
  - unfold Positioner.set_both_axes.
    rewrite (bind_Return _ _ _ _ _ (send_command_run COMMANDS _ _ _ s alpha_defined)).
    rewrite (bind_Return _ _ _ _ _ (get_answer_run _)).
    rewrite next_reply_after_send, Ha.
    destruct (codes_known_reply _ _ _ Hk Ha) as [r ->].
    cbn [or_raise default]. unfold bind at 1, ret at 1.
    rewrite (bind_Return _ _ _ _ _ (log_debug_run _ _)).
    set (s1 := after_answer (after_send (frame (_canid s) alpha_op []) s)).
    assert (Hs1 : _canid s1 = _canid s /\ bus_recv s1 = bus_recv s
                  /\ sent_frames (trace s1) = sent_frames (trace s) ++ [frame (_canid s) alpha_op []]).
    { subst s1. rewrite after_answer_sent, after_send_sent.
      destruct (after_answer_self (after_send (frame (_canid s) alpha_op []) s))
        as (-> & _ & -> & _).
      destruct (after_send_self (frame (_canid s) alpha_op []) s) as (-> & _ & -> & _).
      auto. }
    destruct Hs1 as (Hid & Hbus & Hsent).
    rewrite (bind_Return _ _ _ _ _ (send_command_run COMMANDS _ _ _ s1 beta_defined)).
    rewrite (bind_Return _ _ _ _ _ (get_answer_run _)).
    rewrite next_reply_after_send. cbn [default].
    assert (Hfinal : sent_frames (trace (after_answer (after_send (frame (_canid s1) beta_op []) s1)))
                     = sent_frames (trace s)
                       ++ [frame (_canid s) alpha_op []; frame (_canid s) beta_op []]).
    { rewrite after_answer_sent, after_send_sent, Hsent, Hid, <- app_assoc. reflexivity. }
    destruct (next_reply s1) as [b|] eqn:Hb.
    + assert (Hk1 : codes_known RESPONSE_CODE_NUMBER (bus_recv s1)) by now rewrite Hbus.
      destruct (codes_known_reply _ _ _ Hk1 Hb) as [r' ->].
      cbn [or_raise]. unfold bind at 1, ret at 1.
      rewrite (bind_Return _ _ _ _ _ (log_debug_run _ _)).
      eexists. split; [reflexivity | exact Hfinal].
    + rewrite (bind_Return _ _ _ _ _ (log_error_run _ _)).
      eexists. split; [reflexivity|]. now rewrite sent_frames_emit_log.
  - rewrite (set_both_axes_no_alpha_reply _ Ha).
    eexists. split; [reflexivity|].
    now rewrite sent_frames_emit_log, after_answer_sent, after_send_sent.
Qed.

End BothAxes.

Lemma run_setter_unfold COMMANDS RESPONSE_CODE_NUMBER (op : mode_setter) :
  run_setter COMMANDS RESPONSE_CODE_NUMBER op
  = Positioner.set_both_axes COMMANDS RESPONSE_CODE_NUMBER (alpha_command op) (beta_command op).
Proof. destruct op; reflexivity. Qed.

(** C4, as the code has it. Each of the five mode setters for both axes
    issues the alpha transaction, then the beta transaction. When the
    alpha transaction gets no reply the beta frame is never sent and an
    error naming the alpha command is logged. The setter returns None in
    that case, as it does when both axes answered: the returned value
    does not tell the caller the two apart. (Replies carry response codes
    of the table.) *)
Theorem mode_setters_alpha_then_beta
    (COMMANDS : gmap string Z) (RESPONSE_CODE_NUMBER : gmap Z string)
    (op : mode_setter) (alpha_op beta_op : Z) (s : State) :
  COMMANDS !! alpha_command op = Some alpha_op ->
  COMMANDS !! beta_command op = Some beta_op ->
  codes_known RESPONSE_CODE_NUMBER (bus_recv s) ->
  exists s',
    run_setter COMMANDS RESPONSE_CODE_NUMBER op s = (Return VNone, s')
    /\ sent_frames (trace s')
       = sent_frames (trace s)
         ++ match next_reply s with
            | None => [frame (_canid s) alpha_op []]
            | Some _ => [frame (_canid s) alpha_op []; frame (_canid s) beta_op []]
            end
    /\ (next_reply s = None ->
        last (errors_logged (trace s'))
        = Some (Text ("Error with command " +:+ alpha_command op))).
Proof.
  intros Ha Hb Hk. rewrite run_setter_unfold.
  destruct (set_both_axes_run COMMANDS RESPONSE_CODE_NUMBER _ _ _ _ Ha Hb s Hk)
    as (s' & Hrun & Hsent).
  exists s'. split; [exact Hrun|]. split; [exact Hsent|].
  intros Hn. rewrite (set_both_axes_no_alpha_reply COMMANDS RESPONSE_CODE_NUMBER _ _ _ Ha s Hn) in Hrun.
  injection Hrun as <-. rewrite errors_logged_emit_error. apply last_snoc.
Qed.

Lemma mode_setters_alpha_then_beta_witness :
  let s := __init__ (scripted [RecvNone; RecvNone; RecvNone; RecvNone; RecvNone;
                               reply 4 110 0 []]) reliable 4 in
  exists s',
    run_setter example_COMMANDS example_RESPONSES ClosedLoop s = (Return VNone, s')
    /\ sent_frames (trace s') = [] ++ [frame 4 110 []]
    /\ (next_reply s = None ->
        last (errors_logged (trace s')) = Some (Text "Error with command SET_ALPHA_CLOSED_LOOP")).
Proof.
  intros s.
  apply (mode_setters_alpha_then_beta example_COMMANDS example_RESPONSES ClosedLoop 110 111 s);
    [vm_compute; reflexivity | vm_compute; reflexivity |].
  apply codes_known_scripted.
  repeat (apply Forall_cons; split;
          [first [exact I | exists "COMMAND_ACCEPTED"; vm_compute; reflexivity]|]).
  constructor.
Defined.

(** C4 as the specification states it, the result of the operation
    telling a missing alpha reply from success, fails on these two runs
    of [set_mode_closed_loop]:
    on a silent bus only the alpha frame is sent, on a bus that accepts
    both commands both frames are sent, and the operation returns None
    each time. *)
Lemma mode_setter_result_same_on_failure :
  let failed := Positioner.set_mode_closed_loop example_COMMANDS example_RESPONSES
                  (__init__ silent reliable 4) in
  let succeeded := Positioner.set_mode_closed_loop example_COMMANDS example_RESPONSES
                     (__init__ (scripted [reply 4 110 0 []; reply 4 111 0 []]) reliable 4) in
  next_reply (__init__ silent reliable 4) = None
  /\ sent_frames (trace (snd failed)) = [frame 4 110 []]
  /\ sent_frames (trace (snd succeeded)) = [frame 4 110 []; frame 4 111 []]
  /\ errors_logged (trace (snd succeeded)) = []
  /\ fst failed = Return VNone
  /\ fst succeeded = Return VNone
  /\ fst failed = fst succeeded.
Proof. vm_compute. repeat split; reflexivity. Qed.

(** ** Waiting for the end of a motion *)

Lemma displacement_completed_bit (raw : Z) :
  Status.getattr Status.PositionerStatus raw "displacement_completed"
  = Some (Z.b2z (Z.testbit raw 8)).
Proof.
  unfold Status.getattr.
  change (Status.field_layout (Status.bit Status.PositionerStatus) "displacement_completed" 0)
    with (Some (8, 1)).
  f_equal. rewrite Z.land_ones by lia. change (2 ^ 1) with 2.
  rewrite <- Z.bit0_mod, Z.shiftr_spec by lia. reflexivity.
Qed.

Lemma displacement_pending_bit (s : State) :
  Positioner.displacement_pending s = negb (Z.testbit (status s) 8).
Proof.
  unfold Positioner.displacement_pending. rewrite displacement_completed_bit.
  destruct (Z.testbit (status s) 8); reflexivity.
Qed.

Lemma wait_move_loop_returns COMMANDS RESPONSE_CODE_NUMBER (fuel : nat) (s s' : State) (v : unit) :
  Positioner.wait_move_loop COMMANDS RESPONSE_CODE_NUMBER fuel s = (Return v, s') ->
  Positioner.displacement_pending s' = false.
Proof.
  revert s. induction fuel as [|n IH]; intros s; cbn [Positioner.wait_move_loop];
    destruct (Positioner.displacement_pending s) eqn:Hp; try discriminate;
    try (intros [= _ <-]; exact Hp).
  unfold bind at 1.
  destruct (Positioner.get_status COMMANDS RESPONSE_CODE_NUMBER s) as [[[]| |] s1];
    try discriminate.
  unfold bind at 1, sleep. apply IH.
Qed.

Lemma sent_frames_emit_sleep q s :
  sent_frames (trace (emit (Sleep q) s)) = sent_frames (trace s).
Proof. unfold sent_frames. cbn. now rewrite omap_app, app_nil_r. Qed.

Lemma sleeps_emit_sleep q s :
  sleeps (trace (emit (Sleep q) s)) = sleeps (trace s) ++ [q].
Proof. unfold sleeps. cbn. now rewrite omap_app. Qed.

Lemma sleeps_emit_log lvl r s :
  sleeps (trace (emit (Log lvl r) s)) = sleeps (trace s).
Proof. unfold sleeps. cbn. now rewrite omap_app, app_nil_r. Qed.

Section NeverCompletes.

Variable COMMANDS : gmap string Z.
Variable RESPONSE_CODE_NUMBER : gmap Z string.
Variable opcode : Z.
Hypothesis GET_STATUS_defined : COMMANDS !! "GET_STATUS" = Some opcode.

Lemma get_status_still_pending (s : State) :
  never_completes RESPONSE_CODE_NUMBER (bus_recv s) ->
  Z.testbit (status s) 8 = false ->
  exists s',
    Positioner.get_status COMMANDS RESPONSE_CODE_NUMBER s = (Return tt, s')
    /\ Z.testbit (status s') 8 = false
    /\ bus_recv s' = bus_recv s /\ _canid s' = _canid s
    /\ sent_frames (trace s') = sent_frames (trace s) ++ [frame (_canid s) opcode []]
    /\ sleeps (trace s') = sleeps (trace s).
Proof using GET_STATUS_defined.
  intros Hdev Hbit.
  rewrite (get_status_run _ _ _ GET_STATUS_defined).
  set (s1 := after_answer (after_send (frame (_canid s) opcode []) s)).
  assert (Hs1 : status s1 = status s /\ bus_recv s1 = bus_recv s /\ _canid s1 = _canid s
                /\ sent_frames (trace s1) = sent_frames (trace s) ++ [frame (_canid s) opcode []]
                /\ sleeps (trace s1) = sleeps (trace s)).
  { subst s1. rewrite after_answer_sent, after_send_sent, after_answer_sleeps, after_send_sleeps.
    destruct (after_answer_self (after_send (frame (_canid s) opcode []) s))
      as (-> & -> & -> & _).
    destruct (after_send_self (frame (_canid s) opcode []) s) as (-> & -> & -> & _).
    auto. }
  destruct Hs1 as (Hst & Hbus & Hid & Hsent & Hsl).
  destruct (next_reply s) as [a|] eqn:Ha.
  - destruct (await_Some _ _ _ _ Ha) as (k & _ & Hk & _).
    destruct (Hdev _ _ Hk) as ([r ->] & Hlen & Hclear).
    unfold Struct.unpack_Q. rewrite bool_decide_eq_true_2 by exact Hlen.
    eexists. split; [reflexivity|]. cbn [status with_status bus_recv _canid trace].
    split; [|auto].
    rewrite Z.mod_pow2_bits_low by lia. exact Hclear.
  - eexists. split; [reflexivity|]. cbn [status emit bus_recv _canid trace].
    rewrite Hst. split; [exact Hbit|]. split; [exact Hbus|]. split; [exact Hid|].
    change (trace s1 ++ [Log ERROR (Text "Error with command get_status")])
      with (trace (emit (Log ERROR (Text "Error with command get_status")) s1)).
    rewrite sent_frames_emit_log, sleeps_emit_log. auto.
Qed.

Lemma wait_move_loop_spins (fuel : nat) (s : State) :
  never_completes RESPONSE_CODE_NUMBER (bus_recv s) ->
  Z.testbit (status s) 8 = false ->
  exists s',
    Positioner.wait_move_loop COMMANDS RESPONSE_CODE_NUMBER fuel s = (OutOfFuel, s')
    /\ Z.testbit (status s') 8 = false
    /\ sent_frames (trace s')
       = sent_frames (trace s) ++ replicate fuel (frame (_canid s) opcode [])
    /\ sleeps (trace s') = sleeps (trace s) ++ replicate fuel (1 # 2)%Q.
Proof using GET_STATUS_defined.
  revert s. induction fuel as [|n IH]; intros s Hdev Hbit;
    cbn [Positioner.wait_move_loop]; rewrite displacement_pending_bit, Hbit; cbn [negb].
  - exists s. cbn. now rewrite !app_nil_r.
  - destruct (get_status_still_pending s Hdev Hbit)
      as (s1 & Hrun & Hbit1 & Hbus1 & Hid1 & Hsent1 & Hsl1).
    rewrite (bind_Return _ _ _ _ _ Hrun).
    unfold bind at 1, sleep.
    destruct (IH (emit (Sleep (1 # 2)) s1)) as (s' & Hloop & Hbit' & Hsent' & Hsl').
    { cbn. now rewrite Hbus1. }
    { exact Hbit1. }
    exists s'. split; [exact Hloop|]. split; [exact Hbit'|].
    rewrite Hsent', Hsl', sent_frames_emit_sleep, sleeps_emit_sleep.
    cbn [emit _canid]. rewrite Hsent1, Hsl1, Hid1, <- !app_assoc. split; reflexivity.
Qed.

End NeverCompletes.

(** C9. [wait_move] returns only with the [displacement_completed] flag
    of the stored status set. While the flag is clear every iteration
    issues one status query and sleeps 0.5 s, and nothing bounds the
    iterations: against a device that never sets the flag, however many
    iterations are allowed the loop is still running after them, having
    sent one status query more than that and slept that many times. *)
Theorem wait_move_blocks (COMMANDS : gmap string Z) (RESPONSE_CODE_NUMBER : gmap Z string) :
  (forall (fuel : nat) (s s' : State) (v : value),
     Positioner.wait_move COMMANDS RESPONSE_CODE_NUMBER fuel s = (Return v, s') ->
     Status.getattr Status.PositionerStatus (status s') "displacement_completed" = Some 1)
  /\ (forall (fuel : nat) (s : State) (opcode : Z),
        COMMANDS !! "GET_STATUS" = Some opcode ->
        never_completes RESPONSE_CODE_NUMBER (bus_recv s) ->
        Status.getattr Status.PositionerStatus (status s) "displacement_completed" <> Some 1 ->
        exists s',
          Positioner.wait_move COMMANDS RESPONSE_CODE_NUMBER fuel s = (OutOfFuel, s')
          /\ Status.getattr Status.PositionerStatus (status s') "displacement_completed" <> Some 1
          /\ sent_frames (trace s')
             = sent_frames (trace s) ++ replicate (S fuel) (frame (_canid s) opcode [])
          /\ sleeps (trace s') = sleeps (trace s) ++ replicate fuel (1 # 2)%Q).
Proof.
  split.
  - intros fuel s s' v. unfold Positioner.wait_move, bind at 1.
    destruct (Positioner.get_status COMMANDS RESPONSE_CODE_NUMBER s) as [[[]| |] s1];
      try discriminate.
    unfold bind at 1.
    destruct (Positioner.wait_move_loop COMMANDS RESPONSE_CODE_NUMBER fuel s1)
      as [[[]| |] s2] eqn:Hloop; try discriminate.
    intros [= _ <-].
    apply wait_move_loop_returns in Hloop.
    rewrite displacement_pending_bit in Hloop. rewrite displacement_completed_bit.
    destruct (Z.testbit (status s2) 8); [reflexivity | discriminate].
  - intros fuel s opcode Hc Hdev Hflag.
    assert (Hbit : Z.testbit (status s) 8 = false).
    { rewrite displacement_completed_bit in Hflag.
      destruct (Z.testbit (status s) 8); [now contradiction Hflag | reflexivity]. }
    destruct (get_status_still_pending _ _ _ Hc s Hdev Hbit)
      as (s1 & Hrun & Hbit1 & Hbus1 & Hid1 & Hsent1 & Hsl1).
    destruct (wait_move_loop_spins _ RESPONSE_CODE_NUMBER _ Hc fuel s1)
      as (s' & Hloop & Hbit' & Hsent' & Hsl'); [now rewrite Hbus1 | exact Hbit1 |].
    exists s'. unfold Positioner.wait_move.
    rewrite (bind_Return _ _ _ _ _ Hrun), (bind_OutOfFuel _ _ _ _ Hloop).
    split; [reflexivity|]. split.
    + rewrite displacement_completed_bit, Hbit'. discriminate.
    + rewrite Hsent', Hsl', Hsent1, Hsl1, Hid1, <- app_assoc. auto.
Qed.

Lemma wait_move_blocks_witness :
  Status.getattr Status.PositionerStatus
    (status (snd (Positioner.wait_move example_COMMANDS example_RESPONSES 0
                    (__init__ (reporting 4 3 256) reliable 4))))
    "displacement_completed" = Some 1
  /\ exists s',
       Positioner.wait_move example_COMMANDS example_RESPONSES 3
         (__init__ (reporting 4 3 0) reliable 4) = (OutOfFuel, s')
       /\ Status.getattr Status.PositionerStatus (status s') "displacement_completed" <> Some 1
       /\ sent_frames (trace s') = [] ++ replicate 4 (frame 4 3 [])
       /\ sleeps (trace s') = [] ++ replicate 3 (1 # 2)%Q.
Proof.
  split.
  - apply (proj1 (wait_move_blocks example_COMMANDS example_RESPONSES) 0%nat
             (__init__ (reporting 4 3 256) reliable 4) _ VNone).
    vm_compute. reflexivity.
  - apply (proj2 (wait_move_blocks example_COMMANDS example_RESPONSES) 3%nat
             (__init__ (reporting 4 3 0) reliable 4) 3).
    + vm_compute. reflexivity.
    + intros k m [= <-]. split; [exists "COMMAND_ACCEPTED"|]; vm_compute; auto.
    + vm_compute. discriminate.
Defined.

(** ** Firmware upgrade *)

Lemma crc32_range (data : list byte) (value : Z) :
  0 <= Zlib.crc32 data value < 2 ^ 32.
Proof.
  unfold Zlib.crc32. change 0xFFFFFFFF with (Z.ones 32).
  rewrite (Z.land_ones _ 32) by lia. apply Z.mod_pos_bound. lia.
Qed.

Lemma crc_range (file : list byte) : 0 <= Positioner._crc file < 2 ^ 32.
Proof.
  unfold Positioner._crc.
  assert (H : forall lines acc, 0 <= acc < 2 ^ 32 ->
            0 <= fold_left (fun result eachLine => Zlib.crc32 eachLine result) lines acc < 2 ^ 32).
  { induction lines as [|l lines IH]; intros acc Hacc; cbn; [exact Hacc|].
    apply IH, crc32_range. }
  apply H. lia.
Qed.

Lemma Z_of_byte_range (b : byte) : 0 <= Struct.Z_of_byte b < 256.
Proof.
  unfold Struct.Z_of_byte. pose proof (Byte.to_N_bounded b). lia.
Qed.

Lemma below_pow2_land (n x : Z) : 0 <= n -> (0 <= x < 2 ^ n <-> Z.land x (Z.ones n) = x).
Proof.
  intros Hn. rewrite Z.land_ones by lia. split.
  - intros H. now apply Z.mod_small.
  - intros <-. apply Z.mod_pos_bound. lia.
Qed.

Lemma lxor_below_pow2 (n a b : Z) :
  0 <= n -> 0 <= a < 2 ^ n -> 0 <= b < 2 ^ n -> 0 <= Z.lxor a b < 2 ^ n.
Proof.
  intros Hn Ha Hb. apply below_pow2_land; [exact Hn|].
  apply (below_pow2_land n a Hn) in Ha. apply (below_pow2_land n b Hn) in Hb.
  apply Z.bits_inj'. intros i Hi.
  assert (Hai : Z.testbit a i = Z.testbit a i && Z.testbit (Z.ones n) i)
    by (now rewrite <- Z.land_spec, Ha).
  assert (Hbi : Z.testbit b i = Z.testbit b i && Z.testbit (Z.ones n) i)
    by (now rewrite <- Z.land_spec, Hb).
  rewrite Z.land_spec, !Z.lxor_spec.
  destruct (Z.testbit a i), (Z.testbit b i), (Z.testbit (Z.ones n) i);
    try reflexivity; discriminate.
Qed.

Lemma crc_shift_range (c : Z) : 0 <= c < 2 ^ 32 -> 0 <= Zlib.crc_shift c < 2 ^ 32.
Proof.
  intros Hc. unfold Zlib.crc_shift.
  assert (Hs : 0 <= Z.shiftr c 1 < 2 ^ 32).
  { rewrite Z.shiftr_div_pow2 by lia. change (2 ^ 1) with 2.
    split; [apply Z.div_pos; lia|]. apply Z.div_lt_upper_bound; lia. }
  destruct (Z.testbit c 0); [|exact Hs].
  apply lxor_below_pow2; [lia | exact Hs | lia].
Qed.

Lemma crc_byte_range (c : Z) (b : byte) :
  0 <= c < 2 ^ 32 -> 0 <= Zlib.crc_byte c b < 2 ^ 32.
Proof.
  intros Hc. unfold Zlib.crc_byte.
  assert (H0 : 0 <= Z.lxor c (Struct.Z_of_byte b) < 2 ^ 32).
  { apply lxor_below_pow2; [lia | exact Hc |]. pose proof (Z_of_byte_range b). lia. }
  cbn [Nat.iter]. do 8 apply crc_shift_range. exact H0.
Qed.

Lemma crc_register_range (data : list byte) (c : Z) :
  0 <= c < 2 ^ 32 -> 0 <= fold_left Zlib.crc_byte data c < 2 ^ 32.
Proof.
  revert c. induction data as [|b data IH]; intros c Hc; cbn; [exact Hc|].
  apply IH, crc_byte_range, Hc.
Qed.

Lemma crc_complement_range (v : Z) :
  0 <= Z.lxor (Z.land v 0xFFFFFFFF) 0xFFFFFFFF < 2 ^ 32.
Proof.
  apply lxor_below_pow2; [lia | | lia].
  change 0xFFFFFFFF with (Z.ones 32). rewrite Z.land_ones by lia.
  apply Z.mod_pos_bound. lia.
Qed.

Lemma crc_complement_twice (x : Z) :
  0 <= x < 2 ^ 32 ->
  Z.lxor (Z.land (Z.land (Z.lxor x 0xFFFFFFFF) 0xFFFFFFFF) 0xFFFFFFFF) 0xFFFFFFFF = x.
Proof.
  intros Hx.
  assert (Hc : 0 <= Z.lxor x 0xFFFFFFFF < 2 ^ 32) by (apply lxor_below_pow2; lia).
  change 0xFFFFFFFF with (Z.ones 32) in *.
  rewrite !(proj1 (below_pow2_land 32 _ ltac:(lia)) Hc).
  rewrite Z.lxor_assoc, Z.lxor_nilpotent, Z.lxor_0_r. reflexivity.
Qed.

(** The checksum can be computed piece by piece. *)
Lemma crc32_app (a b : list byte) (value : Z) :
  Zlib.crc32 (a ++ b) value = Zlib.crc32 b (Zlib.crc32 a value).
Proof.
  unfold Zlib.crc32. rewrite fold_left_app.
  rewrite crc_complement_twice; [reflexivity|].
  apply crc_register_range, crc_complement_range.
Qed.

Lemma crc32_nil (value : Z) : 0 <= value < 2 ^ 32 -> Zlib.crc32 [] value = value.
Proof.
  intros Hv. unfold Zlib.crc32. cbn [fold_left].
  change 0xFFFFFFFF with (Z.ones 32).
  rewrite (proj1 (below_pow2_land 32 value ltac:(lia)) Hv).
  rewrite Z.lxor_assoc, Z.lxor_nilpotent, Z.lxor_0_r.
  now apply below_pow2_land.
Qed.

Lemma readlines_concat (cur file : list byte) :
  concat (Positioner.readlines cur file) = rev cur ++ file.
Proof.
  revert cur. induction file as [|b file IH]; intros cur; cbn [Positioner.readlines].
  - destruct cur; cbn; now rewrite ?app_nil_r.
  - destruct (Byte.eqb b x0a).
    + cbn [concat]. rewrite IH. cbn [rev]. now rewrite <- !app_assoc.
    + rewrite IH. cbn [rev]. now rewrite <- app_assoc.
Qed.

Lemma crc_lines (lines : list (list byte)) (value : Z) :
  0 <= value < 2 ^ 32 ->
  fold_left (fun result eachLine => Zlib.crc32 eachLine result) lines value
  = Zlib.crc32 (concat lines) value.
Proof.
  revert value. induction lines as [|l lines IH]; intros value Hv; cbn [fold_left concat].
  - now rewrite crc32_nil.
  - rewrite IH by apply crc32_range. now rewrite crc32_app.
Qed.

(** Reading a file by lines does not change its checksum. *)
Lemma crc_whole_file (file : list byte) : Positioner._crc file = Zlib.crc32 file 0.
Proof.
  unfold Positioner._crc. rewrite crc_lines by lia.
  now rewrite readlines_concat.
Qed.

Lemma read_chunks_fuel (fuel1 fuel2 : nat) (f : list byte) :
  (length f < 8 * fuel1)%nat -> (length f < 8 * fuel2)%nat ->
  read_chunks fuel1 f = read_chunks fuel2 f.
Proof.
  revert fuel2 f. induction fuel1 as [|n IH]; intros [|m] f H1 H2; try lia.
  cbn [read_chunks]. f_equal. case_bool_decide; [reflexivity|].
  apply IH; rewrite length_drop; lia.
Qed.

Lemma read_chunks_concat (fuel : nat) (f : list byte) :
  (length f < 8 * fuel)%nat -> concat (read_chunks fuel f) = f.
Proof.
  revert f. induction fuel as [|n IH]; intros f H; [lia|].
  cbn [read_chunks concat]. case_bool_decide as Hle.
  - cbn. rewrite app_nil_r. apply take_ge. lia.
  - rewrite IH by (rewrite length_drop; lia). apply take_drop.
Qed.

Lemma read_chunks_sizes (fuel : nat) (f : list byte) :
  (length f < 8 * fuel)%nat ->
  exists full final,
    read_chunks fuel f = full ++ [final]
    /\ Forall (fun c => length c = 8%nat) full
    /\ (length final <= 8)%nat
    /\ (f <> [] -> (0 < length final)%nat).
Proof.
  revert f. induction fuel as [|n IH]; intros f H; [lia|].
  cbn [read_chunks]. case_bool_decide as Hle.
  - exists [], (take 8 f). split; [reflexivity|]. split; [constructor|].
    rewrite length_take. split; [lia|].
    intros Hne. destruct f; [congruence | cbn; lia].
  - destruct (IH (drop 8 f)) as (full & final & Heq & Hfull & Hfin & Hpos).
    { rewrite length_drop. lia. }
    exists (take 8 f :: full), final. rewrite Heq. split; [reflexivity|].
    split; [constructor; [rewrite length_take; lia | exact Hfull]|].
    split; [exact Hfin|]. intros _. apply Hpos.
    intros Hd. apply (f_equal length) in Hd. rewrite length_drop in Hd. cbn in Hd. lia.
Qed.

Lemma read_chunks_lengths (fuel : nat) (f g : list byte) :
  length f = length g ->
  length <$> read_chunks fuel f = length <$> read_chunks fuel g.
Proof.
  revert f g. induction fuel as [|n IH]; intros f g H; [reflexivity|].
  cbn [read_chunks fmap list_fmap]. rewrite !length_take, H. f_equal.
  repeat case_bool_decide; try lia; [reflexivity|].
  apply IH. rewrite !length_drop. lia.
Qed.

Lemma file_chunks_20 (file : list byte) :
  length file = 20%nat -> length <$> file_chunks file = [8; 8; 4]%nat.
Proof.
  intros H. unfold file_chunks. rewrite H.
  rewrite (read_chunks_lengths _ file (replicate 20 x00)) by (rewrite H; reflexivity).
  reflexivity.
Qed.

Lemma pack_II_fits (a b : Z) :
  0 <= a < 2 ^ 32 -> 0 <= b < 2 ^ 32 ->
  Struct.pack_II a b = Some (Struct.le_bytes 4 a ++ Struct.le_bytes 4 b).
Proof.
  intros Ha Hb. unfold Struct.pack_II, Struct.pack_I.
  rewrite !bool_decide_eq_true_2 by assumption. reflexivity.
Qed.

Section Firmware.

Variable COMMANDS : gmap string Z.
Variable RESPONSE_CODE_NUMBER : gmap Z string.
Variables new_op data_op : Z.
Hypothesis SEND_NEW_FIRMWARE_defined : COMMANDS !! "SEND_NEW_FIRMWARE" = Some new_op.
Hypothesis FIRMWARE_DATA_defined : COMMANDS !! "FIRMWARE_DATA" = Some data_op.

Lemma polls_used_pos script start attempts :
  (0 < attempts)%nat -> (0 < polls_used script start attempts)%nat.
Proof. destruct attempts as [|n]; [lia|]. intros _. cbn. destruct (script start); lia. Qed.

(** One transaction: the frame is sent, then between 1 and 5 polls are
    made for its reply. *)
Lemma transaction_polls (msg : Message) (s : State) :
  let s1 := after_answer (after_send msg s) in
  _canid s1 = _canid s
  /\ sent_frames (trace s1) = sent_frames (trace s) ++ [msg]
  /\ (recv_calls s + 1 <= recv_calls s1 <= recv_calls s + 5)%nat.
Proof.
  cbv zeta. rewrite after_answer_sent, after_send_sent.
  destruct (after_answer_self (after_send msg s)) as (-> & _ & _ & _ & ->).
  destruct (after_send_self msg s) as (-> & _ & -> & _ & ->).
  pose proof (polls_used_le (bus_recv s) (recv_calls s) 5).
  pose proof (polls_used_pos (bus_recv s) (recv_calls s) 5 ltac:(lia)).
  repeat split; lia.
Qed.

Lemma firmware_loop_run (fuel : nat) (f : list byte) (filesize transfered_data : Z) (s : State) :
  transfered_data + Z.of_nat (length f) = filesize ->
  (length f < 8 * fuel)%nat ->
  exists s',
    Positioner.firmware_loop COMMANDS fuel f filesize transfered_data s = (Return tt, s')
    /\ sent_frames (trace s')
       = sent_frames (trace s) ++ (frame (_canid s) data_op <$> read_chunks fuel f)
    /\ (recv_calls s + length (read_chunks fuel f) <= recv_calls s'
        <= recv_calls s + 5 * length (read_chunks fuel f))%nat.
Proof using FIRMWARE_DATA_defined.
  revert f transfered_data s.
  induction fuel as [|n IH]; intros f t s Hsize Hfuel; [lia|].
  cbn [Positioner.firmware_loop read_chunks]. cbv zeta.
  rewrite (bind_Return _ _ _ _ _ (send_command_run COMMANDS _ _ _ s FIRMWARE_DATA_defined)).
  rewrite (bind_Return _ _ _ _ _ (get_answer_run _)).
  rewrite (bind_Return _ _ _ _ _ (log_debug_run _ _)).
  cbn [default].
  pose proof (transaction_polls (frame (_canid s) data_op (take 8 f)) s) as Hs1.
  cbv zeta in Hs1.
  set (s1 := after_answer (after_send (frame (_canid s) data_op (take 8 f)) s)) in *.
  destruct Hs1 as (Hid & Hsent & Hpolls).
  rewrite length_take.
  case_bool_decide as Hdone; case_bool_decide as Hle; try lia.
  - exists s1. split; [reflexivity|]. split; [exact Hsent|]. cbn [length]. lia.
  - destruct (IH (drop 8 f) (t + Z.of_nat (8 `min` length f)) s1)
      as (s' & Hrun & Hsent' & Hpolls').
    { rewrite length_drop. lia. }
    { rewrite length_drop. lia. }
    exists s'. split; [exact Hrun|]. split.
    + rewrite Hsent', Hsent, Hid, <- app_assoc. reflexivity.
    + cbn [length]. lia.
Qed.

Lemma firmware_upgrade_run (fuel : nat) (file : list byte) (s : State) :
  Z.of_nat (length file) < 2 ^ 32 ->
  (forall a, next_reply s = Some a ->
     is_Some (Positioner._get_response_code RESPONSE_CODE_NUMBER (arbitration_id a))) ->
  (length file < 8 * fuel)%nat ->
  exists s',
    Positioner.firmware_upgrade COMMANDS RESPONSE_CODE_NUMBER fuel file s = (Return tt, s')
    /\ sent_frames (trace s')
       = sent_frames (trace s)
         ++ frame (_canid s) new_op (firmware_header file)
            :: match next_reply s with
               | None => []
               | Some _ => frame (_canid s) data_op <$> file_chunks file
               end
    /\ (recv_calls s + length (sent_frames (trace s')) - length (sent_frames (trace s))
        <= recv_calls s'
        <= recv_calls s
           + 5 * (length (sent_frames (trace s')) - length (sent_frames (trace s))))%nat.
Proof using SEND_NEW_FIRMWARE_defined FIRMWARE_DATA_defined.
  intros Hsize Hcode Hfuel. unfold Positioner.firmware_upgrade. cbv zeta.
  rewrite pack_II_fits by (try apply crc_range; lia).
  cbn [or_raise]. unfold bind at 1, ret at 1.
  rewrite (bind_Return _ _ _ _ _ (send_command_run COMMANDS _ _ _ s SEND_NEW_FIRMWARE_defined)).
  rewrite (bind_Return _ _ _ _ _ (get_answer_run _)).
  rewrite next_reply_after_send. cbn [default]. fold (firmware_header file).
  pose proof (transaction_polls (frame (_canid s) new_op (firmware_header file)) s) as Hs1.
  cbv zeta in Hs1.
  set (s1 := after_answer (after_send (frame (_canid s) new_op (firmware_header file)) s)) in *.
  destruct Hs1 as (Hid & Hsent & Hpolls).
  destruct (next_reply s) as [a|] eqn:Ha.
  - destruct (Hcode a eq_refl) as [r ->].
    cbn [or_raise]. unfold bind at 1, ret at 1.
    rewrite (bind_Return _ _ _ _ _ (log_debug_run _ _)).
    destruct (firmware_loop_run fuel file (Z.of_nat (length file)) 0 s1)
      as (s' & Hrun & Hsent' & Hpolls'); [lia | exact Hfuel |].
    rewrite (bind_Return _ _ _ _ _ Hrun).
    eexists. split; [reflexivity|].
    change (trace (emit (Log INFO (Text "firmware upgrade done")) s'))
      with (trace s' ++ [Log INFO (Text "firmware upgrade done")]).
    change (recv_calls (emit (Log INFO (Text "firmware upgrade done")) s'))
      with (recv_calls s').
    change (sent_frames (trace s' ++ [Log INFO (Text "firmware upgrade done")]))
      with (sent_frames (trace (emit (Log INFO (Text "firmware upgrade done")) s'))).
    rewrite sent_frames_emit_log, Hsent', Hsent, Hid, <- app_assoc.
    unfold file_chunks. rewrite (read_chunks_fuel fuel (S (length file))) in * by lia.
    split; [reflexivity|].
    rewrite length_app, length_app, length_fmap. cbn [length]. lia.
  - rewrite (bind_Return _ _ _ _ _ (log_error_run _ _)) || rewrite log_error_run.
    eexists. split; [reflexivity|].
    rewrite sent_frames_emit_log. unfold id. fold s1.
    change (recv_calls (emit (Log ERROR (Text "Error with firmware upgrade command")) s1))
      with (recv_calls s1).
    rewrite Hsent. split; [reflexivity|].
    rewrite length_app. cbn [length]. lia.
Qed.

End Firmware.

(** C5. A firmware upgrade first sends the size of the file and its
    CRC32 as the payload of one SEND_NEW_FIRMWARE frame: 4 bytes of size
    and 4 bytes of checksum, both unsigned and least significant byte
    first, the checksum being the CRC32 of the whole content of the file
    (the standard one: that of the digits 1 to 9 is CBF43926). Without a
    reply nothing else is sent. With a reply it sends the file in 8-byte
    pieces, one FIRMWARE_DATA frame each, and returns: the pieces put
    together are the file, every piece before the last has 8 bytes, and
    the last one has between 1 and 8 (none for an empty file), so that
    the bytes sent reach the announced size with the last frame and not
    before. Each frame sent is followed by a wait for its reply, of 1 to
    5 polls. A file of 20 bytes goes out in 3 frames of 8, 8 and 4 bytes.
    (The size fits the 32-bit field of the header, and the reply to the
    header carries a response code of the table.) *)
Theorem firmware_upgrade_streams_chunks
    (COMMANDS : gmap string Z) (RESPONSE_CODE_NUMBER : gmap Z string)
    (new_op data_op : Z) (fuel : nat) (file : list byte) (s : State) :
  COMMANDS !! "SEND_NEW_FIRMWARE" = Some new_op ->
  COMMANDS !! "FIRMWARE_DATA" = Some data_op ->
  Z.of_nat (length file) < 2 ^ 32 ->
  (forall a, next_reply s = Some a ->
     is_Some (Positioner._get_response_code RESPONSE_CODE_NUMBER (arbitration_id a))) ->
  (length file < 8 * fuel)%nat ->
  (exists s',
     Positioner.firmware_upgrade COMMANDS RESPONSE_CODE_NUMBER fuel file s = (Return tt, s')
     /\ sent_frames (trace s')
        = sent_frames (trace s)
          ++ frame (_canid s) new_op
               (Struct.le_bytes 4 (Z.of_nat (length file))
                ++ Struct.le_bytes 4 (Zlib.crc32 file 0))
             :: match next_reply s with
                | None => []
                | Some _ => frame (_canid s) data_op <$> file_chunks file
                end
     /\ (recv_calls s + length (sent_frames (trace s')) - length (sent_frames (trace s))
         <= recv_calls s'
         <= recv_calls s
            + 5 * (length (sent_frames (trace s')) - length (sent_frames (trace s))))%nat)
  /\ Positioner._crc file = Zlib.crc32 file 0
  /\ Zlib.crc32 [x31; x32; x33; x34; x35; x36; x37; x38; x39] 0 = 0xCBF43926
  /\ Struct.pack_II (Z.of_nat (length file)) (Positioner._crc file)
     = Some (Struct.le_bytes 4 (Z.of_nat (length file))
             ++ Struct.le_bytes 4 (Zlib.crc32 file 0))
  /\ concat (file_chunks file) = file
  /\ (exists full final,
        file_chunks file = full ++ [final]
        /\ Forall (fun c => length c = 8%nat) full
        /\ (length final <= 8)%nat
        /\ (file <> [] -> (0 < length final)%nat))
  /\ (length file = 20%nat -> length <$> file_chunks file = [8; 8; 4]%nat).
Proof.
  intros Hnew Hdata Hsize Hcode Hfuel.
  pose proof (crc_whole_file file) as Hcrc.
  split.
  { destruct (firmware_upgrade_run _ _ _ _ Hnew Hdata fuel file s Hsize Hcode Hfuel)
      as (s' & Hrun & Hsent & Hpolls).
    exists s'. unfold firmware_header in Hsent. rewrite Hcrc in Hsent. auto. }
  split; [exact Hcrc|].
  split; [vm_compute; reflexivity|].
  split.
  { rewrite pack_II_fits; [now rewrite Hcrc | lia | apply crc_range]. }
  split; [apply read_chunks_concat; lia|].
  split; [apply read_chunks_sizes; lia|].
  apply file_chunks_20.
Qed.

Lemma firmware_upgrade_streams_chunks_witness :
  let s := __init__ (scripted [reply 4 200 0 []]) reliable 4 in
  (exists s',
     Positioner.firmware_upgrade example_COMMANDS example_RESPONSES 3 example_firmware s
     = (Return tt, s')
     /\ sent_frames (trace s')
        = [ {| arbitration_id := 1253376;
               data := [x14; x00; x00; x00; xa4; xff; xdd; x3b];
               is_extended_id := true |};
            frame 4 201 [x00; x01; x02; x03; x04; x05; x06; x07];
            frame 4 201 [x08; x09; x0a; x0b; x0c; x0d; x0e; x0f];
            frame 4 201 [x10; x11; x12; x13] ]
     /\ (4 <= recv_calls s' <= 20)%nat)
  /\ Positioner._crc example_firmware = 0x3BDDFFA4
  /\ length <$> file_chunks example_firmware = [8; 8; 4]%nat.
Proof.
  intros s.
  destruct (firmware_upgrade_streams_chunks example_COMMANDS example_RESPONSES 200 201 3
              example_firmware s) as (Hrun & Hcrc & _ & _ & _ & _ & H20).
  - vm_compute. reflexivity.
  - vm_compute. reflexivity.
  - vm_compute. reflexivity.
  - intros a Ha. vm_compute in Ha. injection Ha as <-.
    exists "COMMAND_ACCEPTED". vm_compute. reflexivity.
  - vm_compute. lia.
  - split; [|split; [rewrite Hcrc; vm_compute; reflexivity | exact (H20 eq_refl)]].
    destruct Hrun as (s' & Hrun & Hsent & Hpolls). exists s'.
    split; [exact Hrun|].
    assert (Hframes : sent_frames (trace s')
            = [ {| arbitration_id := 1253376;
                   data := [x14; x00; x00; x00; xa4; xff; xdd; x3b];
                   is_extended_id := true |};
                frame 4 201 [x00; x01; x02; x03; x04; x05; x06; x07];
                frame 4 201 [x08; x09; x0a; x0b; x0c; x0d; x0e; x0f];
                frame 4 201 [x10; x11; x12; x13] ]).
    { rewrite Hsent. vm_compute. reflexivity. }
    split; [exact Hframes|].
    rewrite Hframes in Hpolls. cbn in Hpolls. lia.
Defined.

(** ** Trajectory upload *)






Lemma pack_ii_fits (a b : Z) :
  - 2 ^ 31 <= a < 2 ^ 31 -> - 2 ^ 31 <= b < 2 ^ 31 ->
  Struct.pack_ii a b
  = Some (Struct.le_bytes 4 (a mod 2 ^ 32) ++ Struct.le_bytes 4 (b mod 2 ^ 32)).
Proof.
  intros Ha Hb. unfold Struct.pack_ii, Struct.pack_i.
  rewrite !bool_decide_eq_true_2 by assumption. reflexivity.
Qed.

Section Trajectory.

Variable COMMANDS : gmap string Z.
Variable RESPONSE_CODE_NUMBER : gmap Z string.
Variables new_op data_op end_op : Z.
Hypothesis NEW_defined : COMMANDS !! "SEND_TRAJECTORY_NEW" = Some new_op.
Hypothesis DATA_defined : COMMANDS !! "SEND_TRAJECTORY_DATA" = Some data_op.
Hypothesis END_defined : COMMANDS !! "SEND_TRAJECTORY_DATA_END" = Some end_op.

(** One transaction of the upload whose reply, if any, is only decoded
    and logged. *)
Lemma transaction_run (command : string) (opcode : Z) (payload : option (list byte))
    {A} (rest : M A) (s : State) :
  COMMANDS !! command = Some opcode ->
  codes_known RESPONSE_CODE_NUMBER (bus_recv s) ->
  exists s1,
    _canid s1 = _canid s /\ bus_recv s1 = bus_recv s
    /\ sent_frames (trace s1)
       = sent_frames (trace s) ++ [frame (_canid s) opcode (default [] payload)]
    /\ forall (on_reply : Message -> M unit),
         (forall a r s0,
            Positioner._get_response_code RESPONSE_CODE_NUMBER (arbitration_id a) = Some r ->
            on_reply a s0 = (Return tt, s0)) ->
         (Positioner._send_command COMMANDS command payload;;
          answer <- Positioner._get_answer;;
          match answer with
          | Some a => on_reply a
          | None => ret tt
          end;;
          rest) s = rest s1.
Proof using Type.
  intros Hc Hk.
  exists (after_answer (after_send (frame (_canid s) opcode (default [] payload)) s)).
  set (msg := frame (_canid s) opcode (default [] payload)).
  destruct (after_answer_self (after_send msg s)) as (Hid & _ & Hbus & _).
  destruct (after_send_self msg s) as (Hid' & _ & Hbus' & _).
  split; [congruence|]. split; [congruence|].
  split; [now rewrite after_answer_sent, after_send_sent|].
  intros on_reply Hon.
  rewrite (bind_Return _ _ _ _ _ (send_command_run COMMANDS _ _ _ s Hc)).
  fold msg. unfold bind at 1. rewrite get_answer_run, next_reply_after_send.
  destruct (next_reply s) as [a|] eqn:Ha.
  - destruct (codes_known_reply _ _ _ Hk Ha) as [r Hr].
    unfold bind at 1. rewrite (Hon a r _ Hr). reflexivity.
  - reflexivity.
Qed.

Lemma send_coordinates_run (axis : string) (coordinates : list (Q * Q)) (s : State) :
  Forall waypoint_fits coordinates ->
  codes_known RESPONSE_CODE_NUMBER (bus_recv s) ->
  exists s',
    Positioner.send_coordinates COMMANDS RESPONSE_CODE_NUMBER axis coordinates s = (Return tt, s')
    /\ _canid s' = _canid s /\ bus_recv s' = bus_recv s
    /\ sent_frames (trace s')
       = sent_frames (trace s)
         ++ ((fun c => frame (_canid s) data_op (waypoint_payload c)) <$> coordinates).
Proof using DATA_defined.
  revert s. induction coordinates as [|c rest IH]; intros s Hfits Hk.
  - exists s. cbn. now rewrite app_nil_r.
  - apply Forall_cons in Hfits as [[Hp Ht] Hfits].
    cbn [Positioner.send_coordinates]. cbv zeta.
    rewrite (pack_ii_fits _ _ Hp Ht). cbn [or_raise]. unfold bind at 1, ret at 1.
    fold (waypoint_payload c).
    destruct (transaction_run "SEND_TRAJECTORY_DATA" data_op (Some (waypoint_payload c))
                (Positioner.send_coordinates COMMANDS RESPONSE_CODE_NUMBER axis rest) s
                DATA_defined Hk) as (s1 & Hid & Hbus & Hsent & Hrun).
    rewrite (Hrun (fun a =>
               result <- or_raise KeyError
                 (Positioner._get_response_code RESPONSE_CODE_NUMBER (arbitration_id a));;
               log_debug result;;
               log_debug (axis +:+ " coordinate"))).
    + destruct (IH s1 Hfits) as (s' & Hrest & Hid' & Hbus' & Hsent'); [now rewrite Hbus|].
      exists s'. split; [exact Hrest|]. split; [congruence|]. split; [congruence|].
      rewrite Hsent', Hsent, Hid, <- app_assoc. reflexivity.
    + intros a r s0 Hr. rewrite Hr. reflexivity.
Qed.

Lemma send_trajectory_run (alpha beta : list (Q * Q)) (s : State) :
  Z.of_nat (length alpha) < 2 ^ 31 -> Z.of_nat (length beta) < 2 ^ 31 ->
  Forall waypoint_fits alpha -> Forall waypoint_fits beta ->
  codes_known RESPONSE_CODE_NUMBER (bus_recv s) ->
  exists s',
    Positioner.send_trajectory COMMANDS RESPONSE_CODE_NUMBER alpha beta s = (Return VNone, s')
    /\ sent_frames (trace s')
       = sent_frames (trace s)
         ++ frame (_canid s) new_op (trajectory_header alpha beta)
            :: match next_reply s with
               | None => []
               | Some _ =>
                   ((fun c => frame (_canid s) data_op (waypoint_payload c)) <$> alpha)
                   ++ ((fun c => frame (_canid s) data_op (waypoint_payload c)) <$> beta)
                   ++ [frame (_canid s) end_op []]
               end.
Proof using NEW_defined DATA_defined END_defined.
  intros Hm Hn Ha Hb Hk. unfold Positioner.send_trajectory. cbv zeta.
  rewrite pack_ii_fits by lia. cbn [or_raise]. unfold bind at 1, ret at 1.
  fold (trajectory_header alpha beta).
  rewrite (bind_Return _ _ _ _ _ (send_command_run COMMANDS _ _ _ s NEW_defined)).
  rewrite (bind_Return _ _ _ _ _ (get_answer_run _)).
  rewrite next_reply_after_send. cbn [default].
  set (s1 := after_answer (after_send (frame (_canid s) new_op (trajectory_header alpha beta)) s)).
  assert (Hs1 : _canid s1 = _canid s /\ bus_recv s1 = bus_recv s
                /\ sent_frames (trace s1)
                   = sent_frames (trace s)
                     ++ [frame (_canid s) new_op (trajectory_header alpha beta)]).
  { subst s1. rewrite after_answer_sent, after_send_sent.
    destruct (after_answer_self
                (after_send (frame (_canid s) new_op (trajectory_header alpha beta)) s))
      as (-> & _ & -> & _).
    destruct (after_send_self (frame (_canid s) new_op (trajectory_header alpha beta)) s)
      as (-> & _ & -> & _).
    auto. }
  destruct Hs1 as (Hid1 & Hbus1 & Hsent1).
  destruct (next_reply s) as [a|] eqn:Hreply.
  - destruct (codes_known_reply _ _ _ Hk Hreply) as [r ->].
    cbn [or_raise]. unfold bind at 1, ret at 1.
    rewrite (bind_Return _ _ _ _ _ (log_debug_run _ _)).
    destruct (send_coordinates_run "alpha" alpha s1 Ha) as (s2 & Hrun2 & Hid2 & Hbus2 & Hsent2);
      [now rewrite Hbus1|].
    rewrite (bind_Return _ _ _ _ _ Hrun2).
    destruct (send_coordinates_run "beta" beta s2 Hb) as (s3 & Hrun3 & Hid3 & Hbus3 & Hsent3);
      [now rewrite Hbus2, Hbus1|].
    rewrite (bind_Return _ _ _ _ _ Hrun3).
    rewrite (bind_Return _ _ _ _ _ (send_command_run COMMANDS _ _ _ s3 END_defined)).
    rewrite (bind_Return _ _ _ _ _ (get_answer_run _)).
    rewrite next_reply_after_send. cbn [default].
    set (s4 := after_answer (after_send (frame (_canid s3) end_op []) s3)).
    assert (Hsent4 : sent_frames (trace s4)
              = sent_frames (trace s)
                ++ frame (_canid s) new_op (trajectory_header alpha beta)
                   :: ((fun c => frame (_canid s) data_op (waypoint_payload c)) <$> alpha)
                      ++ ((fun c => frame (_canid s) data_op (waypoint_payload c)) <$> beta)
                      ++ [frame (_canid s) end_op []]).
    { subst s4. rewrite after_answer_sent, after_send_sent, Hsent3, Hsent2, Hsent1.
      rewrite Hid3, Hid2, Hid1, <- !app_assoc. reflexivity. }
    destruct (next_reply s3) as [b|] eqn:Hreply3.
    + assert (Hk3 : codes_known RESPONSE_CODE_NUMBER (bus_recv s3))
        by now rewrite Hbus3, Hbus2, Hbus1.
      destruct (codes_known_reply _ _ _ Hk3 Hreply3) as [r' ->].
      cbn [or_raise]. unfold bind at 1, ret at 1.
      rewrite (bind_Return _ _ _ _ _ (log_debug_run _ _)).
      exists s4. split; [reflexivity | exact Hsent4].
    + exists s4. split; [reflexivity | exact Hsent4].
  - rewrite (bind_Return _ _ _ _ _ (log_error_run _ _)).
    eexists. split; [reflexivity|]. now rewrite sent_frames_emit_log.
Qed.





End Trajectory.

(** C6. [send_trajectory] announces the two point counts in one
    SEND_TRAJECTORY_NEW frame; once that is answered it sends one
    SEND_TRAJECTORY_DATA frame per waypoint, m + n of them, all alpha
    waypoints in order and then all beta waypoints in order, each
    carrying the angle as position counts and the time as a timestamp;
    and then exactly one SEND_TRAJECTORY_DATA_END frame. (Counts,
    positions and timestamps fit their signed 32-bit fields, and replies
    carry response codes of the table.) *)
Theorem send_trajectory_frames
    (COMMANDS : gmap string Z) (RESPONSE_CODE_NUMBER : gmap Z string)
    (new_op data_op end_op : Z) (alpha beta : list (Q * Q)) (s : State) (a : Message) :
  COMMANDS !! "SEND_TRAJECTORY_NEW" = Some new_op ->
  COMMANDS !! "SEND_TRAJECTORY_DATA" = Some data_op ->
  COMMANDS !! "SEND_TRAJECTORY_DATA_END" = Some end_op ->
  Z.of_nat (length alpha) < 2 ^ 31 -> Z.of_nat (length beta) < 2 ^ 31 ->
  Forall waypoint_fits alpha -> Forall waypoint_fits beta ->
  codes_known RESPONSE_CODE_NUMBER (bus_recv s) ->
  next_reply s = Some a ->
  let data_frame := fun c => frame (_canid s) data_op (waypoint_payload c) in
  (exists s',
     Positioner.send_trajectory COMMANDS RESPONSE_CODE_NUMBER alpha beta s = (Return VNone, s')
     /\ sent_frames (trace s')
        = sent_frames (trace s)
          ++ [frame (_canid s) new_op (trajectory_header alpha beta)]
          ++ (data_frame <$> alpha) ++ (data_frame <$> beta)
          ++ [frame (_canid s) end_op []])
  /\ length ((data_frame <$> alpha) ++ (data_frame <$> beta)) = (length alpha + length beta)%nat
  /\ Struct.pack_ii (Z.of_nat (length alpha)) (Z.of_nat (length beta))
     = Some (trajectory_header alpha beta)
  /\ Forall (fun c =>
       Struct.pack_ii (Positioner._angle_to_position (fst c))
                      (Positioner._seconds_to_timestamp (snd c))
       = Some (waypoint_payload c)) (alpha ++ beta).
Proof.
  intros Hnew Hdata Hend Hm Hn Ha Hb Hk Hreply data_frame.
  split; [|split; [|split]].
  - destruct (send_trajectory_run _ RESPONSE_CODE_NUMBER _ _ _ Hnew Hdata Hend
                alpha beta s Hm Hn Ha Hb Hk) as (s' & Hrun & Hsent).
    rewrite Hreply in Hsent. exists s'. split; [exact Hrun | exact Hsent].
  - now rewrite length_app, !length_fmap.
  - apply pack_ii_fits; lia.
  - apply Forall_app.
    split; [eapply Forall_impl; [exact Ha|] | eapply Forall_impl; [exact Hb|]];
      intros c [Hp Ht]; exact (pack_ii_fits _ _ Hp Ht).
Qed.

Lemma send_trajectory_frames_witness :
  let s := __init__ (scripted [reply 4 10 0 []; reply 4 11 0 []; reply 4 11 0 []]) reliable 4 in
  let alpha := [(0, 0); (90, 1)]%Q in
  let beta := [(45, 1 # 2)]%Q in
  exists s',
    Positioner.send_trajectory example_COMMANDS example_RESPONSES alpha beta s
    = (Return VNone, s')
    /\ sent_frames (trace s')
       = [ frame 4 10 [x02; x00; x00; x00; x01; x00; x00; x00];
           frame 4 11 [x00; x00; x00; x00; x00; x00; x00; x00];
           frame 4 11 [x00; x00; x00; x10; xd0; x07; x00; x00];
           frame 4 11 [x00; x00; x00; x08; xe8; x03; x00; x00];
           frame 4 12 [] ].
Proof.
  intros s alpha beta.
  destruct (send_trajectory_frames example_COMMANDS example_RESPONSES 10 11 12 alpha beta s
              {| arbitration_id := Z.shiftl 4 18 + Z.shiftl 10 10 + 0;
                 data := []; is_extended_id := true |}) as (Hrun & _).
  - vm_compute. reflexivity.
  - vm_compute. reflexivity.
  - vm_compute. reflexivity.
  - vm_compute. reflexivity.
  - vm_compute. reflexivity.
  - repeat (apply Forall_cons; split; [vm_compute; intuition congruence|]). constructor.
  - repeat (apply Forall_cons; split; [vm_compute; intuition congruence|]). constructor.
  - apply codes_known_scripted.
    repeat (apply Forall_cons; split; [exists "COMMAND_ACCEPTED"; vm_compute; reflexivity|]).
    constructor.
  - vm_compute. reflexivity.
  - exact Hrun.
Defined.




(** * Further properties *)

(** ** Packing and unpacking *)

Lemma Z_of_byte_of_Z (z : Z) : Struct.Z_of_byte (Struct.byte_of_Z z) = z mod 256.
Proof.
  unfold Struct.Z_of_byte, Struct.byte_of_Z.
  pose proof (Z.mod_pos_bound z 256 ltac:(lia)) as Hr.
  destruct (Byte.of_N (Z.to_N (z mod 256))) as [b|] eqn:Hb; cbn [default].
  - apply Byte.to_of_N in Hb. cbn. rewrite Hb. lia.
  - apply Byte.of_N_None_iff in Hb. lia.
Qed.

Lemma byte_of_Z_of_byte (b : byte) : Struct.byte_of_Z (Struct.Z_of_byte b) = b.
Proof.
  unfold Struct.byte_of_Z. rewrite Z.mod_small by apply Z_of_byte_range.
  unfold Struct.Z_of_byte. rewrite N2Z.id, Byte.of_to_N. reflexivity.
Qed.

Lemma le_int_range (bs : list byte) : 0 <= Struct.le_int bs < 2 ^ (8 * Z.of_nat (length bs)).
Proof.
  induction bs as [|b bs IH]; [cbn; lia|].
  cbn [Struct.le_int length]. pose proof (Z_of_byte_range b) as Hb.
  replace (8 * Z.of_nat (S (length bs))) with (8 * Z.of_nat (length bs) + 8) by lia.
  split.
  - apply Z.lor_nonneg. split; [lia|]. apply Z.shiftl_nonneg. lia.
  - apply Z.log2_lt_cancel.
    destruct (Z.eq_dec (Z.lor (Struct.Z_of_byte b) (Z.shiftl (Struct.le_int bs) 8)) 0) as [->|Hne].
    { cbn. rewrite Z.log2_pow2 by lia. lia. }
    rewrite Z.log2_pow2 by lia. rewrite Z.log2_lor by (try apply Z.shiftl_nonneg; lia).
    apply Z.max_lub_lt.
    + destruct (Z.eq_dec (Struct.Z_of_byte b) 0) as [->|Hb0]; [cbn; lia|].
      apply Z.log2_lt_pow2; [lia|].
      apply Z.lt_le_trans with (2 ^ 8); [lia|]. apply Z.pow_le_mono_r; lia.
    + destruct (Z.eq_dec (Struct.le_int bs) 0) as [->|Hr0]; [rewrite Z.shiftl_0_l; cbn; lia|].
      rewrite Z.log2_shiftl by lia.
      assert (Z.log2 (Struct.le_int bs) < 8 * Z.of_nat (length bs)); [|lia].
      apply Z.log2_lt_pow2; lia.
Qed.

(** Byte [j] of a little-endian integer holds its bits [8j .. 8j+7]. *)
Lemma testbit_le_int (bs : list byte) (j : nat) (i : Z) (b : byte) :
  bs !! j = Some b -> 0 <= i < 8 ->
  Z.testbit (Struct.le_int bs) (8 * Z.of_nat j + i) = Z.testbit (Struct.Z_of_byte b) i.
Proof.
  revert j. induction bs as [|b0 bs IH]; intros j Hj Hi; [discriminate|].
  cbn [Struct.le_int]. rewrite Z.lor_spec.
  destruct j as [|j]; cbn in Hj.
  - injection Hj as ->. cbn [Z.of_nat]. rewrite Z.mul_0_r, Z.add_0_l.
    rewrite Z.shiftl_spec_low by lia. apply orb_false_r.
  - rewrite Z.shiftl_spec by lia.
    replace (8 * Z.of_nat (S j) + i - 8) with (8 * Z.of_nat j + i) by lia.
    rewrite (IH j Hj Hi).
    assert (Hhigh : Z.testbit (Struct.Z_of_byte b0) (8 * Z.of_nat (S j) + i) = false).
    { pose proof (Z_of_byte_range b0) as Hb.
      rewrite <- (Z.mod_small (Struct.Z_of_byte b0) (2 ^ 8)) by lia.
      apply Z.mod_pow2_bits_high. lia. }
    rewrite Hhigh. reflexivity.
Qed.

Lemma le_int_le_bytes (n : nat) (z : Z) :
  Struct.le_int (Struct.le_bytes n z) = z mod 2 ^ (8 * Z.of_nat n).
Proof.
  revert z. induction n as [|n IH]; intros z.
  - cbn. now rewrite Z.mod_1_r.
  - cbn [Struct.le_bytes Struct.le_int]. rewrite IH, Z_of_byte_of_Z.
    change 256 with (2 ^ 8).
    apply Z.bits_inj'. intros i Hi.
    rewrite Z.lor_spec, !Z.testbit_mod_pow2 by lia.
    destruct (Z.ltb_spec i 8) as [Hlt|Hge].
    + rewrite Z.shiftl_spec_low by lia.
      destruct (Z.ltb_spec i (8 * Z.of_nat (S n))); [|lia].
      cbn. now rewrite orb_false_r.
    + rewrite Z.shiftl_spec by lia. rewrite Z.testbit_mod_pow2 by lia.
      rewrite Z.shiftr_spec by lia. replace (i - 8 + 8) with i by lia.
      cbn [andb orb].
      destruct (Z.ltb_spec (i - 8) (8 * Z.of_nat n)), (Z.ltb_spec i (8 * Z.of_nat (S n)));
        try lia; reflexivity.
Qed.

Lemma le_bytes_le_int (bs : list byte) :
  Struct.le_bytes (length bs) (Struct.le_int bs) = bs.
Proof.
  induction bs as [|b bs IH]; [reflexivity|].
  cbn [length Struct.le_bytes Struct.le_int]. f_equal.
  - rewrite <- (byte_of_Z_of_byte b) at 2. unfold Struct.byte_of_Z. do 3 f_equal.
    change 256 with (2 ^ 8). apply Z.bits_inj'. intros i Hi.
    rewrite !Z.testbit_mod_pow2, Z.lor_spec by lia.
    destruct (Z.ltb_spec i 8); [|reflexivity].
    rewrite Z.shiftl_spec_low by lia. now rewrite orb_false_r.
  - etransitivity; [|exact IH]. f_equal.
    apply Z.bits_inj'. intros i Hi.
    rewrite Z.shiftr_spec, Z.lor_spec, Z.shiftl_spec by lia.
    replace (i + 8 - 8) with i by lia.
    pose proof (Z_of_byte_range b) as Hb.
    rewrite <- (Z.mod_small (Struct.Z_of_byte b) (2 ^ 8)) by lia.
    rewrite Z.mod_pow2_bits_high by lia. reflexivity.
Qed.

Lemma le_bytes_le_int_length (n : nat) (bs : list byte) :
  length bs = n -> Struct.le_bytes n (Struct.le_int bs) = bs.
Proof. intros <-. apply le_bytes_le_int. Qed.

Lemma le_bytes_length (n : nat) (z : Z) : length (Struct.le_bytes n z) = n.
Proof. revert z. induction n as [|n IH]; intros z; cbn; [reflexivity | now rewrite IH]. Qed.

Lemma signed32_mod (v : Z) :
  - 2 ^ 31 <= v < 2 ^ 31 -> Struct.signed32 (v mod 2 ^ 32) = v.
Proof.
  intros Hv. unfold Struct.signed32.
  destruct (Z_lt_le_dec v 0) as [Hneg|Hpos].
  - assert (Hm : v mod 2 ^ 32 = v + 2 ^ 32).
    { symmetry. apply (Z.mod_unique _ _ (-1)); lia. }
    rewrite Hm, bool_decide_eq_false_2 by lia. lia.
  - rewrite Z.mod_small by lia. rewrite bool_decide_eq_true_2 by lia. reflexivity.
Qed.

Lemma signed32_range (v : Z) :
  0 <= v < 2 ^ 32 ->
  - 2 ^ 31 <= Struct.signed32 v < 2 ^ 31 /\ Struct.signed32 v mod 2 ^ 32 = v.
Proof.
  intros Hv. unfold Struct.signed32. case_bool_decide.
  - split; [lia|]. apply Z.mod_small. lia.
  - split; [lia|]. symmetry. apply (Z.mod_unique _ _ (-1)); lia.
Qed.

Lemma take_le_bytes n x y z :
  take n (Struct.le_bytes n x ++ Struct.le_bytes z y) = Struct.le_bytes n x.
Proof. rewrite take_app_length'; [reflexivity | symmetry; apply le_bytes_length]. Qed.

Lemma drop_le_bytes n x y z :
  drop n (Struct.le_bytes n x ++ Struct.le_bytes z y) = Struct.le_bytes z y.
Proof. rewrite drop_app_length'; [reflexivity | symmetry; apply le_bytes_length]. Qed.

Lemma unpack_ii_packed (a b : Z) :
  - 2 ^ 31 <= a < 2 ^ 31 -> - 2 ^ 31 <= b < 2 ^ 31 ->
  Struct.unpack_ii (Struct.le_bytes 4 (a mod 2 ^ 32) ++ Struct.le_bytes 4 (b mod 2 ^ 32))
  = Some (a, b).
Proof.
  intros Ha Hb. unfold Struct.unpack_ii.
  rewrite bool_decide_eq_true_2 by (now rewrite length_app, !le_bytes_length).
  rewrite take_le_bytes, drop_le_bytes, !le_int_le_bytes.
  change (2 ^ (8 * Z.of_nat 4)) with (2 ^ 32).
  rewrite !Z.mod_mod, !signed32_mod by lia. reflexivity.
Qed.

Lemma unpack_II_packed (a b : Z) :
  0 <= a < 2 ^ 32 -> 0 <= b < 2 ^ 32 ->
  Struct.unpack_II (Struct.le_bytes 4 a ++ Struct.le_bytes 4 b) = Some (a, b).
Proof.
  intros Ha Hb. unfold Struct.unpack_II.
  rewrite bool_decide_eq_true_2 by (now rewrite length_app, !le_bytes_length).
  rewrite take_le_bytes, drop_le_bytes, !le_int_le_bytes.
  change (2 ^ (8 * Z.of_nat 4)) with (2 ^ 32).
  rewrite !Z.mod_small by lia. reflexivity.
Qed.

Lemma unpack_I_packed (a : Z) :
  0 <= a < 2 ^ 32 -> Struct.unpack_I (Struct.le_bytes 4 a) = Some a.
Proof.
  intros Ha. unfold Struct.unpack_I.
  rewrite bool_decide_eq_true_2 by apply le_bytes_length.
  rewrite le_int_le_bytes. change (2 ^ (8 * Z.of_nat 4)) with (2 ^ 32).
  rewrite Z.mod_small by lia. reflexivity.
Qed.

Lemma pack_I_fits (a : Z) :
  0 <= a < 2 ^ 32 -> Struct.pack_I a = Some (Struct.le_bytes 4 a).
Proof. intros Ha. unfold Struct.pack_I. now rewrite bool_decide_eq_true_2. Qed.

Lemma pack_ii_None (a b : Z) :
  Struct.pack_ii a b = None <-> ~ (- 2 ^ 31 <= a < 2 ^ 31 /\ - 2 ^ 31 <= b < 2 ^ 31).
Proof.
  unfold Struct.pack_ii, Struct.pack_i.
  repeat case_bool_decide; cbn [mbind option_bind]; split; intros; try discriminate; tauto.
Qed.

Lemma pack_II_None (a b : Z) :
  Struct.pack_II a b = None <-> ~ (0 <= a < 2 ^ 32 /\ 0 <= b < 2 ^ 32).
Proof.
  unfold Struct.pack_II, Struct.pack_I.
  repeat case_bool_decide; cbn [mbind option_bind]; split; intros; try discriminate; tauto.
Qed.

Lemma pack_I_None (a : Z) : Struct.pack_I a = None <-> ~ (0 <= a < 2 ^ 32).
Proof.
  unfold Struct.pack_I. case_bool_decide; split; intros; try discriminate; tauto.
Qed.

(** X1. Packing and unpacking are inverse to each other: what
    [struct.pack] makes of two values in the range of the formats [<ii]
    or [<II], or of one value in the range of [<I], [struct.unpack] reads
    back as those values; and packing what was unpacked from eight (four)
    bytes gives those bytes again. Packing fails exactly on a value out of
    range. *)
Theorem pack_unpack_inverse :
  (forall a b d, Struct.pack_ii a b = Some d -> Struct.unpack_ii d = Some (a, b))
  /\ (forall a b d, Struct.pack_II a b = Some d -> Struct.unpack_II d = Some (a, b))
  /\ (forall a d, Struct.pack_I a = Some d -> Struct.unpack_I d = Some a)
  /\ (forall a b d, Struct.unpack_ii d = Some (a, b) -> Struct.pack_ii a b = Some d)
  /\ (forall a b d, Struct.unpack_II d = Some (a, b) -> Struct.pack_II a b = Some d)
  /\ (forall a d, Struct.unpack_I d = Some a -> Struct.pack_I a = Some d)
  /\ (forall a b, Struct.pack_ii a b = None
                  <-> ~ (- 2 ^ 31 <= a < 2 ^ 31 /\ - 2 ^ 31 <= b < 2 ^ 31))
  /\ (forall a b, Struct.pack_II a b = None
                  <-> ~ (0 <= a < 2 ^ 32 /\ 0 <= b < 2 ^ 32)).
Proof.
  split; [|split; [|split; [|split; [|split; [|split; [|split]]]]]].
  - intros a b d H.
    destruct (decide (- 2 ^ 31 <= a < 2 ^ 31 /\ - 2 ^ 31 <= b < 2 ^ 31)) as [[Ha Hb]|Hn].
    + rewrite (pack_ii_fits _ _ Ha Hb) in H. apply (inj Some) in H. subst d.
      now apply unpack_ii_packed.
    + apply pack_ii_None in Hn. congruence.
  - intros a b d H.
    destruct (decide (0 <= a < 2 ^ 32 /\ 0 <= b < 2 ^ 32)) as [[Ha Hb]|Hn].
    + rewrite (pack_II_fits _ _ Ha Hb) in H. apply (inj Some) in H. subst d.
      now apply unpack_II_packed.
    + apply pack_II_None in Hn. congruence.
  - intros a d H.
    destruct (decide (0 <= a < 2 ^ 32)) as [Ha|Hn].
    + rewrite (pack_I_fits _ Ha) in H. apply (inj Some) in H. subst d.
      now apply unpack_I_packed.
    + apply pack_I_None in Hn. congruence.
  - intros a b d. unfold Struct.unpack_ii. case_bool_decide as Hlen; [|discriminate].
    intros H. apply (inj Some) in H. apply pair_equal_spec in H as [<- <-].
    assert (H1 : length (take 4 d) = 4%nat) by (rewrite length_take; lia).
    assert (H2 : length (drop 4 d) = 4%nat) by (rewrite length_drop; lia).
    pose proof (le_int_range (take 4 d)) as R1. pose proof (le_int_range (drop 4 d)) as R2.
    rewrite H1 in R1. rewrite H2 in R2. change (2 ^ (8 * Z.of_nat 4)) with (2 ^ 32) in *.
    destruct (signed32_range _ R1) as [S1 M1]. destruct (signed32_range _ R2) as [S2 M2].
    rewrite (pack_ii_fits _ _ S1 S2), M1, M2. f_equal.
    rewrite (le_bytes_le_int_length _ _ H1), (le_bytes_le_int_length _ _ H2).
    apply take_drop.
  - intros a b d. unfold Struct.unpack_II. case_bool_decide as Hlen; [|discriminate].
    intros H. apply (inj Some) in H. apply pair_equal_spec in H as [<- <-].
    assert (H1 : length (take 4 d) = 4%nat) by (rewrite length_take; lia).
    assert (H2 : length (drop 4 d) = 4%nat) by (rewrite length_drop; lia).
    pose proof (le_int_range (take 4 d)) as R1. pose proof (le_int_range (drop 4 d)) as R2.
    rewrite H1 in R1. rewrite H2 in R2. change (2 ^ (8 * Z.of_nat 4)) with (2 ^ 32) in *.
    rewrite (pack_II_fits _ _ R1 R2). f_equal.
    rewrite (le_bytes_le_int_length _ _ H1), (le_bytes_le_int_length _ _ H2).
    apply take_drop.
  - intros a d. unfold Struct.unpack_I. case_bool_decide as Hlen; [|discriminate].
    intros H. apply (inj Some) in H. subst a.
    pose proof (le_int_range d) as R. rewrite Hlen in R.
    change (2 ^ (8 * Z.of_nat 4)) with (2 ^ 32) in *.
    rewrite (pack_I_fits _ R). f_equal. now apply le_bytes_le_int_length.
  - apply pack_ii_None.
  - apply pack_II_None.
Qed.

Lemma pack_unpack_inverse_witness :
  Struct.unpack_ii [xff; xff; xff; xff; x02; x01; x00; x00] = Some (-1, 258)
  /\ Struct.pack_ii (-1) 258 = Some [xff; xff; xff; xff; x02; x01; x00; x00].
Proof.
  split.
  - apply (proj1 pack_unpack_inverse). vm_compute. reflexivity.
  - apply (proj1 (proj2 (proj2 (proj2 pack_unpack_inverse)))). vm_compute. reflexivity.
Defined.

(** ** Checksum of a file *)

(** X2. The checksum [_crc] accumulates line by line is the CRC32 of the
    whole file: where the newline bytes fall makes no difference, and an
    empty file has checksum 0. It is an unsigned 32-bit value, and so
    fits the header of a firmware upgrade. More generally, the CRC32 of
    data fed in two pieces is the CRC32 of the data. *)
Theorem crc_of_file (file : list byte) :
  Positioner._crc file = Zlib.crc32 file 0
  /\ 0 <= Positioner._crc file < 2 ^ 32
  /\ Positioner._crc [] = 0
  /\ (forall (a b : list byte) (value : Z),
        Zlib.crc32 (a ++ b) value = Zlib.crc32 b (Zlib.crc32 a value)).
Proof.
  split; [|split; [apply crc_range | split; [reflexivity | exact crc32_app]]].
  unfold Positioner._crc. rewrite crc_lines by lia.
  now rewrite readlines_concat.
Qed.

(** ** Units: the way back *)

Lemma py_round_near (x : Q) (n : Z) :
  (Qabs (x - inject_Z n) < 1 # 2)%Q -> py_round x = n.
Proof.
  intros Hx. pose proof (py_round_error x) as Hp.
  apply Qabs_Qle_condition in Hp.
  assert (Hx' : (- (1 # 2) < x - inject_Z n < 1 # 2)%Q).
  { revert Hx. apply Qabs_case; intros; lra. }
  set (p := py_round x) in *.
  assert (Hlo : (inject_Z (n - 1) < inject_Z p)%Q).
  { unfold Z.sub. rewrite inject_Z_plus. change (inject_Z (- (1))) with (- (1))%Q. lra. }
  assert (Hhi : (inject_Z p < inject_Z (n + 1))%Q).
  { rewrite inject_Z_plus. change (inject_Z 1) with 1%Q. lra. }
  rewrite <- Zlt_Qlt in Hlo, Hhi. lia.
Qed.

Lemma float_product_close (a : Q) :
  (- 1024 <= a <= 1024)%Q ->
  (Qabs (Float64.mul (Float64.div a 360) (inject_Z (2 ^ 30)) - a / 360 * inject_Z (2 ^ 30))
   <= 1 # 2097152)%Q.
Proof.
  intros Ha. unfold Float64.mul, Float64.div.
  change (inject_Z (2 ^ 30)) with (1073741824 # 1)%Q.
  assert (Hq : (a / 360 == a * (1 # 360))%Q) by (unfold Qdiv; reflexivity).
  pose proof (round_within (a / 360) 2 4 (1 # 4503599627370496)
                ltac:(lia) ltac:(reflexivity) ltac:(reflexivity)) as H1.
  set (x1 := Float64.round (a / 360)) in *.
  pose proof (round_within (x1 * (1073741824 # 1)) 32 4294967296 (1 # 4194304)
                ltac:(lia) ltac:(reflexivity) ltac:(reflexivity)) as H2.
  set (x2 := Float64.round (x1 * (1073741824 # 1))) in *.
  rewrite Hq in *.
  assert (H1' := H1 ltac:(lra)).
  assert (H2' := H2 ltac:(lra)).
  apply Qabs_Qle_condition. lra.
Qed.

Lemma inject_Z_bounds (lo hi z : Z) :
  lo <= z <= hi -> (inject_Z lo <= inject_Z z <= inject_Z hi)%Q.
Proof. intros [H1 H2]. rewrite <- !Zle_Qle. auto. Qed.

Lemma position_there_and_back (position : Z) :
  - 2 ^ 31 <= position < 2 ^ 31 ->
  Positioner._angle_to_position (Positioner._position_to_angle position) = position.
Proof.
  intros Hp.
  pose proof (position_to_angle_close position ltac:(lia)) as Hy.
  apply Qabs_Qle_condition in Hy.
  pose proof (inject_Z_bounds (- 2 ^ 31) (2 ^ 31) position ltac:(lia)) as Hb.
  change (inject_Z (- 2 ^ 31)) with (- 2147483648 # 1)%Q in Hb.
  change (inject_Z (2 ^ 31)) with (2147483648 # 1)%Q in Hb.
  set (y := Positioner._position_to_angle position) in *.
  change (inject_Z (2 ^ 30)) with (1073741824 # 1)%Q in Hy.
  assert (Hq : (inject_Z position / (1073741824 # 1)
                == inject_Z position * (1 # 1073741824))%Q) by (unfold Qdiv; reflexivity).
  rewrite Hq in Hy.
  pose proof (float_product_close y ltac:(lra)) as Hprod.
  apply Qabs_Qle_condition in Hprod.
  unfold Positioner._angle_to_position, Positioner._POSITION_RESOLUTION.
  set (product := Float64.mul (Float64.div y 360) (inject_Z (2 ^ 30))) in *.
  change (inject_Z (2 ^ 30)) with (1073741824 # 1)%Q in Hprod.
  assert (Hq2 : (y / 360 == y * (1 # 360))%Q) by (unfold Qdiv; reflexivity).
  rewrite Hq2 in Hprod.
  apply py_round_near. apply Qabs_case; intros; lra.
Qed.

Lemma timestamp_there_and_back (timestamp : Z) :
  - 2 ^ 32 < timestamp < 2 ^ 32 ->
  Positioner._seconds_to_timestamp (Positioner._timestamp_to_seconds timestamp) = timestamp.
Proof.
  intros Ht.
  pose proof (inject_Z_bounds (- 2 ^ 32) (2 ^ 32) timestamp ltac:(lia)) as Hb.
  change (inject_Z (- 2 ^ 32)) with (- 4294967296 # 1)%Q in Hb.
  change (inject_Z (2 ^ 32)) with (4294967296 # 1)%Q in Hb.
  unfold Positioner._seconds_to_timestamp, Positioner._timestamp_to_seconds,
    Float64.mul, Float64.div, Positioner._TIME_RESOLUTION.
  change (inject_Z 2000) with 2000%Q.
  assert (Hq : (inject_Z timestamp / 2000 == inject_Z timestamp * (1 # 2000))%Q)
    by (unfold Qdiv; reflexivity).
  pose proof (round_within (inject_Z timestamp / 2000) 22 4194304 (1 # 4294967296)
                ltac:(lia) ltac:(reflexivity) ltac:(reflexivity)) as H1.
  set (s := Float64.round (inject_Z timestamp / 2000)) in *.
  pose proof (round_within (s * 2000) 33 8589934592 (1 # 2097152)
                ltac:(lia) ltac:(reflexivity) ltac:(reflexivity)) as H2.
  set (x := Float64.round (s * 2000)) in *.
  set (t := inject_Z timestamp) in *.
  rewrite Hq in *.
  assert (H1' := H1 ltac:(lra)).
  assert (H2' := H2 ltac:(lra)).
  apply py_round_near. fold t. apply Qabs_case; intros; lra.
Qed.

(** X3. Converting a position in counts to degrees and back gives the
    same counts, for every signed 32-bit position; converting a timestamp
    to seconds and back gives the same timestamp, for every timestamp of
    32 bits. The loss of the unit conversions is all on the side of
    angles and seconds. *)
Theorem counts_and_timestamps_survive (position timestamp : Z) :
  - 2 ^ 31 <= position < 2 ^ 31 ->
  0 <= timestamp < 2 ^ 32 ->
  Positioner._angle_to_position (Positioner._position_to_angle position) = position
  /\ Positioner._seconds_to_timestamp (Positioner._timestamp_to_seconds timestamp) = timestamp.
Proof.
  intros Hp Ht. split.
  - now apply position_there_and_back.
  - apply timestamp_there_and_back. lia.
Qed.

Lemma counts_and_timestamps_survive_witness :
  Positioner._angle_to_position (Positioner._position_to_angle 123456789) = 123456789
  /\ Positioner._seconds_to_timestamp (Positioner._timestamp_to_seconds 4000000001) = 4000000001.
Proof. apply counts_and_timestamps_survive; lia. Defined.

(** X4. A time of up to a million seconds converted to a timestamp and
    back differs from the original by half a time step of 1/2000 s plus
    float rounding, so by less than one step; its timestamp fits the
    signed 32-bit field it is packed into. *)
Theorem seconds_round_trip (seconds : Q) :
  (- 1000000 <= seconds <= 1000000)%Q ->
  (Qabs (Positioner._timestamp_to_seconds (Positioner._seconds_to_timestamp seconds) - seconds)
   <= (1 # 4000) + (1 # 1073741824))%Q
  /\ (Qabs (inject_Z (Positioner._seconds_to_timestamp seconds) - seconds * 2000)
      <= (1 # 2) + (1 # 4194304))%Q
  /\ - 2 ^ 31 <= Positioner._seconds_to_timestamp seconds < 2 ^ 31.
Proof.
  intros Hs.
  unfold Positioner._seconds_to_timestamp, Positioner._timestamp_to_seconds,
    Float64.mul, Float64.div, Positioner._TIME_RESOLUTION.
  change (inject_Z 2000) with 2000%Q.
  pose proof (round_within (seconds * 2000) 32 4294967296 (1 # 4194304)
                ltac:(lia) ltac:(reflexivity) ltac:(reflexivity)) as H1.
  set (x := Float64.round (seconds * 2000)) in *.
  pose proof (py_round_error x) as H2. apply Qabs_Qle_condition in H2.
  assert (H1' := H1 ltac:(lra)).
  assert (Hts : - 2 ^ 31 <= py_round x < 2 ^ 31).
  { assert (H : (inject_Z (- 2 ^ 31) <= inject_Z (py_round x)
                 /\ inject_Z (py_round x) < inject_Z (2 ^ 31))%Q).
    { change (inject_Z (- 2 ^ 31)) with (- 2147483648 # 1)%Q.
      change (inject_Z (2 ^ 31)) with (2147483648 # 1)%Q. lra. }
    rewrite <- Zle_Qle, <- Zlt_Qlt in H. exact H. }
  set (ts := inject_Z (py_round x)) in *.
  assert (Hq : (ts / 2000 == ts * (1 # 2000))%Q) by (unfold Qdiv; reflexivity).
  pose proof (round_within (ts / 2000) 21 2097152 (1 # 8589934592)
                ltac:(lia) ltac:(reflexivity) ltac:(reflexivity)) as H3.
  set (back := Float64.round (ts / 2000)) in *.
  rewrite Hq in H3.
  assert (H3' := H3 ltac:(lra)).
  split; [|split; [|exact Hts]]; apply Qabs_Qle_condition; lra.
Qed.

Lemma seconds_round_trip_witness :
  (Qabs (Positioner._timestamp_to_seconds (Positioner._seconds_to_timestamp (1 # 3)) - (1 # 3))
   <= (1 # 4000) + (1 # 1073741824))%Q.
Proof. apply (seconds_round_trip (1 # 3)). split; discriminate. Defined.

(** ** Sending and receiving when the bus fails *)

Lemma errors_logged_count_send s :
  errors_logged (trace (count_send s)) = errors_logged (trace s).
Proof. reflexivity. Qed.

Lemma after_send_errors msg s :
  errors_logged (trace (after_send msg s))
  = errors_logged (trace s)
    ++ (if bus_send_raises s (send_calls s)
        then [Text "Error sending message"; Exc BusError] else []).
Proof.
  unfold after_send, errors_logged.
  destruct (bus_send_raises s (send_calls s)); cbn; rewrite !omap_app; cbn;
    now rewrite <- ?app_assoc, ?app_nil_r.
Qed.

Lemma after_answer_errors s :
  errors_logged (trace (after_answer s))
  = errors_logged (trace s)
    ++ (if poll_fails (bus_recv s) (recv_calls s) 5
        then [Text "Error getting message"; Exc BusError] else []).
Proof.
  unfold after_answer, errors_logged.
  destruct (poll_fails _ _ _); cbn; rewrite !omap_app, omap_replicate; cbn;
    now rewrite <- ?app_assoc, ?app_nil_r.
Qed.

(** X5. [_send_command] never lets an exception of the bus through: for
    a command of the table it returns normally whatever [send] does,
    having handed the bus exactly one extended frame with the identifier
    of the command and the payload (empty when none is given); when
    [send] raised, it has logged two error records and nothing else
    differs. For a name that is not in the table it raises [KeyError]
    before anything reaches the bus. *)
Theorem send_command_contains_bus_errors
    (COMMANDS : gmap string Z) (command : string) (extra_data : option (list byte)) (s : State) :
  match COMMANDS !! command with
  | None => Positioner._send_command COMMANDS command extra_data s = (Raise KeyError, s)
  | Some opcode =>
      exists s',
        Positioner._send_command COMMANDS command extra_data s = (Return tt, s')
        /\ sent_frames (trace s')
           = sent_frames (trace s)
             ++ [ {| arbitration_id := Z.shiftl (_canid s) 18 + Z.shiftl opcode 10;
                     data := default [] extra_data;
                     is_extended_id := true |} ]
        /\ errors_logged (trace s')
           = errors_logged (trace s)
             ++ (if bus_send_raises s (send_calls s)
                 then [Text "Error sending message"; Exc BusError] else [])
        /\ send_calls s' = S (send_calls s)
        /\ recv_calls s' = recv_calls s
        /\ status s' = status s /\ _canid s' = _canid s
  end.
Proof.
  destruct (COMMANDS !! command) as [opcode|] eqn:Hc.
  - eexists. split; [apply (send_command_run _ _ _ _ _ Hc)|].
    split; [apply after_send_sent|]. split; [apply after_send_errors|].
    unfold after_send. destruct (bus_send_raises s (send_calls s)); cbn; auto.
  - now apply send_command_unknown.
Qed.

(** X6. When [recv] raises, [_get_answer] gives up at once: after [k]
    empty polls and a poll that raises it returns None, having called
    [recv] [k + 1] times and no more, and having logged two error
    records; the exception does not reach the caller. *)
Theorem get_answer_contains_bus_errors (s : State) (k : nat) :
  (k < 5)%nat ->
  (forall j, (j < k)%nat -> bus_recv s (recv_calls s + j)%nat = RecvNone) ->
  bus_recv s (recv_calls s + k)%nat = RecvRaise ->
  exists s',
    Positioner._get_answer s = (Return None, s')
    /\ recv_calls s' = (recv_calls s + k + 1)%nat
    /\ errors_logged (trace s')
       = errors_logged (trace s) ++ [Text "Error getting message"; Exc BusError]
    /\ sent_frames (trace s') = sent_frames (trace s)
    /\ status s' = status s.
Proof.
  intros Hk Hnone Hraise.
  destruct (poll_until_failure _ _ 5 k Hk Hnone Hraise) as (Ha & Hp & Hf).
  exists (after_answer s). rewrite get_answer_run. unfold next_reply. rewrite Ha.
  split; [reflexivity|].
  destruct (after_answer_self s) as (_ & Hst & _ & _ & Hn).
  split; [rewrite Hn, Hp; lia|].
  split; [now rewrite after_answer_errors, Hf|].
  split; [apply after_answer_sent | exact Hst].
Qed.

Lemma get_answer_contains_bus_errors_witness :
  exists s',
    Positioner._get_answer (__init__ (failing_after [RecvNone; RecvNone]) reliable 4)
    = (Return None, s')
    /\ recv_calls s' = 3%nat
    /\ errors_logged (trace s') = [] ++ [Text "Error getting message"; Exc BusError]
    /\ sent_frames (trace s') = []
    /\ status s' = 0.
Proof.
  apply (get_answer_contains_bus_errors
           (__init__ (failing_after [RecvNone; RecvNone]) reliable 4) 2).
  - lia.
  - intros [|[|j]] Hj; [reflexivity | reflexivity | lia].
  - reflexivity.
Defined.

(** ** Status queries *)

Lemma after_transaction_self msg s :
  _canid (after_transaction msg s) = _canid s
  /\ status (after_transaction msg s) = status s
  /\ bus_recv (after_transaction msg s) = bus_recv s
  /\ bus_send_raises (after_transaction msg s) = bus_send_raises s
  /\ recv_calls (after_transaction msg s)
     = (recv_calls s + polls_used (bus_recv s) (recv_calls s) 5)%nat
  /\ sent_frames (trace (after_transaction msg s)) = sent_frames (trace s) ++ [msg]
  /\ sleeps (trace (after_transaction msg s)) = sleeps (trace s).
Proof.
  unfold after_transaction.
  destruct (after_answer_self (after_send msg s)) as (-> & -> & -> & -> & ->).
  destruct (after_send_self msg s) as (-> & -> & -> & -> & ->).
  rewrite after_answer_sent, after_send_sent, after_answer_sleeps, after_send_sleeps.
  repeat split; reflexivity.
Qed.

Lemma getattr_stored (raw : Z) :
  0 <= raw < 2 ^ 64 ->
  Status.getattr Status.PositionerStatus raw <$> Status.field_names Status.PositionerFlagBits
  = (fun i => Some (Z.b2z (Z.testbit raw (Z.of_nat i)))) <$> seq 0 64.
Proof.
  intros Hr.
  rewrite <- (decode_by_layout Status.PositionerStatus raw 64 eq_refl positioner_layout).
  apply list_fmap_ext. intros _ name _. unfold Status.decode, Status.set_asInt.
  change (2 ^ Status.storage Status.PositionerStatus) with (2 ^ 64).
  now rewrite Z.mod_small.
Qed.

(** X7. A status query that is answered with a known response code and
    eight bytes of payload stores that payload, read as a little-endian
    integer, as the status register: flag number [8 j + i] is then bit
    [i] of byte [j] of the payload. A query that gets no reply logs an
    error and leaves the register as it was, and so does a reply whose
    payload is not eight bytes long, which ends in [struct.error]. *)
Theorem get_status_stores_payload
    (COMMANDS : gmap string Z) (RESPONSE_CODE_NUMBER : gmap Z string)
    (opcode : Z) (s : State) :
  COMMANDS !! "GET_STATUS" = Some opcode ->
  let s1 := after_transaction (frame (_canid s) opcode []) s in
  match next_reply s with
  | None =>
      Positioner.get_status COMMANDS RESPONSE_CODE_NUMBER s
      = (Return tt, emit (Log ERROR (Text "Error with command get_status")) s1)
      /\ status s1 = status s
  | Some a =>
      is_Some (Positioner._get_response_code RESPONSE_CODE_NUMBER (arbitration_id a)) ->
      if bool_decide (length (data a) = 8%nat) then
        exists s',
          Positioner.get_status COMMANDS RESPONSE_CODE_NUMBER s = (Return tt, s')
          /\ status s' = Struct.le_int (data a)
          /\ Status.getattr Status.PositionerStatus (status s')
               <$> Status.field_names Status.PositionerFlagBits
             = (fun i => Some (Z.b2z (Z.testbit (Struct.le_int (data a)) (Z.of_nat i))))
               <$> seq 0 64
          /\ (forall (j : nat) (b : byte) (i : Z),
                data a !! j = Some b -> 0 <= i < 8 ->
                Z.testbit (status s') (8 * Z.of_nat j + i) = Z.testbit (Struct.Z_of_byte b) i)
      else
        Positioner.get_status COMMANDS RESPONSE_CODE_NUMBER s = (Raise StructError, s1)
        /\ status s1 = status s
  end.
Proof.
  intros Hc s1. rewrite (get_status_run _ _ _ Hc). fold (after_transaction (frame (_canid s) opcode []) s).
  fold s1.
  destruct (after_transaction_self (frame (_canid s) opcode []) s) as (_ & Hst & _).
  destruct (next_reply s) as [a|]; [|split; [reflexivity | exact Hst]].
  intros [r ->]. unfold Struct.unpack_Q.
  case_bool_decide as Hlen; [|split; [reflexivity | exact Hst]].
  pose proof (le_int_range (data a)) as Hr. rewrite Hlen in Hr.
  change (2 ^ (8 * Z.of_nat 8)) with (2 ^ 64) in Hr.
  eexists. split; [reflexivity|]. cbn [status with_status].
  rewrite Z.mod_small by exact Hr.
  split; [reflexivity|]. split; [now apply getattr_stored|].
  intros j b i Hj Hi. now apply testbit_le_int.
Qed.

Lemma get_status_stores_payload_witness :
  exists s',
    Positioner.get_status example_COMMANDS example_RESPONSES
      (__init__ (scripted [reply 4 3 0 [x00; x01; x00; x00; x00; x00; x00; x00]]) reliable 4)
    = (Return tt, s')
    /\ status s' = 256
    /\ Status.getattr Status.PositionerStatus (status s') "displacement_completed" = Some 1.
Proof.
  pose proof (get_status_stores_payload example_COMMANDS example_RESPONSES 3
                (__init__ (scripted [reply 4 3 0 [x00; x01; x00; x00; x00; x00; x00; x00]])
                   reliable 4) eq_refl) as H.
  cbv zeta in H.
  change (next_reply _) with
    (Some {| arbitration_id := Z.shiftl 4 18 + Z.shiftl 3 10 + 0;
             data := [x00; x01; x00; x00; x00; x00; x00; x00];
             is_extended_id := true |}) in H.
  cbv iota beta in H.
  destruct (H ltac:(exists "COMMAND_ACCEPTED"; vm_compute; reflexivity)) as (s' & Hrun & Hst & _).
  exists s'. split; [exact Hrun|]. split; [exact Hst|]. rewrite Hst. reflexivity.
Defined.

(** ** Waiting for the end of a motion: what ends the wait *)

Section WaitMove.

Variable COMMANDS : gmap string Z.
Variable RESPONSE_CODE_NUMBER : gmap Z string.
Variable opcode : Z.
Hypothesis GET_STATUS_defined : COMMANDS !! "GET_STATUS" = Some opcode.

Lemma wait_move_loop_done (fuel : nat) (s : State) :
  Z.testbit (status s) 8 = true ->
  Positioner.wait_move_loop COMMANDS RESPONSE_CODE_NUMBER fuel s = (Return tt, s).
Proof using Type.
  intros Hbit. destruct fuel; cbn [Positioner.wait_move_loop];
    now rewrite displacement_pending_bit, Hbit.
Qed.

(** A query answered at the first poll. *)
Lemma get_status_answered (s : State) (a : Message) :
  bus_recv s (recv_calls s) = RecvMsg a ->
  is_Some (Positioner._get_response_code RESPONSE_CODE_NUMBER (arbitration_id a)) ->
  length (data a) = 8%nat ->
  exists s',
    Positioner.get_status COMMANDS RESPONSE_CODE_NUMBER s = (Return tt, s')
    /\ status s' = Struct.le_int (data a)
    /\ bus_recv s' = bus_recv s /\ _canid s' = _canid s
    /\ recv_calls s' = S (recv_calls s)
    /\ sent_frames (trace s') = sent_frames (trace s) ++ [frame (_canid s) opcode []]
    /\ sleeps (trace s') = sleeps (trace s).
Proof using GET_STATUS_defined.
  intros Hrecv [r Hr] Hlen.
  rewrite (get_status_run _ _ _ GET_STATUS_defined).
  fold (after_transaction (frame (_canid s) opcode []) s).
  destruct (after_transaction_self (frame (_canid s) opcode []) s)
    as (Hid & Hst & Hbus & _ & Hn & Hsent & Hsl).
  assert (Hreply : next_reply s = Some a) by (unfold next_reply; cbn; now rewrite Hrecv).
  assert (Hpolls : polls_used (bus_recv s) (recv_calls s) 5 = 1%nat) by (cbn; now rewrite Hrecv).
  rewrite Hreply, Hr. unfold Struct.unpack_Q. rewrite bool_decide_eq_true_2 by exact Hlen.
  pose proof (le_int_range (data a)) as Hrange. rewrite Hlen in Hrange.
  change (2 ^ (8 * Z.of_nat 8)) with (2 ^ 64) in Hrange.
  eexists. split; [reflexivity|]. cbn [status with_status bus_recv _canid recv_calls trace].
  rewrite Z.mod_small by exact Hrange. rewrite Hn, Hpolls.
  repeat split; auto. lia.
Qed.

Lemma wait_move_loop_completes (n fuel : nat) (s : State) (m : nat -> Message) :
  (n <= fuel)%nat ->
  Z.testbit (status s) 8 = bool_decide (n = 0%nat) ->
  (forall k, (k < n)%nat ->
     bus_recv s (recv_calls s + k)%nat = RecvMsg (m k)
     /\ is_Some (Positioner._get_response_code RESPONSE_CODE_NUMBER (arbitration_id (m k)))
     /\ length (data (m k)) = 8%nat
     /\ Z.testbit (Struct.le_int (data (m k))) 8 = bool_decide (S k = n)) ->
  exists s',
    Positioner.wait_move_loop COMMANDS RESPONSE_CODE_NUMBER fuel s = (Return tt, s')
    /\ Z.testbit (status s') 8 = true
    /\ sent_frames (trace s')
       = sent_frames (trace s) ++ replicate n (frame (_canid s) opcode [])
    /\ sleeps (trace s') = sleeps (trace s) ++ replicate n (1 # 2)%Q.
Proof using GET_STATUS_defined.
  revert fuel s m. induction n as [|n IH]; intros fuel s m Hfuel Hbit Hdev.
  - exists s. rewrite wait_move_loop_done by exact Hbit. cbn. now rewrite !app_nil_r.
  - destruct fuel as [|fuel]; [lia|].
    cbn [Positioner.wait_move_loop]. rewrite displacement_pending_bit, Hbit. cbn [negb].
    rewrite bool_decide_eq_false_2 by lia. cbn [negb].
    destruct (Hdev 0%nat ltac:(lia)) as (Hrecv & Hcode & Hlen & Hflag).
    rewrite Nat.add_0_r in Hrecv.
    destruct (get_status_answered s (m 0%nat) Hrecv Hcode Hlen)
      as (s1 & Hrun & Hst1 & Hbus1 & Hid1 & Hn1 & Hsent1 & Hsl1).
    rewrite (bind_Return _ _ _ _ _ Hrun). unfold bind at 1, sleep.
    destruct (IH fuel (emit (Sleep (1 # 2)) s1) (fun k => m (S k))) as (s' & Hloop & Hb' & Hsent' & Hsl').
    { lia. }
    { cbn [status emit]. rewrite Hst1, Hflag.
      destruct n; [now rewrite !bool_decide_eq_true_2 | now rewrite !bool_decide_eq_false_2 by lia]. }
    { intros k Hk. cbn [bus_recv recv_calls emit]. rewrite Hbus1, Hn1.
      destruct (Hdev (S k) ltac:(lia)) as (Hr & Hc & Hl & Hf).
      replace (S (recv_calls s) + k)%nat with (recv_calls s + S k)%nat by lia.
      repeat split; auto. rewrite Hf.
      destruct (decide (S k = n)); [now rewrite !bool_decide_eq_true_2 by lia
                                   | now rewrite !bool_decide_eq_false_2 by lia]. }
    exists s'. split; [exact Hloop|]. split; [exact Hb'|].
    rewrite Hsent', Hsl', sent_frames_emit_sleep, sleeps_emit_sleep.
    cbn [emit _canid]. rewrite Hsent1, Hsl1, Hid1, <- !app_assoc. split; reflexivity.
Qed.

End WaitMove.

(** X8. [wait_move] returns as soon as a status reply has the
    [displacement_completed] flag set: against a positioner that answers
    every query at once and sets the flag in its [n + 1]-th reply and not
    before, it returns after exactly [n + 1] status queries and [n]
    sleeps of 0.5 s, whenever it is allowed at least [n] iterations. *)
Theorem wait_move_returns_on_completion
    (COMMANDS : gmap string Z) (RESPONSE_CODE_NUMBER : gmap Z string)
    (opcode : Z) (n fuel : nat) (s : State) (m : nat -> Message) :
  COMMANDS !! "GET_STATUS" = Some opcode ->
  (n <= fuel)%nat ->
  (forall k, (k <= n)%nat ->
     bus_recv s (recv_calls s + k)%nat = RecvMsg (m k)
     /\ is_Some (Positioner._get_response_code RESPONSE_CODE_NUMBER (arbitration_id (m k)))
     /\ length (data (m k)) = 8%nat
     /\ Z.testbit (Struct.le_int (data (m k))) 8 = bool_decide (k = n)) ->
  exists s',
    Positioner.wait_move COMMANDS RESPONSE_CODE_NUMBER fuel s = (Return VNone, s')
    /\ Status.getattr Status.PositionerStatus (status s') "displacement_completed" = Some 1
    /\ sent_frames (trace s')
       = sent_frames (trace s) ++ replicate (S n) (frame (_canid s) opcode [])
    /\ sleeps (trace s') = sleeps (trace s) ++ replicate n (1 # 2)%Q.
Proof.
  intros Hc Hfuel Hdev.
  destruct (Hdev 0%nat ltac:(lia)) as (Hrecv & Hcode & Hlen & Hflag).
  rewrite Nat.add_0_r in Hrecv.
  destruct (get_status_answered _ RESPONSE_CODE_NUMBER _ Hc s (m 0%nat) Hrecv Hcode Hlen)
    as (s1 & Hrun & Hst1 & Hbus1 & Hid1 & Hn1 & Hsent1 & Hsl1).
  destruct (wait_move_loop_completes _ RESPONSE_CODE_NUMBER _ Hc n fuel s1 (fun k => m (S k)))
    as (s' & Hloop & Hb' & Hsent' & Hsl').
  { exact Hfuel. }
  { rewrite Hst1, Hflag.
    destruct n; [now rewrite !bool_decide_eq_true_2 | now rewrite !bool_decide_eq_false_2 by lia]. }
  { intros k Hk. rewrite Hbus1, Hn1.
    destruct (Hdev (S k) ltac:(lia)) as (Hr & Hcd & Hl & Hf).
    replace (S (recv_calls s) + k)%nat with (recv_calls s + S k)%nat by lia.
    repeat split; auto. }
  exists s'. unfold Positioner.wait_move.
  rewrite (bind_Return _ _ _ _ _ Hrun), (bind_Return _ _ _ _ _ Hloop).
  split; [reflexivity|]. split; [now rewrite displacement_completed_bit, Hb'|].
  rewrite Hsent', Hsl', Hsent1, Hsl1, Hid1, <- app_assoc. split; reflexivity.
Qed.

Lemma wait_move_returns_on_completion_witness :
  exists s',
    Positioner.wait_move example_COMMANDS example_RESPONSES 5
      (__init__ (reporting_each 4 3 [0; 0] 256) reliable 4) = (Return VNone, s')
    /\ Status.getattr Status.PositionerStatus (status s') "displacement_completed" = Some 1
    /\ sent_frames (trace s') = [] ++ replicate 3 (frame 4 3 [])
    /\ sleeps (trace s') = [] ++ replicate 2 (1 # 2)%Q.
Proof.
  apply (wait_move_returns_on_completion example_COMMANDS example_RESPONSES 3 2 5
           (__init__ (reporting_each 4 3 [0; 0] 256) reliable 4)
           (fun k => {| arbitration_id := Z.shiftl 4 18 + Z.shiftl 3 10;
                        data := Struct.le_bytes 8 (default 256 ([0; 0] !! k));
                        is_extended_id := true |})).
  - reflexivity.
  - lia.
  - intros [|[|[|k]]] Hk; try lia;
      (split; [reflexivity|]; split; [exists "COMMAND_ACCEPTED"; reflexivity|];
       split; reflexivity).
Defined.

(** X9. A flag left set by an earlier query ends the wait without any
    word from the positioner: when the stored status has
    [displacement_completed] set and the status query of [wait_move] gets
    no reply, [wait_move] returns after that one query, without sleeping
    and with the register unchanged, whatever the number of iterations
    it is allowed. *)
Theorem wait_move_trusts_stale_flag
    (COMMANDS : gmap string Z) (RESPONSE_CODE_NUMBER : gmap Z string)
    (opcode : Z) (fuel : nat) (s : State) :
  COMMANDS !! "GET_STATUS" = Some opcode ->
  Status.getattr Status.PositionerStatus (status s) "displacement_completed" = Some 1 ->
  next_reply s = None ->
  exists s',
    Positioner.wait_move COMMANDS RESPONSE_CODE_NUMBER fuel s = (Return VNone, s')
    /\ status s' = status s
    /\ sent_frames (trace s') = sent_frames (trace s) ++ [frame (_canid s) opcode []]
    /\ sleeps (trace s') = sleeps (trace s)
    /\ last (errors_logged (trace s')) = Some (Text "Error with command get_status").
Proof.
  intros Hc Hflag Hreply.
  assert (Hbit : Z.testbit (status s) 8 = true).
  { rewrite displacement_completed_bit in Hflag.
    destruct (Z.testbit (status s) 8); [reflexivity | discriminate]. }
  unfold Positioner.wait_move.
  pose proof (get_status_run _ RESPONSE_CODE_NUMBER _ Hc s) as Hrun. cbv zeta in Hrun.
  rewrite Hreply in Hrun. fold (after_transaction (frame (_canid s) opcode []) s) in Hrun.
  destruct (after_transaction_self (frame (_canid s) opcode []) s)
    as (_ & Hst & _ & _ & _ & Hsent & Hsl).
  rewrite (bind_Return _ _ _ _ _ Hrun).
  set (s2 := emit (Log ERROR (Text "Error with command get_status"))
               (after_transaction (frame (_canid s) opcode []) s)).
  assert (Hbit2 : Z.testbit (status s2) 8 = true) by (subst s2; cbn [status emit]; now rewrite Hst).
  rewrite (bind_Return _ _ _ _ _ (wait_move_loop_done COMMANDS RESPONSE_CODE_NUMBER fuel s2 Hbit2)).
  exists s2. split; [reflexivity|]. subst s2. cbn [status emit].
  split; [exact Hst|].
  rewrite sent_frames_emit_log, sleeps_emit_log, errors_logged_emit_error.
  split; [exact Hsent|]. split; [exact Hsl | apply last_snoc].
Qed.

Lemma wait_move_trusts_stale_flag_witness :
  exists s',
    Positioner.wait_move example_COMMANDS example_RESPONSES 0
      (with_status 256 (__init__ silent reliable 4)) = (Return VNone, s')
    /\ status s' = 256
    /\ sent_frames (trace s') = [] ++ [frame 4 3 []]
    /\ sleeps (trace s') = []
    /\ last (errors_logged (trace s')) = Some (Text "Error with command get_status").
Proof.
  apply (wait_move_trusts_stale_flag example_COMMANDS example_RESPONSES 3 0
           (with_status 256 (__init__ silent reliable 4))); reflexivity.
Defined.

(** ** Commands that are only acknowledged *)

Lemma after_transaction_errors msg s :
  errors_logged (trace (after_transaction msg s))
  = errors_logged (trace s)
    ++ (if bus_send_raises s (send_calls s)
        then [Text "Error sending message"; Exc BusError] else [])
    ++ (if poll_fails (bus_recv s) (recv_calls s) 5
        then [Text "Error getting message"; Exc BusError] else []).
Proof.
  unfold after_transaction. rewrite after_answer_errors, after_send_errors.
  destruct (after_send_self msg s) as (_ & _ & -> & _ & ->).
  now rewrite <- app_assoc.
Qed.

Section Transactions.

Variable COMMANDS : gmap string Z.
Variable RESPONSE_CODE_NUMBER : gmap Z string.

(** What every method starts with: the command goes out, the reply is
    awaited, and the rest of the method sees the reply. *)
Lemma transaction_step {A} (command : string) (extra_data : option (list byte)) (opcode : Z)
    (k : option Message -> M A) (s : State) :
  COMMANDS !! command = Some opcode ->
  (Positioner._send_command COMMANDS command extra_data;;
   answer <- Positioner._get_answer;;
   k answer) s
  = k (next_reply s) (after_transaction (frame (_canid s) opcode (default [] extra_data)) s).
Proof using Type.
  intros Hc.
  rewrite (bind_Return _ _ _ _ _ (send_command_run COMMANDS _ _ _ s Hc)).
  rewrite (bind_Return _ _ _ _ _ (get_answer_run _)).
  now rewrite next_reply_after_send.
Qed.

Lemma acknowledged_run (command : string) (extra_data : option (list byte)) (failure : string)
    (opcode : Z) (s : State) :
  COMMANDS !! command = Some opcode ->
  Positioner.acknowledged COMMANDS RESPONSE_CODE_NUMBER command extra_data failure s
  = let s1 := after_transaction (frame (_canid s) opcode (default [] extra_data)) s in
    match next_reply s with
    | None => (Return tt, emit (Log ERROR (Text failure)) s1)
    | Some a =>
        match Positioner._get_response_code RESPONSE_CODE_NUMBER (arbitration_id a) with
        | Some _ => (Return tt, s1)
        | None => (Raise KeyError, s1)
        end
    end.
Proof using Type.
  intros Hc. unfold Positioner.acknowledged.
  rewrite (transaction_step _ _ _ _ _ Hc). cbv zeta.
  destruct (next_reply s) as [a|]; [|reflexivity].
  destruct (Positioner._get_response_code RESPONSE_CODE_NUMBER (arbitration_id a)); reflexivity.
Qed.

Lemma unchecked_run (command : string) (opcode : Z) (s : State) :
  COMMANDS !! command = Some opcode ->
  Positioner.unchecked COMMANDS RESPONSE_CODE_NUMBER command s
  = let s1 := after_transaction (frame (_canid s) opcode []) s in
    match next_reply s with
    | None => (Return tt, s1)
    | Some a =>
        match Positioner._get_response_code RESPONSE_CODE_NUMBER (arbitration_id a) with
        | Some _ => (Return tt, s1)
        | None => (Raise KeyError, s1)
        end
    end.
Proof using Type.
  intros Hc. unfold Positioner.unchecked.
  rewrite (transaction_step _ _ _ _ _ Hc). cbv zeta.
  destruct (next_reply s) as [a|]; [|reflexivity].
  destruct (Positioner._get_response_code RESPONSE_CODE_NUMBER (arbitration_id a)); reflexivity.
Qed.

Lemma set_position_unfold (alpha beta : Q) (s : State) :
  Positioner.set_position COMMANDS RESPONSE_CODE_NUMBER alpha beta s
  = (packetdata <- or_raise StructError
       (Struct.pack_ii (Positioner._angle_to_position alpha)
                       (Positioner._angle_to_position beta));;
     Positioner.acknowledged COMMANDS RESPONSE_CODE_NUMBER "SET_ACTUAL_POSITION"
       (Some packetdata) "Error with command set_position") s.
Proof using Type. reflexivity. Qed.

Lemma call_payload_position (alpha beta : Q) :
  call_payload (SetPosition alpha beta)
  = Struct.pack_ii (Positioner._angle_to_position alpha) (Positioner._angle_to_position beta).
Proof using Type. reflexivity. Qed.

(** Each call is its packing step followed by the shared body. *)
Lemma run_call_body (c : acknowledged_call) (payload : list byte) (s : State) :
  call_payload c = Some payload ->
  exists extra_data,
    default [] extra_data = payload
    /\ run_call COMMANDS RESPONSE_CODE_NUMBER c s
       = Positioner.acknowledged COMMANDS RESPONSE_CODE_NUMBER
           (call_command c) extra_data (call_failure c) s.
Proof using Type.
  intros Hp.
  destruct c as [alpha beta|a b|a b|a b|[[]| |]| | | |a b| |].
  { exists (Some payload). split; [reflexivity|].
    change (run_call COMMANDS RESPONSE_CODE_NUMBER (SetPosition alpha beta) s)
      with (Positioner.set_position COMMANDS RESPONSE_CODE_NUMBER alpha beta s).
    rewrite set_position_unfold.
    rewrite call_payload_position in Hp. rewrite Hp. reflexivity. }
  all: cbn [call_payload] in Hp; cbn [run_call call_command call_failure];
    unfold Positioner.set_speed, Positioner.set_current,
      Positioner.set_low_current, Positioner.set_low_power_mode,
      Positioner.initialize_datums, Positioner.initialize_datum_alpha,
      Positioner.initialize_datum_beta, Positioner.write_flash,
      Positioner.request_reboot, Positioner.calib_motors;
    cbv zeta; cbn [Positioner.is_True];
    first [ rewrite Hp; cbn [or_raise]; unfold bind at 1, ret at 1;
            exists (Some payload); split; reflexivity
          | injection Hp as <-; exists None; split; reflexivity ].
Qed.

Lemma run_call_misfit (c : acknowledged_call) (s : State) :
  call_payload c = None ->
  run_call COMMANDS RESPONSE_CODE_NUMBER c s = (Raise StructError, s).
Proof using Type.
  intros Hp.
  destruct c as [alpha beta|a b|a b|a b|enable| | | |a b| |].
  { change (run_call COMMANDS RESPONSE_CODE_NUMBER (SetPosition alpha beta) s)
      with (Positioner.set_position COMMANDS RESPONSE_CODE_NUMBER alpha beta s).
    rewrite set_position_unfold.
    rewrite call_payload_position in Hp. rewrite Hp. reflexivity. }
  all: cbn [call_payload] in Hp; try discriminate; cbn [run_call];
    unfold Positioner.set_speed, Positioner.set_current,
      Positioner.set_low_current, Positioner.write_flash;
    rewrite Hp; cbn [or_raise]; unfold bind at 1, raise at 1; reflexivity.
Qed.

End Transactions.

(** X10. The eleven methods that send one command and only look at the
    response code of the reply ([set_position], [set_speed],
    [set_current], [set_low_current], [set_low_power_mode],
    [initialize_datums], [initialize_datum_alpha],
    [initialize_datum_beta], [write_flash], [request_reboot],
    [calib_motors]) all behave alike once their arguments are packed:
    exactly one frame goes out, with the identifier of the command and
    the packed arguments; without a reply the method returns normally
    after logging its own error text; with a reply whose response code
    is in the table it returns normally and logs nothing; with a reply
    whose response code is not in the table it raises [KeyError]. The
    status register is never touched. *)
Theorem acknowledged_calls_contract
    (COMMANDS : gmap string Z) (RESPONSE_CODE_NUMBER : gmap Z string)
    (c : acknowledged_call) (opcode : Z) (payload : list byte) (s : State) :
  COMMANDS !! call_command c = Some opcode ->
  call_payload c = Some payload ->
  exists s1,
    sent_frames (trace s1) = sent_frames (trace s) ++ [frame (_canid s) opcode payload]
    /\ status s1 = status s
    /\ errors_logged (trace s1)
       = errors_logged (trace s)
         ++ (if bus_send_raises s (send_calls s)
             then [Text "Error sending message"; Exc BusError] else [])
         ++ (if poll_fails (bus_recv s) (recv_calls s) 5
             then [Text "Error getting message"; Exc BusError] else [])
    /\ run_call COMMANDS RESPONSE_CODE_NUMBER c s
       = match next_reply s with
         | None => (Return tt, emit (Log ERROR (Text (call_failure c))) s1)
         | Some a =>
             match Positioner._get_response_code RESPONSE_CODE_NUMBER (arbitration_id a) with
             | Some _ => (Return tt, s1)
             | None => (Raise KeyError, s1)
             end
         end.
Proof.
  intros Hc Hp. exists (after_transaction (frame (_canid s) opcode payload) s).
  destruct (after_transaction_self (frame (_canid s) opcode payload) s)
    as (_ & Hst & _ & _ & _ & Hsent & _).
  split; [exact Hsent|]. split; [exact Hst|]. split; [apply after_transaction_errors|].
  destruct (run_call_body COMMANDS RESPONSE_CODE_NUMBER c payload s Hp) as (extra & Hd & ->).
  rewrite (acknowledged_run _ _ _ _ _ _ _ Hc). cbv zeta. rewrite Hd. reflexivity.
Qed.

Lemma acknowledged_calls_contract_witness :
  exists s1,
    sent_frames (trace s1)
    = [] ++ [frame 4 40 [xe8; x03; x00; x00; xb8; x0b; x00; x00]]
    /\ status s1 = 0
    /\ errors_logged (trace s1) = [] ++ [] ++ []
    /\ run_call example_COMMANDS_all example_RESPONSES (SetSpeed 1000 3000)
         (__init__ silent reliable 4)
       = (Return tt, emit (Log ERROR (Text "Error with command set speed")) s1).
Proof.
  apply (acknowledged_calls_contract example_COMMANDS_all example_RESPONSES
           (SetSpeed 1000 3000) 40 [xe8; x03; x00; x00; xb8; x0b; x00; x00]
           (__init__ silent reliable 4)); reflexivity.
Defined.

(** X11. An argument that does not fit its field stops the call before
    anything is sent: [struct.error] is raised and the bus, the log and
    the positioner object are untouched. For the four calls with two
    unsigned 32-bit arguments that is any negative argument and any
    argument from 2^32 on; for [set_position] any angle whose counts leave
    the signed 32-bit range. *)
Theorem misfit_argument_raises_before_sending
    (COMMANDS : gmap string Z) (RESPONSE_CODE_NUMBER : gmap Z string)
    (c : acknowledged_call) (s : State) :
  call_payload c = None ->
  run_call COMMANDS RESPONSE_CODE_NUMBER c s = (Raise StructError, s)
  /\ match c with
     | SetSpeed a b | SetCurrent a b | SetLowCurrent a b | WriteFlash a b =>
         ~ (0 <= a < 2 ^ 32 /\ 0 <= b < 2 ^ 32)
     | SetPosition alpha beta =>
         ~ (- 2 ^ 31 <= Positioner._angle_to_position alpha < 2 ^ 31
            /\ - 2 ^ 31 <= Positioner._angle_to_position beta < 2 ^ 31)
     | _ => False
     end.
Proof.
  intros Hp. split.
  - now apply run_call_misfit.
  - destruct c as [alpha beta|a b|a b|a b|enable| | | |a b| |];
      [rewrite call_payload_position in Hp; now apply pack_ii_None|..];
      cbn [call_payload] in Hp; try discriminate; now apply pack_II_None.
Qed.

(** Two full turns forward are one count too many. *)
Lemma misfit_argument_raises_before_sending_witness :
  let s := __init__ silent reliable 4 in
  run_call example_COMMANDS_all example_RESPONSES (SetPosition 720 0) s = (Raise StructError, s)
  /\ ~ (- 2 ^ 31 <= Positioner._angle_to_position 720 < 2 ^ 31
        /\ - 2 ^ 31 <= Positioner._angle_to_position 0 < 2 ^ 31).
Proof.
  intros s.
  apply (misfit_argument_raises_before_sending example_COMMANDS_all example_RESPONSES
           (SetPosition 720 0) s).
  vm_compute. reflexivity.
Defined.

(** X12. [start_trajectory], [stop_trajectory] and [erase_flash] have no
    branch for a missing reply: when none comes they return normally and
    log nothing of their own, so that neither the caller nor the log can
    tell; only an exception of the bus itself leaves records. *)
Theorem unchecked_calls_hide_missing_reply
    (COMMANDS : gmap string Z) (RESPONSE_CODE_NUMBER : gmap Z string)
    (c : unchecked_call) (opcode : Z) (s : State) :
  COMMANDS !! unchecked_command c = Some opcode ->
  next_reply s = None ->
  exists s',
    run_unchecked COMMANDS RESPONSE_CODE_NUMBER c s = (Return tt, s')
    /\ sent_frames (trace s') = sent_frames (trace s) ++ [frame (_canid s) opcode []]
    /\ errors_logged (trace s')
       = errors_logged (trace s)
         ++ (if bus_send_raises s (send_calls s)
             then [Text "Error sending message"; Exc BusError] else [])
         ++ (if poll_fails (bus_recv s) (recv_calls s) 5
             then [Text "Error getting message"; Exc BusError] else [])
    /\ status s' = status s.
Proof.
  intros Hc Hreply. exists (after_transaction (frame (_canid s) opcode []) s).
  destruct (after_transaction_self (frame (_canid s) opcode []) s)
    as (_ & Hst & _ & _ & _ & Hsent & _).
  split; [|split; [exact Hsent | split; [apply after_transaction_errors | exact Hst]]].
  assert (Hrun : run_unchecked COMMANDS RESPONSE_CODE_NUMBER c
                 = Positioner.unchecked COMMANDS RESPONSE_CODE_NUMBER (unchecked_command c))
    by (destruct c; reflexivity).
  rewrite Hrun, (unchecked_run _ _ _ _ _ Hc), Hreply. reflexivity.
Qed.

Lemma unchecked_calls_hide_missing_reply_witness :
  exists s',
    run_unchecked example_COMMANDS_all example_RESPONSES StartTrajectory
      (__init__ silent reliable 4) = (Return tt, s')
    /\ sent_frames (trace s') = [] ++ [frame 4 14 []]
    /\ errors_logged (trace s') = [] ++ [] ++ []
    /\ status s' = 0.
Proof.
  apply (unchecked_calls_hide_missing_reply example_COMMANDS_all example_RESPONSES
           StartTrajectory 14 (__init__ silent reliable 4)); reflexivity.
Defined.

(** ** Reading the position back *)

Lemma unpack_ii_pack_ii (a b : Z) (d : list byte) :
  Struct.pack_ii a b = Some d ->
  Struct.unpack_ii d = Some (a, b)
  /\ (- 2 ^ 31 <= a < 2 ^ 31) /\ (- 2 ^ 31 <= b < 2 ^ 31).
Proof.
  intros H.
  destruct (decide (- 2 ^ 31 <= a < 2 ^ 31 /\ - 2 ^ 31 <= b < 2 ^ 31)) as [[Ha Hb]|Hn].
  - rewrite (pack_ii_fits _ _ Ha Hb) in H. injection H as <-.
    split; [now apply unpack_ii_packed | auto].
  - apply pack_ii_None in Hn. congruence.
Qed.

(** X13. [get_position] reports in degrees the two position counts the
    reply carries as signed 32-bit integers, and nothing is lost on the
    way: converted back, the angles it returns are exactly the counts
    the positioner sent. It sends one frame without payload and leaves
    the status register alone. Without a reply it logs an error and
    returns None; a reply whose payload is not eight bytes long ends in
    [struct.error]. *)
Theorem get_position_reports_counts
    (COMMANDS : gmap string Z) (RESPONSE_CODE_NUMBER : gmap Z string)
    (opcode : Z) (s : State) :
  COMMANDS !! "GET_ACTUAL_POSITION" = Some opcode ->
  let s1 := after_transaction (frame (_canid s) opcode []) s in
  let r := Positioner.get_position COMMANDS RESPONSE_CODE_NUMBER s in
  sent_frames (trace (snd r)) = sent_frames (trace s) ++ [frame (_canid s) opcode []]
  /\ status (snd r) = status s
  /\ match next_reply s with
     | None =>
         r = (Return None, emit (Log ERROR (Text "Error with command get_position")) s1)
     | Some a =>
         is_Some (Positioner._get_response_code RESPONSE_CODE_NUMBER (arbitration_id a)) ->
         (length (data a) <> 8%nat -> r = (Raise StructError, s1))
         /\ (forall alpha_counts beta_counts,
               Struct.pack_ii alpha_counts beta_counts = Some (data a) ->
               exists alpha beta,
                 r = (Return (Some (alpha, beta)), s1)
                 /\ alpha = Positioner._position_to_angle alpha_counts
                 /\ beta = Positioner._position_to_angle beta_counts
                 /\ Positioner._angle_to_position alpha = alpha_counts
                 /\ Positioner._angle_to_position beta = beta_counts)
     end.
Proof.
  intros Hc s1 r. subst r. unfold Positioner.get_position.
  rewrite (transaction_step COMMANDS _ _ _ _ _ Hc). cbn [default]. fold s1.
  destruct (after_transaction_self (frame (_canid s) opcode []) s)
    as (_ & Hst & _ & _ & _ & Hsent & _). fold s1 in Hst, Hsent.
  destruct (next_reply s) as [a|].
  2:{ rewrite (bind_Return _ _ _ _ _ (log_error_run _ _)). cbn [fst snd ret].
      rewrite sent_frames_emit_log. cbn [status emit]. auto. }
  destruct (Positioner._get_response_code RESPONSE_CODE_NUMBER (arbitration_id a))
    as [code|] eqn:Hcode.
  2:{ cbn [or_raise]. unfold bind at 1, raise at 1. cbn [fst snd].
      split; [exact Hsent|]. split; [exact Hst|]. intros [? [=]]. }
  cbn [or_raise]. unfold bind at 1, ret at 1.
  rewrite (bind_Return _ _ _ _ _ (log_debug_run _ _)).
  destruct (Struct.unpack_ii (data a)) as [[pa pb]|] eqn:Hu; cbn [or_raise].
  - unfold bind at 1, ret at 1. cbv zeta. cbn [fst snd].
    rewrite (bind_Return _ _ _ _ _ (log_debug_run _ _)).
    rewrite (bind_Return _ _ _ _ _ (log_debug_run _ _)).
    unfold ret. cbn [fst snd].
    split; [exact Hsent|]. split; [exact Hst|]. intros _. split.
    + intros Hlen. unfold Struct.unpack_ii in Hu.
      rewrite bool_decide_eq_false_2 in Hu by exact Hlen. discriminate.
    + intros ca cb Hp. destruct (unpack_ii_pack_ii _ _ _ Hp) as (Hu' & Ha & Hb).
      rewrite Hu in Hu'. injection Hu' as -> ->.
      eexists _, _. split; [reflexivity|]. split; [reflexivity|]. split; [reflexivity|].
      split; now apply position_there_and_back.
  - unfold bind at 1, raise at 1. cbn [fst snd].
    split; [exact Hsent|]. split; [exact Hst|]. intros _. split; [reflexivity|].
    intros ca cb Hp. destruct (unpack_ii_pack_ii _ _ _ Hp) as (Hu' & _). congruence.
Qed.

Lemma get_position_reports_counts_witness :
  let s := __init__ (scripted [reply 4 32 0 [xff; xff; xff; xff; x00; x00; x00; x10]])
             reliable 4 in
  exists alpha beta,
    fst (Positioner.get_position example_COMMANDS_all example_RESPONSES s)
    = Return (Some (alpha, beta))
    /\ Positioner._angle_to_position alpha = -1
    /\ Positioner._angle_to_position beta = 268435456.
Proof.
  intros s.
  pose proof (get_position_reports_counts example_COMMANDS_all example_RESPONSES 32 s
                eq_refl) as H.
  cbv zeta in H. destruct H as (_ & _ & H).
  change (next_reply s) with
    (Some {| arbitration_id := Z.shiftl 4 18 + Z.shiftl 32 10 + 0;
             data := [xff; xff; xff; xff; x00; x00; x00; x10];
             is_extended_id := true |}) in H.
  cbv iota beta in H.
  destruct (H ltac:(exists "COMMAND_ACCEPTED"; reflexivity)) as (_ & Hdec).
  destruct (Hdec (-1) 268435456 eq_refl) as (alpha & beta & Hr & _ & _ & Ha & Hb).
  exists alpha, beta. rewrite Hr. auto.
Defined.

(** ** Reading the external flash *)

(** X14. [read_flash] never looks at the response code of the reply
    (the table of response codes is no input of it): whatever code the
    reply carries, in the table or not, a payload of
    four bytes is returned as the unsigned 32-bit value it encodes,
    least significant byte first. The address goes out as the four-byte
    payload of the one frame sent. Without a reply None is returned and
    an error logged. *)
Theorem read_flash_ignores_response_code
    (COMMANDS : gmap string Z) (opcode address : Z) (s : State) :
  COMMANDS !! "READ_EXT_FLASH" = Some opcode ->
  0 <= address < 2 ^ 32 ->
  let request := frame (_canid s) opcode (Struct.le_bytes 4 address) in
  let r := Positioner.read_flash COMMANDS address s in
  sent_frames (trace (snd r)) = sent_frames (trace s) ++ [request]
  /\ match next_reply s with
     | None =>
         r = (Return None,
              emit (Log ERROR (Text "Error with command read_flash"))
                (after_transaction request s))
     | Some a =>
         length (data a) = 4%nat ->
         r = (Return (Some (Struct.le_int (data a))), after_transaction request s)
         /\ 0 <= Struct.le_int (data a) < 2 ^ 32
     end.
Proof.
  intros Hc Ha request r.
  assert (Hrun : r = match next_reply s with
                     | Some a =>
                         (value <- or_raise StructError (Struct.unpack_I (data a));;
                          log_debug "content of ext flash";;
                          ret (Some value)) (after_transaction request s)
                     | None =>
                         (Return None,
                          emit (Log ERROR (Text "Error with command read_flash"))
                            (after_transaction request s))
                     end).
  { subst r. unfold Positioner.read_flash.
    rewrite pack_I_fits by exact Ha. cbn [or_raise]. unfold bind at 1, ret at 1.
    rewrite (transaction_step COMMANDS _ _ _ _ _ Hc). cbn [default]. fold request.
    destruct (next_reply s); reflexivity. }
  clearbody r. subst r.
  destruct (after_transaction_self request s) as (_ & _ & _ & _ & _ & Hsent & _).
  destruct (next_reply s) as [a|].
  2:{ cbn [fst snd]. rewrite sent_frames_emit_log. split; [exact Hsent | reflexivity]. }
  unfold Struct.unpack_I. case_bool_decide as Hlen; cbn [or_raise].
  - unfold bind at 1, ret at 1. rewrite (bind_Return _ _ _ _ _ (log_debug_run _ _)).
    unfold ret. cbn [fst snd]. split; [exact Hsent|]. intros _. split; [reflexivity|].
    pose proof (le_int_range (data a)) as Hr. rewrite Hlen in Hr. exact Hr.
  - unfold bind at 1, raise at 1. cbn [fst snd]. split; [exact Hsent|]. intros; contradiction.
Qed.

Lemma read_flash_ignores_response_code_witness :
  let s := __init__ (scripted [reply 4 61 5 [x78; x56; x34; x12]]) reliable 4 in
  Positioner._get_response_code example_RESPONSES (Z.shiftl 4 18 + Z.shiftl 61 10 + 5) = None
  /\ fst (Positioner.read_flash example_COMMANDS_all 16 s)
     = Return (Some 0x12345678)
  /\ sent_frames (trace (snd (Positioner.read_flash example_COMMANDS_all 16 s)))
     = [frame 4 61 [x10; x00; x00; x00]].
Proof.
  intros s. split; [reflexivity|].
  pose proof (read_flash_ignores_response_code example_COMMANDS_all 61 16 s
                eq_refl ltac:(lia)) as H.
  cbv zeta in H. destruct H as (Hsent & H).
  change (next_reply s) with
    (Some {| arbitration_id := Z.shiftl 4 18 + Z.shiftl 61 10 + 5;
             data := [x78; x56; x34; x12];
             is_extended_id := true |}) in H.
  cbv iota beta in H. destruct (H eq_refl) as (Hr & _).
  split; [rewrite Hr; reflexivity | exact Hsent].
Defined.
